(** * Cart Check (backend/main.py): onboarding dialogue, selection parsing,
      classifier adapter and report formatter.

    Shallow embedding of the Python module [backend/main.py].

    Conventions of the embedding.
    - A Python [str] is a [string]; each [ascii] is one code point in
      the range 0..255, and the character classes below ([py_isspace],
      [py_isdigit_char], [py_lower_char]) are the Unicode ones restricted
      to that range.  The fixed message texts of the bot contain glyphs
      outside that range; the literals hold them as their UTF-8 bytes.
      Such text is only ever concatenated and compared by the code.
    - The two module-level dictionaries [user_profiles] and [user_states]
      are [gmap]s keyed by the phone number; messages handed to
      [send_whatsapp_message] are appended to an outbox.
    - Exceptions are values: a handler returns the state it reached
      together with [Ok v] or [Raise e].  Running out of memory is not
      modelled: [MemoryError] is never raised.
    - One webhook event is handled at a time; the clock, the media
      download and the answer of the model provider are inputs of the
      step ([environment]). *)

From Stdlib Require Import String Ascii ZArith List Bool Lia.
From stdpp Require Import gmap strings list fin_maps.

Local Open Scope list_scope.
Local Open Scope Z_scope.

(** ** Python string primitives *)

Module PyStr.

(** Code points for which [str.isspace] holds (also the separators of
    [str.split()] and the characters removed by [str.strip()]). *)
Definition py_isspace (c : ascii) : bool :=
  let n := N_of_ascii c in
  ((9 <=? n) && (n <=? 13) || (28 <=? n) && (n <=? 32)
   || (n =? 133) || (n =? 160))%N.

(** Code points for which [str.isdigit] holds: the decimal digits and
    the superscripts two, three and one. *)
Definition py_isdigit_char (c : ascii) : bool :=
  let n := N_of_ascii c in
  ((48 <=? n) && (n <=? 57) || (n =? 178) || (n =? 179) || (n =? 185))%N.

(** [s.isdigit()]: every character is a digit and there is at least one. *)
Fixpoint all_digits (s : string) : bool :=
  match s with
  | EmptyString => true
  | String c s' => py_isdigit_char c && all_digits s'
  end.

Definition isdigit (s : string) : bool :=
  match s with
  | EmptyString => false
  | _ => all_digits s
  end.

(** [c.lower()] on one code point. *)
Definition py_lower_char (c : ascii) : ascii :=
  let n := N_of_ascii c in
  if ((65 <=? n) && (n <=? 90)
      || (192 <=? n) && (n <=? 222) && negb (n =? 215))%N
  then ascii_of_N (n + 32) else c.

Fixpoint lower (s : string) : string :=
  match s with
  | EmptyString => EmptyString
  | String c s' => String (py_lower_char c) (lower s')
  end.

(** [s.replace(old, new)] for one-character [old] and [new]. *)
Fixpoint replace (old new : ascii) (s : string) : string :=
  match s with
  | EmptyString => EmptyString
  | String c s' =>
      String (if Ascii.eqb c old then new else c) (replace old new s')
  end.

(** [s.lstrip()], [s.rstrip()], [s.strip()]. *)
Fixpoint lstrip (s : string) : string :=
  match s with
  | EmptyString => EmptyString
  | String c s' => if py_isspace c then lstrip s' else s
  end.

Fixpoint rstrip (s : string) : string :=
  match s with
  | EmptyString => EmptyString
  | String c s' =>
      match rstrip s' with
      | EmptyString => if py_isspace c then EmptyString else String c EmptyString
      | r => String c r
      end
  end.

Definition strip (s : string) : string := rstrip (lstrip s).

(** [s.split()]: maximal runs of non-whitespace characters.  [tok] is the
    run being read. *)
Fixpoint split_from (tok : string) (s : string) : list string :=
  match s with
  | EmptyString => match tok with EmptyString => [] | _ => [tok] end
  | String c s' =>
      if py_isspace c
      then match tok with
           | EmptyString => split_from EmptyString s'
           | _ => tok :: split_from EmptyString s'
           end
      else split_from (tok +:+ String c EmptyString) s'
  end.

Definition split (s : string) : list string := split_from EmptyString s.

(** [sep.join(parts)]. *)
Fixpoint join (sep : string) (parts : list string) : string :=
  match parts with
  | [] => EmptyString
  | [p] => p
  | p :: ps => p +:+ sep +:+ join sep ps
  end.

(** [n] copies of [s], one after the other. *)
Fixpoint repeat_nat (s : string) (n : nat) : string :=
  match n with
  | O => EmptyString
  | S k => s +:+ repeat_nat s k
  end.

(** The least and the greatest index of the interpreter ([Py_ssize_t]
    on a 64-bit platform). *)
Definition index_min : Z := -9223372036854775808.
Definition index_max : Z := 9223372036854775807.

Definition fits_index (n : Z) : bool := (index_min <=? n) && (n <=? index_max).

(** The number of code points of a literal held as its UTF-8 bytes: the
    bytes that do not continue a sequence. *)
Fixpoint code_points (s : string) : Z :=
  match s with
  | EmptyString => 0
  | String c s' =>
      let n := N_of_ascii c in
      (if ((128 <=? n) && (n <=? 191))%N then 0 else 1) + code_points s'
  end.

(** [s * n] for a literal [s] and an integer [n].  The count is first
    converted to an index, which raises [OverflowError] outside
    [index_min .. index_max]; a count below 1 gives the empty string; a
    result of more than [index_max] code points raises [OverflowError]
    too.  [None] stands for the exception.  (Whether the machine has
    the memory for the result is not part of the model.) *)
Definition mul (s : string) (n : Z) : option string :=
  if negb (fits_index n) then None
  else if n <? 1 then Some EmptyString
  else if index_max / n <? code_points s then None
  else Some (repeat_nat s (Z.to_nat n)).

(** [s.find(c)] and [s.rfind(c)] for a one-character needle: the index of
    the first, respectively last, occurrence, or -1. *)
Fixpoint find_from (c : ascii) (s : string) (i : Z) : Z :=
  match s with
  | EmptyString => -1
  | String d s' => if Ascii.eqb d c then i else find_from c s' (i + 1)
  end.

Definition find (c : ascii) (s : string) : Z := find_from c s 0.

Fixpoint rfind_from (c : ascii) (s : string) (i : Z) (last : Z) : Z :=
  match s with
  | EmptyString => last
  | String d s' =>
      rfind_from c s' (i + 1) (if Ascii.eqb d c then i else last)
  end.

Definition rfind (c : ascii) (s : string) : Z := rfind_from c s 0 (-1).

Definition len (s : string) : Z := Z.of_nat (String.length s).

(** [s[start:end]] with Python's treatment of negative and out-of-range
    bounds. *)
Definition clamp_index (n i : Z) : Z :=
  if i <? 0 then Z.max 0 (i + n) else Z.min i n.

Definition slice (s : string) (start stop : Z) : string :=
  let n := len s in
  let a := clamp_index n start in
  let b := clamp_index n stop in
  String.substring (Z.to_nat a) (Z.to_nat (b - a)) s.

(** [str(n)] for an integer. *)
Fixpoint digits_of_pos_fuel (fuel : nat) (n : Z) (acc : string) : string :=
  match fuel with
  | O => acc
  | S f =>
      let d := String (ascii_of_N (48 + Z.to_N (n mod 10))) EmptyString in
      if n <? 10 then d +:+ acc
      else digits_of_pos_fuel f (n / 10) (d +:+ acc)
  end.

Definition str_of_Z (n : Z) : string :=
  if n <? 0
  then "-" +:+ digits_of_pos_fuel (S (Z.to_nat (Z.log2 (- n)))) (- n) EmptyString
  else digits_of_pos_fuel (S (Z.to_nat (Z.log2 n))) n EmptyString.

End PyStr.

(** ** Catalog (read-only reference data) *)

Definition HEALTH_GOALS : gmap string string :=
  list_to_map
    [("1", "Lower cholesterol"); ("2", "Lose weight"); ("3", "Manage diabetes");
     ("4", "Lower blood pressure"); ("5", "Improve heart health");
     ("6", "General wellness")].

Definition RESTRICTIONS : gmap string string :=
  list_to_map
    [("1", "No salt"); ("2", "No oil"); ("3", "No sugar"); ("4", "No nuts");
     ("5", "No dairy"); ("6", "No gluten"); ("7", "No meat"); ("8", "No eggs")].

(** ** Number-selection parsing

    [numbers = [n.strip() for n in message.replace(",", " ").split()
                if n.strip().isdigit()]] *)
Definition numbers_of (message : string) : list string :=
  map PyStr.strip
    (List.filter (fun n => PyStr.isdigit (PyStr.strip n))
       (PyStr.split (PyStr.replace "," " " message))).

(** [[CATALOG[n] for n in numbers if n in CATALOG]] *)
Definition select_from (catalog : gmap string string) (numbers : list string)
  : list string :=
  omap (fun n => catalog !! n) numbers.

Definition selected_goals_of (message : string) : list string :=
  select_from HEALTH_GOALS (numbers_of message).

Definition selected_restrictions_of (message : string) : list string :=
  if String.eqb (PyStr.strip (PyStr.lower message)) "none" then []
  else select_from RESTRICTIONS (numbers_of message).

(** *** The parsing rule in the words of the specification

    Split on commas and whitespace, keep the all-digit tokens, map each
    through the catalog dropping the unrecognized ones, then deduplicate
    keeping the first occurrence. *)
Definition is_separator (c : ascii) : bool :=
  Ascii.eqb c "," || PyStr.py_isspace c.

Fixpoint spec_tokens_from (tok : string) (s : string) : list string :=
  match s with
  | EmptyString => match tok with EmptyString => [] | _ => [tok] end
  | String c s' =>
      if is_separator c
      then match tok with
           | EmptyString => spec_tokens_from EmptyString s'
           | _ => tok :: spec_tokens_from EmptyString s'
           end
      else spec_tokens_from (tok +:+ String c EmptyString) s'
  end.

Definition spec_tokens (s : string) : list string :=
  spec_tokens_from EmptyString s.

Definition mem_string (x : string) (l : list string) : bool :=
  existsb (String.eqb x) l.

Fixpoint dedup_first_seen (seen : list string) (l : list string) : list string :=
  match l with
  | [] => []
  | x :: l' =>
      if mem_string x seen then dedup_first_seen seen l'
      else x :: dedup_first_seen (x :: seen) l'
  end.

(** The rule without its last step. *)
Definition spec_select_keep_repeats (catalog : gmap string string)
  (message : string) : list string :=
  omap (fun n => catalog !! n) (List.filter PyStr.isdigit (spec_tokens message)).

Definition spec_select (catalog : gmap string string) (message : string)
  : list string :=
  dedup_first_seen [] (spec_select_keep_repeats catalog message).

(** ** Python values and exceptions

    What [json.loads] can return, floats apart: [None], booleans,
    integers, strings, lists and dictionaries (in insertion order, keys
    unique). *)
#[local] Set Warnings "-register-all".

Inductive value : Type :=
| VNone
| VBool (b : bool)
| VInt (n : Z)
| VStr (s : string)
| VList (l : list value)
| VDict (d : list (string * value)).

Inductive exn : Type :=
| TypeError
| AttributeError
| KeyError
| JSONDecodeError
| ValueError
| OverflowError
| OtherError.

Inductive result (A : Type) : Type :=
| Ok (a : A)
| Raise (e : exn).

Arguments Ok {A} a.
Arguments Raise {A} e.

#[global] Instance result_ret : MRet result := fun A a => Ok a.

#[global] Instance result_bind : MBind result := fun A B k r =>
  match r with
  | Ok a => k a
  | Raise e => Raise e
  end.

Fixpoint map_result {A B : Type} (f : A -> result B) (l : list A)
  : result (list B) :=
  match l with
  | [] => Ok []
  | a :: l' =>
      b ← f a; bs ← map_result f l'; Ok (b :: bs)
  end.

(** [d.get(k)] on the key list of a dictionary. *)
Fixpoint dict_get (k : string) (d : list (string * value)) : option value :=
  match d with
  | [] => None
  | (k', v) :: d' => if String.eqb k k' then Some v else dict_get k d'
  end.

(** [v == s] for a string literal [s]. *)
Definition eq_str (v : value) (s : string) : bool :=
  match v with
  | VStr t => String.eqb t s
  | _ => false
  end.

(** [bool(v)]. *)
Definition truthy (v : value) : bool :=
  match v with
  | VNone => false
  | VBool b => b
  | VInt n => negb (n =? 0)
  | VStr s => negb (String.eqb s "")
  | VList l => match l with [] => false | _ => true end
  | VDict d => match d with [] => false | _ => true end
  end.

(** [needle in s] for strings. *)
Fixpoint is_prefix (p s : string) : bool :=
  match p, s with
  | EmptyString, _ => true
  | String a p', String b s' => Ascii.eqb a b && is_prefix p' s'
  | String _ _, EmptyString => false
  end.

Fixpoint is_substring (p s : string) : bool :=
  is_prefix p s
  || match s with
     | EmptyString => false
     | String _ s' => is_substring p s'
     end.

(** [k in v] for a string literal [k]: key membership for a dictionary,
    element membership for a list, substring test for a string. *)
Definition py_in (k : string) (v : value) : result bool :=
  match v with
  | VDict d => Ok (match dict_get k d with Some _ => true | None => false end)
  | VList l => Ok (existsb (fun x => eq_str x k) l)
  | VStr s => Ok (is_substring k s)
  | _ => Raise TypeError
  end.

(** [v.get(k, dflt)]: only dictionaries have the method. *)
Definition py_get (v : value) (k : string) (dflt : value) : result value :=
  match v with
  | VDict d => Ok (match dict_get k d with Some x => x | None => dflt end)
  | _ => Raise AttributeError
  end.

(** [v[k]] for a string key [k]; the code applies it to items that
    already answered [.get], hence dictionaries. *)
Definition py_getitem (v : value) (k : string) : result value :=
  match v with
  | VDict d =>
      match dict_get k d with Some x => Ok x | None => Raise KeyError end
  | _ => Raise TypeError
  end.

(** [for i in v]: the elements of a list, the characters of a string,
    the keys of a dictionary. *)
Fixpoint chars_of (s : string) : list value :=
  match s with
  | EmptyString => []
  | String c s' => VStr (String c EmptyString) :: chars_of s'
  end.

Definition py_iter (v : value) : result (list value) :=
  match v with
  | VList l => Ok l
  | VStr s => Ok (chars_of s)
  | VDict d => Ok (map (fun kv => VStr (fst kv)) d)
  | _ => Raise TypeError
  end.

(** The integer a string can be multiplied by ([bool] is an [int]). *)
Definition as_int (v : value) : result Z :=
  match v with
  | VInt n => Ok n
  | VBool b => Ok (if b then 1 else 0)
  | _ => Raise TypeError
  end.

(** [s * n], the exception as a value. *)
Definition py_mul (s : string) (n : Z) : result string :=
  match PyStr.mul s n with
  | Some r => Ok r
  | None => Raise OverflowError
  end.

(** ** Analysis formatter and classifier adapter *)

Definition apology_text : string :=
  "🤔 I had trouble analyzing that image. Could you try taking another photo with better lighting? Make sure the items in your cart are clearly visible!".

Definition report_title : string := "🛒 *Your Cart Health Report*".
Definition report_rule : string := "━━━━━━━━━━━━━━━━━".
Definition filled_glyph : string := "⭐".
Definition empty_glyph : string := "☆".
Definition good_heading : string := "✅ *GREAT CHOICES:*".
Definition okay_heading : string := "👍 *OKAY IN MODERATION:*".
Definition reconsider_heading : string := "🔄 *CONSIDER SWAPPING:*".
Definition default_encouragement : string := "Keep making healthy choices!".
Definition invitation : string := "_Send another photo anytime!_".

Section Formatter.

(** [repr] of a list or a dictionary, as an f-string prints a container;
    no property below depends on it. *)
Variable py_repr : value -> string.

(** [json.loads]: the parsed value, or the exception raised. *)
Variable json_loads : string -> result value.

(** [str(v)], as an f-string interpolates [v]. *)
Definition py_str (v : value) : string :=
  match v with
  | VNone => "None"
  | VBool true => "True"
  | VBool false => "False"
  | VInt n => PyStr.str_of_Z n
  | VStr s => s
  | VList _ | VDict _ => py_repr v
  end.

(** [[i for i in items if i.get("category") == cat]] *)
Fixpoint items_of_category (cat : string) (items : list value)
  : result (list value) :=
  match items with
  | [] => Ok []
  | i :: rest =>
      (c ← py_get i "category" VNone;
       tl ← items_of_category cat rest;
       Ok (if eq_str c cat then i :: tl else tl))
  end.

(** The line of the score bar: the two repetitions are evaluated in
    this order, and each may raise. *)
Definition score_line (score : value) : result string :=
  (filled ← as_int score;
   stars ← py_mul filled_glyph filled;
   rest ← py_mul empty_glyph (10 - filled);
   Ok ("Health Score: " +:+ stars +:+ rest
       +:+ " (" +:+ py_str score +:+ "/10)")).

(** One bullet of the first two groups. *)
Definition plain_item_lines (item : value) : result (list string) :=
  (n ← py_getitem item "name"; Ok ["  • " +:+ py_str n]).

(** One bullet of the last group, with its optional sub-lines. *)
Definition reconsider_item_lines (item : value) : result (list string) :=
  (n ← py_getitem item "name";
   r ← py_get item "reason" VNone;
   reason_lines ←
     (if truthy r
      then (r' ← py_getitem item "reason"; Ok ["    _" +:+ py_str r' +:+ "_"])
      else Ok []);
   a ← py_get item "alternative" VNone;
   alt_lines ←
     (if truthy a
      then (a' ← py_getitem item "alternative";
            Ok ["    → Try: " +:+ py_str a'])
      else Ok []);
   Ok (("  • *" +:+ py_str n +:+ "*") :: reason_lines ++ alt_lines)).

(** A group: nothing when empty, else heading, bullets, blank line. *)
Definition group_lines (heading : string)
  (item_lines : value -> result (list string)) (items : list value)
  : result (list string) :=
  match items with
  | [] => Ok []
  | _ =>
      (ls ← map_result item_lines items;
       Ok (heading :: concat ls ++ [""]))
  end.

(** The list [lines] at the end of [format_cart_analysis]. *)
Definition report_lines (analysis : value) : result (list string) :=
  (items ← py_get analysis "items_found" (VList []);
   score ← py_get analysis "health_score" (VInt 5);
   encouragement ← py_get analysis "encouragement" (VStr default_encouragement);
   its ← py_iter items;
   good_items ← items_of_category "GOOD" its;
   okay_items ← items_of_category "OKAY" its;
   reconsider_items ← items_of_category "RECONSIDER" its;
   bar ← score_line score;
   good ← group_lines good_heading plain_item_lines good_items;
   okay ← group_lines okay_heading plain_item_lines okay_items;
   reconsider ← group_lines reconsider_heading reconsider_item_lines
                   reconsider_items;
   Ok ([report_title; report_rule; bar; ""]
       ++ good ++ okay ++ reconsider
       ++ ["💚 " +:+ py_str encouragement; ""; invitation])).

Definition format_cart_analysis (analysis : value) : result string :=
  (is_error ← py_in "error" analysis;
   if (is_error : bool) then Ok apology_text
   else (lines ← report_lines analysis; Ok (PyStr.join (String "010" "") lines))).

(** The answer of the model provider: the status code, and the value of
    [response.json()["content"][0]["text"]] when that expression
    evaluates to a string ([None] when it raises). *)
Record api_response : Type := {
  status_code : Z;
  content_text : option string
}.

Definition error_indicator (raw : string) : value :=
  VDict [("error", VStr "Could not analyze cart"); ("raw", VStr raw)].

(** The substring handed to [json.loads]. *)
Definition json_candidate (content : string) : string :=
  let start := PyStr.find "{" content in
  let stop := PyStr.rfind "}" content + 1 in
  PyStr.slice content start stop.

(** [analyze_cart_with_claude], from the provider's answer on. *)
Definition analyze_cart_with_claude (response : api_response) : result value :=
  if negb (status_code response =? 200) then Ok VNone
  else
    match content_text response with
    | None => Raise OtherError
    | Some content =>
        match json_loads (json_candidate content) with
        | Ok v => Ok v
        | Raise JSONDecodeError | Raise ValueError => Ok (error_indicator content)
        | Raise e => Raise e
        end
    end.

End Formatter.

(** ** User profiles and the process-wide state *)

Record UserProfile : Type := {
  phone : string;
  name : option string;
  health_goals : list string;
  restrictions : list string;
  created_at : string;
  cart_checks : Z;
  items_swapped : Z
}.

Definition with_health_goals (p : UserProfile) (goals : list string) : UserProfile :=
  {| phone := phone p; name := name p; health_goals := goals;
     restrictions := restrictions p; created_at := created_at p;
     cart_checks := cart_checks p; items_swapped := items_swapped p |}.

Definition with_restrictions (p : UserProfile) (rs : list string) : UserProfile :=
  {| phone := phone p; name := name p; health_goals := health_goals p;
     restrictions := rs; created_at := created_at p;
     cart_checks := cart_checks p; items_swapped := items_swapped p |}.

Definition with_cart_checks (p : UserProfile) (n : Z) : UserProfile :=
  {| phone := phone p; name := name p; health_goals := health_goals p;
     restrictions := restrictions p; created_at := created_at p;
     cart_checks := n; items_swapped := items_swapped p |}.

Definition with_items_swapped (p : UserProfile) (n : Z) : UserProfile :=
  {| phone := phone p; name := name p; health_goals := health_goals p;
     restrictions := restrictions p; created_at := created_at p;
     cart_checks := cart_checks p; items_swapped := n |}.

(** [UserProfile(phone=phone, name=name, created_at=now)] *)
Definition new_profile (ph nm now : string) : UserProfile :=
  {| phone := ph; name := Some nm; health_goals := []; restrictions := [];
     created_at := now; cart_checks := 0; items_swapped := 0 |}.

Definition is_profile_complete (profile : UserProfile) : bool :=
  (0 <? Z.of_nat (length (health_goals profile)))
  && (0 <? Z.of_nat (length (restrictions profile))).

(** The dictionaries [user_profiles] and [user_states], and the messages
    handed to the messaging provider, oldest first. *)
Record world : Type := {
  user_profiles : gmap string UserProfile;
  user_states : gmap string string;
  outbox : list (string * string)
}.

Definition initial_world : world :=
  {| user_profiles := ∅; user_states := ∅; outbox := [] |}.

(** A handler: the state it leaves behind, and its result or the
    exception that left it. *)
Definition M (A : Type) : Type := world -> result A * world.

#[global] Instance M_ret : MRet M := fun A a w => (Ok a, w).

#[global] Instance M_bind : MBind M := fun A B k m w =>
  match m w with
  | (Ok a, w') => k a w'
  | (Raise e, w') => (Raise e, w')
  end.

Definition raise {A : Type} (e : exn) : M A := fun w => (Raise e, w).

Definition lift {A : Type} (r : result A) : M A := fun w => (r, w).

(** [try: body  except Exception: handler] *)
Definition try_except (body : M unit) (handler : M unit) : M unit := fun w =>
  match body w with
  | (Ok tt, w') => (Ok tt, w')
  | (Raise _, w') => handler w'
  end.

Definition get_user_profile (ph : string) : M (option UserProfile) := fun w =>
  (Ok (user_profiles w !! ph), w).

Definition save_user_profile (profile : UserProfile) : M unit := fun w =>
  (Ok tt,
   {| user_profiles := <[phone profile := profile]> (user_profiles w);
      user_states := user_states w; outbox := outbox w |}).

(** An attribute assignment on the profile object obtained from
    [get_user_profile(ph)]: the object is the one the dictionary holds
    under [ph], so the stored profile changes at once. *)
Definition assign_profile (ph : string) (profile : UserProfile) : M unit := fun w =>
  (Ok tt,
   {| user_profiles := <[ph := profile]> (user_profiles w);
      user_states := user_states w; outbox := outbox w |}).

Definition delete_user_profile (ph : string) : M unit := fun w =>
  (Ok tt,
   {| user_profiles := delete ph (user_profiles w);
      user_states := user_states w; outbox := outbox w |}).

(** [user_states.get(ph, "new")] *)
Definition get_user_state (ph : string) : M string := fun w =>
  (Ok (default "new" (user_states w !! ph)), w).

Definition set_user_state (ph st : string) : M unit := fun w =>
  (Ok tt,
   {| user_profiles := user_profiles w;
      user_states := <[ph := st]> (user_states w); outbox := outbox w |}).

Definition delete_user_state (ph : string) : M unit := fun w =>
  (Ok tt,
   {| user_profiles := user_profiles w;
      user_states := delete ph (user_states w); outbox := outbox w |}).

(** [send_whatsapp_message]: the provider's status is logged and not
    acted upon, so a send is the message leaving.  (An exception of the
    HTTP client itself is outside the embedding.) *)
Definition send_whatsapp_message (to message : string) : M unit := fun w =>
  (Ok tt,
   {| user_profiles := user_profiles w; user_states := user_states w;
      outbox := outbox w ++ [(to, message)] |}).

(** ** Message texts *)

Definition dq : string := String "034" "".

Definition welcome_msg (name : string): string :=
  "👋 *Welcome to Cart Check, "
  +:+ name
  +:+ "!*

I help you make healthier grocery choices by checking your cart before checkout.

Let's set up your profile (takes 30 seconds):

*What are your health goals?*
Reply with the numbers (e.g., "
  +:+ dq
  +:+ "1, 2"
  +:+ dq
  +:+ "):

1️⃣ Lower cholesterol
2️⃣ Lose weight
3️⃣ Manage diabetes
4️⃣ Lower blood pressure
5️⃣ Improve heart health
6️⃣ General wellness".

Definition restrictions_msg (selected_goals : list string): string :=
  "Great! You selected: "
  +:+ PyStr.join ", " selected_goals
  +:+ "

*Now, any foods you need to avoid?*
Reply with numbers (e.g., "
  +:+ dq
  +:+ "1, 2, 3"
  +:+ dq
  +:+ "):

1️⃣ No salt
2️⃣ No oil
3️⃣ No sugar
4️⃣ No nuts
5️⃣ No dairy
6️⃣ No gluten
7️⃣ No meat
8️⃣ No eggs

Or reply "
  +:+ dq
  +:+ "none"
  +:+ dq
  +:+ " if no restrictions.".

Definition ready_msg (goals_text restrictions_text : string): string :=
  "✅ *You're all set!*

*Your Profile:*
📎 Goals: "
  +:+ goals_text
  +:+ "
🚫 Avoid: "
  +:+ restrictions_text
  +:+ "

━━━━━━━━━━━━━━━━━

*How to use Cart Check:*
📸 Take a photo of your grocery cart
📤 Send it to me
📋 Get instant health feedback + swap suggestions

Next time you're at the store, just send me a cart photo!

🛒 Happy healthy shopping! 💚".

Definition help_msg : string :=
  "*Cart Check Help*

📸 *Check your cart:* Send a photo of your grocery cart

🔄 *Update profile:* Type "
  +:+ dq
  +:+ "reset"
  +:+ dq
  +:+ " to start over

📊 *Your stats:* Type "
  +:+ dq
  +:+ "stats"
  +:+ dq
  +:+ " to see your progress

💬 *Commands:*
• "
  +:+ dq
  +:+ "reset"
  +:+ dq
  +:+ " - Start fresh
• "
  +:+ dq
  +:+ "stats"
  +:+ dq
  +:+ " - Your stats
• "
  +:+ dq
  +:+ "profile"
  +:+ dq
  +:+ " - View your profile
• "
  +:+ dq
  +:+ "help"
  +:+ dq
  +:+ " - This message".

Definition stats_msg (cart_checks items_swapped : Z) (member_since : string): string :=
  "📊 *Your Cart Check Stats*

🛒 Carts checked: "
  +:+ PyStr.str_of_Z cart_checks
  +:+ "
🔄 Items reconsidered: "
  +:+ PyStr.str_of_Z items_swapped
  +:+ "
📅 Member since: "
  +:+ member_since
  +:+ "

Keep making healthy choices! 💚".

Definition profile_msg (goals_text restrictions_text : string): string :=
  "👤 *Your Profile*

📎 Goals: "
  +:+ goals_text
  +:+ "
🚫 Avoid: "
  +:+ restrictions_text
  +:+ "

Type "
  +:+ dq
  +:+ "reset"
  +:+ dq
  +:+ " to update your profile.".

Definition goals_reprompt : string :=
  "Please reply with numbers (e.g., '1, 2') to select your health goals.".

Definition setup_first_msg : string :=
  "Let's set up your profile first! What are your health goals?

Reply with numbers:
1. Lower cholesterol
2. Lose weight
3. Manage diabetes
4. Lower blood pressure
5. Improve heart health
6. General wellness".

Definition analyzing_msg : string :=
  "🔍 Analyzing your cart... This takes about 10 seconds.".

Definition went_wrong_msg : string :=
  "😅 Something went wrong analyzing your cart. Please try again!".

Definition no_stats_msg : string :=
  "You haven't set up your profile yet. Send 'hi' to get started!".

Definition no_profile_msg : string :=
  "You haven't completed your profile yet. Send 'hi' to get started!".

Definition send_photo_msg : string :=
  "📸 Send me a photo of your grocery cart and I'll check it for you!

Or type 'help' for more options.".

Definition bad_image_msg : string :=
  "I couldn't process that image. Please try again!".

Definition other_type_msg : string :=
  "Please send me a text message or a photo of your grocery cart! 📸".

(** ** Conversation handlers *)

(** [handle_new_user]; [now] is [datetime.now().isoformat()]. *)
Definition handle_new_user (ph nm now : string) : M unit :=
  save_user_profile (new_profile ph nm now);;
  set_user_state ph "awaiting_goals";;
  send_whatsapp_message ph (welcome_msg nm).

Definition handle_goals_response (ph message : string) : M unit :=
  profile ← get_user_profile ph;
  let selected_goals := selected_goals_of message in
  match selected_goals with
  | [] => send_whatsapp_message ph goals_reprompt
  | _ =>
      match profile with
      | None => raise AttributeError
      | Some p =>
          let p' := with_health_goals p selected_goals in
          assign_profile ph p';;
          save_user_profile p';;
          set_user_state ph "awaiting_restrictions";;
          send_whatsapp_message ph (restrictions_msg selected_goals)
      end
  end.

Definition handle_restrictions_response (ph message : string) : M unit :=
  profile ← get_user_profile ph;
  let selected_restrictions := selected_restrictions_of message in
  match profile with
  | None => raise AttributeError
  | Some p =>
      let p' := with_restrictions p selected_restrictions in
      assign_profile ph p';;
      save_user_profile p';;
      set_user_state ph "ready";;
      let restrictions_text :=
        match selected_restrictions with
        | [] => "None"
        | _ => PyStr.join ", " selected_restrictions
        end in
      send_whatsapp_message ph
        (ready_msg (PyStr.join ", " (health_goals p')) restrictions_text)
  end.

(** What the two collaborators of the photo path do: the media download
    or the request to the model provider raises, or the model provider
    answers. *)
Inductive upstream : Type :=
| TransportRaises
| Responds (response : api_response).

Section Conversation.

Variable py_repr : value -> string.
Variable json_loads : string -> result value.

(** The [try] block of [handle_cart_photo]. *)
Definition analyze_and_report (ph : string) (p : UserProfile) (up : upstream)
  : M unit :=
  match up with
  | TransportRaises => raise OtherError
  | Responds response =>
      analysis ← lift (analyze_cart_with_claude json_loads response);
      response_msg ← lift (format_cart_analysis py_repr analysis);
      send_whatsapp_message ph response_msg;;
      let p1 := with_cart_checks p (cart_checks p + 1) in
      assign_profile ph p1;;
      items ← lift (py_get analysis "items_found" (VList []));
      its ← lift (py_iter items);
      reconsider ← lift (items_of_category "RECONSIDER" its);
      let p2 := with_items_swapped p1
                  (items_swapped p1 + Z.of_nat (length reconsider)) in
      assign_profile ph p2;;
      save_user_profile p2
  end.

Definition handle_cart_photo (ph : string) (up : upstream) : M unit :=
  profile ← get_user_profile ph;
  match profile with
  | Some p =>
      if is_profile_complete p
      then
        send_whatsapp_message ph analyzing_msg;;
        try_except (analyze_and_report ph p up)
          (send_whatsapp_message ph went_wrong_msg)
      else
        send_whatsapp_message ph setup_first_msg;;
        set_user_state ph "awaiting_goals"
  | None =>
      send_whatsapp_message ph setup_first_msg;;
      set_user_state ph "awaiting_goals"
  end.

(** [message.lower().strip()] *)
Definition command_of (message : string) : string :=
  PyStr.strip (PyStr.lower message).

Definition is_reset_command (message : string) : bool :=
  mem_string (command_of message) ["reset"; "restart"; "start over"; "new profile"].

Definition is_help_command (message : string) : bool :=
  mem_string (command_of message) ["help"; "?"].

Definition is_stats_command (message : string) : bool :=
  String.eqb (command_of message) "stats".

Definition is_profile_command (message : string) : bool :=
  String.eqb (command_of message) "profile".

Definition stats_reply (profile : option UserProfile) : string :=
  match profile with
  | Some p =>
      stats_msg (cart_checks p) (items_swapped p)
        (match created_at p with
         | EmptyString => "Today"
         | s => PyStr.slice s 0 10
         end)
  | None => no_stats_msg
  end.

Definition profile_reply (profile : option UserProfile) : string :=
  match profile with
  | Some p =>
      if is_profile_complete p
      then profile_msg (PyStr.join ", " (health_goals p))
             (match restrictions p with
              | [] => "None"
              | rs => PyStr.join ", " rs
              end)
      else no_profile_msg
  | None => no_profile_msg
  end.

Definition handle_text_message (ph message nm now : string) : M unit :=
  profile ← get_user_profile ph;
  state ← get_user_state ph;
  if is_reset_command message then
    delete_user_profile ph;;
    delete_user_state ph;;
    handle_new_user ph nm now
  else if is_help_command message then
    send_whatsapp_message ph help_msg
  else if is_stats_command message then
    send_whatsapp_message ph (stats_reply profile)
  else if is_profile_command message then
    send_whatsapp_message ph (profile_reply profile)
  else if String.eqb state "new" || negb (bool_decide (is_Some profile)) then
    handle_new_user ph nm now
  else if String.eqb state "awaiting_goals" then
    handle_goals_response ph message
  else if String.eqb state "awaiting_restrictions" then
    handle_restrictions_response ph message
  else if String.eqb state "ready" then
    send_whatsapp_message ph send_photo_msg
  else mret tt.

(** ** Webhook dispatch *)

(** The first message of an inbound event, after the payload has been
    taken apart: absent, a text, an image with its media id if any, or
    another type. *)
Inductive inbound : Type :=
| NoMessage
| TextMessage (ph body nm : string)
| ImageMessage (ph : string) (media_id : option string)
| OtherMessage (ph : string).

(** The clock and the collaborators, as one event meets them. *)
Record environment : Type := {
  now : string;
  photo_upstream : upstream
}.

Definition dispatch (ev : inbound) (env : environment) : M unit :=
  match ev with
  | NoMessage => mret tt
  | TextMessage ph body nm => handle_text_message ph body nm (now env)
  | ImageMessage ph media_id =>
      match media_id with
      | Some (String _ _) => handle_cart_photo ph (photo_upstream env)
      | _ => send_whatsapp_message ph bad_image_msg
      end
  | OtherMessage ph => send_whatsapp_message ph other_type_msg
  end.

(** [handle_webhook]: every exception is swallowed; what remains is the
    state reached. *)
Definition handle_webhook (ev : inbound) (env : environment) (w : world) : world :=
  snd (dispatch ev env w).

(** The states the process can be in. *)
Inductive reachable : world -> Prop :=
| reachable_initial : reachable initial_world
| reachable_step w ev env :
    reachable w -> reachable (handle_webhook ev env w).

End Conversation.

(** ** The report in the words of the specification

    A [CartAnalysisResult] as the data model describes it, the dictionary
    shapes that carry one, and the report the formatter is to produce
    for it. *)

Inductive category : Type := Good | Okay | Reconsider.

Definition category_tag (c : category) : string :=
  match c with
  | Good => "GOOD"
  | Okay => "OKAY"
  | Reconsider => "RECONSIDER"
  end.

Definition category_eqb (c c' : category) : bool :=
  match c, c' with
  | Good, Good | Okay, Okay | Reconsider, Reconsider => true
  | _, _ => false
  end.

Record Item : Type := {
  item_name : string;
  item_category : category;
  item_reason : option string;
  item_alternative : option string
}.

Record CartAnalysisResult : Type := {
  items_found : list Item;
  health_score : option Z;
  encouragement : option string
}.

(** The dictionary [v] carries the item [it]. *)
Definition carries_item (v : value) (it : Item) : Prop :=
  exists d,
    v = VDict d
    /\ dict_get "name" d = Some (VStr (item_name it))
    /\ dict_get "category" d = Some (VStr (category_tag (item_category it)))
    /\ dict_get "reason" d = VStr <$> item_reason it
    /\ dict_get "alternative" d = VStr <$> item_alternative it.

(** The dictionary [v] carries the result [a]: it has no key [error],
    and a field that [a] lacks is a key that [v] lacks. *)
Definition carries_result (v : value) (a : CartAnalysisResult) : Prop :=
  exists d vs,
    v = VDict d
    /\ dict_get "error" d = None
    /\ (dict_get "items_found" d = Some (VList vs)
        \/ dict_get "items_found" d = None /\ vs = [])
    /\ Forall2 carries_item vs (items_found a)
    /\ dict_get "health_score" d = VInt <$> health_score a
    /\ dict_get "encouragement" d = VStr <$> encouragement a.

Definition optional_field (k : string) (o : option string)
  : list (string * value) :=
  match o with
  | Some s => [(k, VStr s)]
  | None => []
  end.

Definition value_of_item (it : Item) : value :=
  VDict ([("name", VStr (item_name it));
          ("category", VStr (category_tag (item_category it)))]
         ++ optional_field "reason" (item_reason it)
         ++ optional_field "alternative" (item_alternative it)).

Definition value_of_result (a : CartAnalysisResult) : value :=
  VDict ([("items_found", VList (map value_of_item (items_found a)))]
         ++ match health_score a with
            | Some n => [("health_score", VInt n)]
            | None => []
            end
         ++ optional_field "encouragement" (encouragement a)).

Definition in_category (c : category) (items : list Item) : list Item :=
  List.filter (fun it => category_eqb (item_category it) c) items.

(** [n] copies of a glyph, none when [n] is not positive. *)
Definition glyphs (g : string) (n : Z) : list string := repeat g (Z.to_nat n).

Definition spec_score_bar (score : Z) : string :=
  "Health Score: "
  +:+ String.concat "" (glyphs filled_glyph score ++ glyphs empty_glyph (10 - score))
  +:+ " (" +:+ PyStr.str_of_Z score +:+ "/10)".

Definition nonempty_text (o : option string) : list string :=
  match o with
  | Some (String c s) => [String c s]
  | _ => []
  end.

Definition spec_plain_bullet (it : Item) : list string :=
  ["  • " +:+ item_name it].

Definition spec_reconsider_bullet (it : Item) : list string :=
  ("  • *" +:+ item_name it +:+ "*")
  :: map (fun r => "    _" +:+ r +:+ "_") (nonempty_text (item_reason it))
  ++ map (fun a => "    → Try: " +:+ a) (nonempty_text (item_alternative it)).

Definition spec_group (heading : string) (bullet : Item -> list string)
  (items : list Item) : list string :=
  match items with
  | [] => []
  | _ => heading :: flat_map bullet items ++ [""]
  end.

Definition spec_report_lines (a : CartAnalysisResult) : list string :=
  [report_title; report_rule;
   spec_score_bar (default 5 (health_score a)); ""]
  ++ spec_group good_heading spec_plain_bullet (in_category Good (items_found a))
  ++ spec_group okay_heading spec_plain_bullet (in_category Okay (items_found a))
  ++ spec_group reconsider_heading spec_reconsider_bullet
       (in_category Reconsider (items_found a))
  ++ ["💚 " +:+ default default_encouragement (encouragement a); "";
      invitation].

Definition spec_report (a : CartAnalysisResult) : string :=
  PyStr.join (String "010" "") (spec_report_lines a).

(** The number of lines of [ls] that are exactly [h]. *)
Definition count_line (h : string) (ls : list string) : nat :=
  length (List.filter (String.eqb h) ls).

(** ** Auxiliary predicates used by the proofs *)

(** No character of [s] is whitespace. *)
Fixpoint no_space (s : string) : bool :=
  match s with
  | EmptyString => true
  | String c s' => negb (PyStr.py_isspace c) && no_space s'
  end.

(** The characters of a string. *)
Fixpoint chars (s : string) : list ascii :=
  match s with
  | EmptyString => []
  | String c s' => c :: chars s'
  end.

(** The message is one of the commands intercepted before the state is
    looked at. *)
Definition is_global_command (message : string) : bool :=
  is_reset_command message || is_help_command message
  || is_stats_command message || is_profile_command message.

(** The state of a user as the dispatch reads it. *)
Definition state_of (w : world) (ph : string) : string :=
  default "new" (user_states w !! ph).

Definition with_outbox (w : world) (sent : list (string * string)) : world :=
  {| user_profiles := user_profiles w; user_states := user_states w;
     outbox := outbox w ++ sent |}.

(** ** Concrete inputs used as examples *)

(** Stand-ins for the two collaborators the formatter and the adapter
    are parametric in. *)
Definition no_repr : value -> string := fun _ => "".
Definition no_json : string -> result value := fun _ => Raise JSONDecodeError.

Definition sample_env : environment :=
  {| now := "2024-05-01T09:30:00"; photo_upstream := TransportRaises |}.

Definition sample_profile : UserProfile :=
  {| phone := "15550100"; name := Some "Asha";
     health_goals := ["Lose weight"]; restrictions := [];
     created_at := "2024-05-01T09:30:00"; cart_checks := 0;
     items_swapped := 0 |}.

Definition sample_world : world :=
  {| user_profiles := {["15550100" := sample_profile]};
     user_states := {["15550100" := "awaiting_restrictions"]};
     outbox := [] |}.

(** A user who answers the welcome with goal 2 and the restrictions
    menu with [none]. *)
Definition onboarded_without_restrictions : world :=
  handle_webhook no_repr no_json (TextMessage "15550100" "none" "Asha") sample_env
    (handle_webhook no_repr no_json (TextMessage "15550100" "2" "Asha") sample_env
       (handle_webhook no_repr no_json (TextMessage "15550100" "hi" "Asha")
          sample_env initial_world)).

(** ** The invariant behind the photo dispatch *)

(** Every stored profile sits under its own phone number; a profile with
    restrictions has goals and its user is [ready]; a user at the
    restrictions step has goals. *)
Definition consistent (w : world) : Prop :=
  forall ph p,
    user_profiles w !! ph = Some p ->
    phone p = ph
    /\ (restrictions p <> [] ->
        health_goals p <> [] /\ user_states w !! ph = Some "ready")
    /\ (user_states w !! ph = Some "awaiting_restrictions" ->
        health_goals p <> []).

(** Two profiles that differ in their counters at most. *)
Definition same_selection (p p' : UserProfile) : Prop :=
  phone p' = phone p /\ health_goals p' = health_goals p
  /\ restrictions p' = restrictions p.

(** The profile stored for [ph] is missing or not complete. *)
Definition no_complete_profile (w : world) (ph : string) : Prop :=
  user_profiles w !! ph = None
  \/ exists p, user_profiles w !! ph = Some p /\ is_profile_complete p = false.

(** A user who has answered the welcome with goal 2 and has not yet
    answered the restrictions menu. *)
Definition at_restrictions_step : world :=
  handle_webhook no_repr no_json (TextMessage "15550100" "2" "Asha") sample_env
    (handle_webhook no_repr no_json (TextMessage "15550100" "hi" "Asha")
       sample_env initial_world).

(** One of the three group headings. *)
Definition is_heading (h : string) : Prop :=
  h = good_heading \/ h = okay_heading \/ h = reconsider_heading.

(** A dictionary with a key [error]. *)
Definition is_error_indicator (v : value) : Prop :=
  exists d x, v = VDict d /\ dict_get "error" d = Some x.

(** A result with a score of 8 and one item in each category. *)
Definition sample_result : CartAnalysisResult :=
  {| items_found :=
       [{| item_name := "Spinach"; item_category := Good;
           item_reason := None; item_alternative := None |};
        {| item_name := "Rice"; item_category := Okay;
           item_reason := None; item_alternative := None |};
        {| item_name := "Chips"; item_category := Reconsider;
           item_reason := Some "High in salt and oil";
           item_alternative := Some "Air-popped popcorn" |}];
     health_score := Some 8;
     encouragement := Some "Nice cart!" |}.

(** The character [c] does not occur in [s]. *)
Fixpoint absent (c : ascii) (s : string) : bool :=
  match s with
  | EmptyString => true
  | String d s' => negb (Ascii.eqb d c) && absent c s'
  end.

(** An answer of the model provider with a failure status. *)
Definition failed_response : api_response :=
  {| status_code := 529; content_text := Some "Overloaded" |}.

(** A user with goals and restrictions, ready to send a photo. *)
Definition ready_world : world :=
  handle_webhook no_repr no_json (TextMessage "15550100" "3, 4" "Asha") sample_env
    at_restrictions_step.

(** The number of positions of [s] at which [p] starts. *)
Fixpoint count_sub (p s : string) : nat :=
  ((if is_prefix p s then 1 else 0)
   + match s with
     | EmptyString => 0
     | String _ s' => count_sub p s'
     end)%nat.

(** ** Further definitions: the rest of the module *)

(** The text [s] with every character replaced by its image under [f]. *)
Fixpoint map_chars (f : ascii -> ascii) (s : string) : string :=
  match s with
  | EmptyString => EmptyString
  | String c s' => String (f c) (map_chars f s')
  end.

(** The labels of the two catalogs, in the order of their codes. *)
Definition goal_labels : list string :=
  ["Lower cholesterol"; "Lose weight"; "Manage diabetes";
   "Lower blood pressure"; "Improve heart health"; "General wellness"].

Definition restriction_labels : list string :=
  ["No salt"; "No oil"; "No sugar"; "No nuts"; "No dairy"; "No gluten";
   "No meat"; "No eggs"].

(** [len([i for i in analysis.get("items_found", [])
          if i.get("category") == "RECONSIDER"])], the count that
    [handle_cart_photo] adds to [items_swapped]. *)
Definition reconsider_count (analysis : value) : result nat :=
  items ← py_get analysis "items_found" (VList []);
  its ← py_iter items;
  reconsider ← items_of_category "RECONSIDER" its;
  Ok (length reconsider).

(** The profile after a counted cart check that found [n] items to
    reconsider. *)
Definition after_cart_check (p : UserProfile) (n : nat) : UserProfile :=
  with_items_swapped (with_cart_checks p (cart_checks p + 1))
    (items_swapped p + Z.of_nat n).

(** The state with the profile of [ph] replaced and messages sent. *)
Definition with_profile (w : world) (ph : string) (p : UserProfile)
  (sent : list (string * string)) : world :=
  {| user_profiles := <[ph := p]> (user_profiles w);
     user_states := user_states w;
     outbox := outbox w ++ sent |}.

(** A complete profile with one earlier cart check. *)
Definition returning_profile : UserProfile :=
  {| phone := "15550100"; name := Some "Asha";
     health_goals := ["Lose weight"]; restrictions := ["No sugar"; "No nuts"];
     created_at := "2024-05-01T09:30:00"; cart_checks := 1;
     items_swapped := 2 |}.

Definition returning_world : world :=
  {| user_profiles := {["15550100" := returning_profile]};
     user_states := {["15550100" := "ready"]};
     outbox := [] |}.

(** A parser that knows one text: the sample result. *)
Definition sample_json : string -> result value := fun s =>
  if String.eqb s "{sample}" then Ok (value_of_result sample_result)
  else Raise JSONDecodeError.

(** A dictionary with a key [error] whose [items_found] is [null]. *)
Definition error_with_null_items : value :=
  VDict [("error", VStr "no cart"); ("items_found", VNone)].

(** [c] is one of the three category tags the formatter renders. *)
Definition known_category (c : value) : bool :=
  eq_str c "GOOD" || eq_str c "OKAY" || eq_str c "RECONSIDER".

(** The value of [i.get("category")] for a dictionary [i]. *)
Definition category_of (d : list (string * value)) : value :=
  match dict_get "category" d with Some c => c | None => VNone end.

Definition is_dict (v : value) : Prop := exists d, v = VDict d.

(** A result whose second item has a category in lower case and no
    name. *)
Definition result_with_stray_item : value :=
  VDict [("items_found",
          VList [VDict [("name", VStr "Oats"); ("category", VStr "GOOD")];
                 VDict [("category", VStr "good")];
                 VDict [("name", VStr "Soda"); ("category", VStr "RECONSIDER")]]);
         ("health_score", VInt 6)].

Definition result_without_stray_item : value :=
  VDict [("items_found",
          VList [VDict [("name", VStr "Oats"); ("category", VStr "GOOD")];
                 VDict [("name", VStr "Soda"); ("category", VStr "RECONSIDER")]]);
         ("health_score", VInt 6)].

(** A result whose only item has no name. *)
Definition result_with_nameless_item : list (string * value) :=
  [("items_found", VList [VDict [("category", VStr "OKAY")]]);
   ("health_score", VInt 6)].

(** The phone number an event comes from. *)
Definition sender (ev : inbound) : option string :=
  match ev with
  | NoMessage => None
  | TextMessage ph _ _ | ImageMessage ph _ | OtherMessage ph => Some ph
  end.

(** The three states the handlers store. *)
Definition stored_state (st : string) : Prop :=
  st = "awaiting_goals" \/ st = "awaiting_restrictions" \/ st = "ready".

(** What holds of the entries of one phone number in every state the
    process reaches. *)
Definition entries_ok (w : world) (ph : string) : Prop :=
  (forall st, user_states w !! ph = Some st -> stored_state st)
  /\ (forall p, user_profiles w !! ph = Some p ->
        phone p = ph
        /\ is_Some (user_states w !! ph)
        /\ (forall g, In g (health_goals p) -> In g goal_labels)
        /\ (forall r, In r (restrictions p) -> In r restriction_labels)
        /\ 0 <= cart_checks p /\ 0 <= items_swapped p)
  /\ (user_states w !! ph = Some "awaiting_restrictions"
      \/ user_states w !! ph = Some "ready" ->
      exists p, user_profiles w !! ph = Some p /\ health_goals p <> []).

Definition well_formed (w : world) : Prop := forall ph, entries_ok w ph.

(** The entries of every phone number but [ph] are the same in [w] and
    [w']. *)
Definition same_elsewhere (w w' : world) (ph : string) : Prop :=
  forall k, k <> ph ->
    user_profiles w' !! k = user_profiles w !! k
    /\ user_states w' !! k = user_states w !! k.

(** [w'] has the messages of [w] and then between [lo] and [hi] more,
    all to [ph]. *)
Definition replies_to (w w' : world) (ph : string) (lo hi : nat) : Prop :=
  exists sent,
    outbox w' = outbox w ++ sent
    /\ Forall (fun m => fst m = ph) sent
    /\ (lo <= length sent <= hi)%nat.

(** A score both of whose repetition counts, [n] and [10 - n], are
    indices. *)
Definition score_fits (n : Z) : Prop :=
  PyStr.index_min <= n <= PyStr.index_max
  /\ PyStr.index_min <= 10 - n <= PyStr.index_max.

(** The first score past the greatest index, and a result that has
    it. *)
Definition score_past_index : Z := 9223372036854775808.

Definition result_past_index : value :=
  VDict [("items_found", VList []); ("health_score", VInt score_past_index)].

(** The stores after one of them was emptied from outside: the states
    of a user with a complete profile are gone, or the profile of a user
    in state [ready] is. *)
Definition states_cleared_world : world :=
  {| user_profiles := {["15550100" := returning_profile]};
     user_states := ∅;
     outbox := [] |}.

Definition profiles_cleared_world : world :=
  {| user_profiles := ∅;
     user_states := {["15550100" := "ready"]};
     outbox := [] |}.

(** A user who chose goal 2 and then sent a photo: back at the goals
    step, with the goal stored. *)
Definition back_at_goals_step : world :=
  handle_webhook no_repr no_json (ImageMessage "15550100" (Some "media-1"))
    sample_env at_restrictions_step.

(** ** Proof automation *)

(** Unfolds the primitive operations of a handler. *)
Ltac run_handler :=
  unfold mbind, mret, M_bind, M_ret, get_user_profile, get_user_state,
    save_user_profile, assign_profile, set_user_state, delete_user_profile,
    delete_user_state, send_whatsapp_message, raise, lift;
  simpl.

(** * Properties *)

#[local] Arguments String.append !s1 s2 : simpl nomatch.

(** ** Sanity checks of the string primitives *)

Example split_example :
  PyStr.split "  2  1 2 " = ["2"; "1"; "2"].
Proof. reflexivity. Qed.

Example strip_example : PyStr.strip "  No Ne  " = "No Ne".
Proof. reflexivity. Qed.

Example slice_examples :
  PyStr.slice "ab{c}d" 2 5 = "{c}" /\ PyStr.slice "abc" (-1) 0 = ""
  /\ PyStr.slice "ab}" (-1) 3 = "}" /\ PyStr.slice "}{" 1 1 = "".
Proof. repeat split; reflexivity. Qed.

Example str_of_Z_examples :
  PyStr.str_of_Z 0 = "0" /\ PyStr.str_of_Z 10 = "10"
  /\ PyStr.str_of_Z (-7) = "-7" /\ PyStr.str_of_Z 1234 = "1234".
Proof. repeat split; reflexivity. Qed.

Example json_candidate_examples :
  json_candidate "Sure! {x} ok } bye" = "{x} ok }"
  /\ json_candidate "no json here" = ""
  /\ json_candidate "} {" = "".
Proof. repeat split; reflexivity. Qed.

(** ** Strings *)

Lemma append_empty_r (s : string) : s +:+ "" = s.
Proof. induction s as [|c s IH]; simpl; [reflexivity | now rewrite IH]. Qed.

Lemma append_assoc (a b c : string) : (a +:+ b) +:+ c = a +:+ (b +:+ c).
Proof. induction a as [|x a IH]; simpl; [reflexivity | now rewrite IH]. Qed.

Lemma append_snoc_nonempty (tok : string) (c : ascii) :
  tok +:+ String c "" <> "".
Proof. destruct tok; discriminate. Qed.

Lemma no_space_snoc (tok : string) (c : ascii) :
  no_space tok = true -> PyStr.py_isspace c = false ->
  no_space (tok +:+ String c "") = true.
Proof.
  intros Htok Hc. induction tok as [|x tok IH]; simpl in *.
  - now rewrite Hc.
  - apply andb_true_iff in Htok as [Hx Htok].
    rewrite Hx. simpl. auto.
Qed.

Lemma lstrip_no_space (s : string) : no_space s = true -> PyStr.lstrip s = s.
Proof.
  destruct s as [|c s]; simpl; [reflexivity |].
  intros H. apply andb_true_iff in H as [Hc _].
  apply negb_true_iff in Hc. now rewrite Hc.
Qed.

Lemma rstrip_no_space (s : string) : no_space s = true -> PyStr.rstrip s = s.
Proof.
  induction s as [|c s IH]; simpl; [reflexivity |].
  intros H. apply andb_true_iff in H as [Hc Hs].
  apply negb_true_iff in Hc. rewrite (IH Hs), Hc.
  now destruct s.
Qed.

Lemma strip_no_space (s : string) : no_space s = true -> PyStr.strip s = s.
Proof.
  intros H. unfold PyStr.strip. rewrite (lstrip_no_space s H).
  now apply rstrip_no_space.
Qed.

(** Replacing the commas by spaces and splitting on whitespace is
    splitting on commas and whitespace. *)
Lemma split_replace_comma (s tok : string) :
  PyStr.split_from tok (PyStr.replace "," " " s) = spec_tokens_from tok s.
Proof.
  revert tok. induction s as [|c s IH]; intros tok; simpl; [reflexivity |].
  unfold is_separator. destruct (Ascii.eqb c ",") eqn:Hc; simpl.
  - destruct tok; now rewrite IH.
  - destruct (PyStr.py_isspace c); destruct tok; now rewrite IH.
Qed.

Lemma is_separator_space (c : ascii) :
  is_separator c = false -> PyStr.py_isspace c = false.
Proof. unfold is_separator. intros H. now apply orb_false_iff in H. Qed.

(** The tokens hold no whitespace. *)
Lemma spec_tokens_no_space (s tok : string) :
  no_space tok = true ->
  Forall (fun t => no_space t = true) (spec_tokens_from tok s).
Proof.
  revert tok. induction s as [|c s IH]; intros tok Htok; simpl.
  - destruct tok; [constructor | repeat constructor; exact Htok].
  - destruct (is_separator c) eqn:Hc.
    + destruct tok; [now apply IH | constructor; [exact Htok | now apply IH]].
    + apply IH. apply no_space_snoc; [exact Htok | now apply is_separator_space].
Qed.

Lemma filter_strip_tokens (l : list string) :
  Forall (fun t => no_space t = true) l ->
  map PyStr.strip (List.filter (fun n => PyStr.isdigit (PyStr.strip n)) l)
  = List.filter PyStr.isdigit l.
Proof.
  induction 1 as [|t l Ht _ IH]; simpl; [reflexivity |].
  rewrite (strip_no_space t Ht).
  destruct (PyStr.isdigit t); simpl; [rewrite (strip_no_space t Ht) |]; now rewrite IH.
Qed.

Lemma numbers_of_spec (message : string) :
  numbers_of message = List.filter PyStr.isdigit (spec_tokens message).
Proof.
  unfold numbers_of, PyStr.split, spec_tokens.
  rewrite split_replace_comma.
  apply filter_strip_tokens, spec_tokens_no_space. reflexivity.
Qed.

(** *** The literal [none] holds no digit *)

Lemma chars_app (a b : string) : chars (a +:+ b) = chars a ++ chars b.
Proof. induction a as [|c a IH]; simpl; [reflexivity | now rewrite IH]. Qed.

Lemma chars_lstrip (s : string) (c : ascii) :
  In c (chars s) -> PyStr.py_isspace c = true \/ In c (chars (PyStr.lstrip s)).
Proof.
  induction s as [|d s IH]; simpl; [tauto |].
  intros [-> | H].
  - destruct (PyStr.py_isspace c) eqn:Hc; [now left | right; now left].
  - destruct (PyStr.py_isspace d); [now apply IH | right; now right].
Qed.

Lemma chars_rstrip (s : string) (c : ascii) :
  In c (chars s) -> PyStr.py_isspace c = true \/ In c (chars (PyStr.rstrip s)).
Proof.
  induction s as [|d s IH]; simpl; [tauto |].
  intros [-> | H].
  - destruct (PyStr.rstrip s); [| right; now left].
    destruct (PyStr.py_isspace c) eqn:Hc; [now left | right; now left].
  - destruct (IH H) as [Hc | Hc]; [now left |].
    destruct (PyStr.rstrip s); [destruct Hc | right; now right].
Qed.

Lemma chars_strip (s : string) (c : ascii) :
  In c (chars s) -> PyStr.py_isspace c = true \/ In c (chars (PyStr.strip s)).
Proof.
  intros H. destruct (chars_lstrip s c H) as [Hc | Hc]; [now left |].
  now apply chars_rstrip.
Qed.

Lemma chars_lower (s : string) (c : ascii) :
  In c (chars s) -> In (PyStr.py_lower_char c) (chars (PyStr.lower s)).
Proof.
  induction s as [|d s IH]; simpl; [tauto |].
  intros [-> | H]; [now left | right; now apply IH].
Qed.

(** A digit is its own lower case, is no whitespace and is no letter of
    [none]. *)
Lemma digit_char_facts (c : ascii) :
  PyStr.py_isdigit_char c = true ->
  PyStr.py_lower_char c = c /\ PyStr.py_isspace c = false
  /\ ~ In c (chars "none").
Proof.
  destruct c as [[] [] [] [] [] [] [] []]; vm_compute; intros H;
    try discriminate H;
    (split; [reflexivity | split; [reflexivity |]]);
    intros [E | [E | [E | [E | []]]]]; discriminate E.
Qed.

Lemma command_none_no_digit (message : string) (c : ascii) :
  command_of message = "none" -> In c (chars message) ->
  PyStr.py_isdigit_char c = false.
Proof.
  intros Hcmd Hin.
  destruct (PyStr.py_isdigit_char c) eqn:Hd; [exfalso | reflexivity].
  destruct (digit_char_facts c Hd) as (Hlow & Hsp & Hnone).
  apply chars_lower in Hin. rewrite Hlow in Hin.
  apply chars_strip in Hin. unfold command_of in Hcmd. rewrite Hcmd in Hin.
  destruct Hin as [Hin | Hin]; [congruence | contradiction].
Qed.

(** The characters of the tokens are characters of the text. *)
Lemma spec_tokens_chars (s tok t : string) (c : ascii) :
  In t (spec_tokens_from tok s) -> In c (chars t) ->
  In c (chars tok) \/ In c (chars s).
Proof.
  revert tok. induction s as [|d s IH]; intros tok Ht Hc; simpl in Ht.
  - destruct tok; [destruct Ht |]. destruct Ht as [<- | []]. now left.
  - destruct (is_separator d).
    + destruct tok.
      * destruct (IH _ Ht Hc) as [H | H]; [destruct H | right; now right].
      * destruct Ht as [<- | Ht]; [now left |].
        destruct (IH _ Ht Hc) as [H | H]; [destruct H | right; now right].
    + destruct (IH _ Ht Hc) as [H | H]; [| right; now right].
      rewrite chars_app in H. apply in_app_or in H as [H | [<- | []]];
        [now left | right; now left].
Qed.

Lemma isdigit_has_digit (t : string) :
  PyStr.isdigit t = true ->
  exists c, In c (chars t) /\ PyStr.py_isdigit_char c = true.
Proof.
  destruct t as [|c t]; simpl; [discriminate |].
  intros H. apply andb_true_iff in H as [Hc _].
  exists c. split; [now left | exact Hc].
Qed.

Lemma command_none_no_numbers (message : string) :
  command_of message = "none" ->
  List.filter PyStr.isdigit (spec_tokens message) = [].
Proof.
  intros Hcmd.
  assert (H : forall l, (forall t, In t l -> PyStr.isdigit t = false) ->
                        List.filter PyStr.isdigit l = []).
  { induction l as [|t l IH]; intros Hl; simpl; [reflexivity |].
    rewrite (Hl t) by now left. apply IH. intros u Hu. apply Hl. now right. }
  apply H. intros t Ht.
  destruct (PyStr.isdigit t) eqn:Hd; [exfalso | reflexivity].
  destruct (isdigit_has_digit t Hd) as (c & Hc & Hdc).
  destruct (spec_tokens_chars _ _ _ _ Ht Hc) as [[] | Hin].
  rewrite (command_none_no_digit message c Hcmd Hin) in Hdc. discriminate.
Qed.

(** ** Selection parsing *)

Lemma selected_goals_spec (message : string) :
  selected_goals_of message = spec_select_keep_repeats HEALTH_GOALS message.
Proof.
  unfold selected_goals_of, select_from, spec_select_keep_repeats.
  now rewrite numbers_of_spec.
Qed.

Lemma selected_restrictions_spec (message : string) :
  selected_restrictions_of message
  = spec_select_keep_repeats RESTRICTIONS message.
Proof.
  unfold selected_restrictions_of, select_from, spec_select_keep_repeats.
  fold (command_of message).
  destruct (String.eqb (command_of message) "none") eqn:Hcmd.
  - apply String.eqb_eq in Hcmd.
    now rewrite (command_none_no_numbers message Hcmd).
  - now rewrite numbers_of_spec.
Qed.

(** C2 (as amended): number-selection parsing, for the goals step and for
    the restrictions step alike, splits the message on commas and
    whitespace, keeps the all-digit tokens, maps each through the catalog
    and drops the unrecognized ones, in the order of the message and
    keeping repetitions; the input [2, 1, 2] at the goals step yields
    Lose weight, Lower cholesterol, Lose weight. *)
Theorem selection_parsing_keeps_repeats (message : string) :
  selected_goals_of message = spec_select_keep_repeats HEALTH_GOALS message
  /\ selected_restrictions_of message
     = spec_select_keep_repeats RESTRICTIONS message
  /\ selected_goals_of "2, 1, 2"
     = ["Lose weight"; "Lower cholesterol"; "Lose weight"].
Proof.
  split; [apply selected_goals_spec |].
  split; [apply selected_restrictions_spec | reflexivity].
Qed.

(** C2 (as stated) fails: on [2, 1, 2] the goals step keeps the repeated
    selection, where the stated rule yields two entries. *)
Lemma selection_parsing_no_dedup :
  spec_select HEALTH_GOALS "2, 1, 2" = ["Lose weight"; "Lower cholesterol"]
  /\ selected_goals_of "2, 1, 2" <> spec_select HEALTH_GOALS "2, 1, 2"
  /\ selected_goals_of "2, 1, 2" <> ["Lose weight"; "Lower cholesterol"].
Proof.
  split; [reflexivity |].
  split; vm_compute; discriminate.
Qed.

(** ** Profile completeness *)

Lemma is_profile_complete_iff (p : UserProfile) :
  is_profile_complete p = true
  <-> health_goals p <> [] /\ restrictions p <> [].
Proof.
  unfold is_profile_complete.
  destruct (health_goals p), (restrictions p); simpl; split;
    try discriminate; try tauto; try (intros [H1 H2]; congruence);
    intros _; split; discriminate.
Qed.

(** ** Conversation handlers *)

Lemma handle_goals_response_reprompt (w : world) (ph message : string) :
  selected_goals_of message = [] ->
  handle_goals_response ph message w
  = (Ok tt, with_outbox w [(ph, goals_reprompt)]).
Proof.
  intros Hsel. unfold handle_goals_response. run_handler.
  now rewrite Hsel.
Qed.

(** [handle_text_message] once the two look-ups are done. *)
Lemma handle_text_message_eq (w : world) (ph message nm now : string) :
  handle_text_message ph message nm now w
  = let profile := user_profiles w !! ph in
    let state := state_of w ph in
    if is_reset_command message then
      (delete_user_profile ph;; delete_user_state ph;;
       handle_new_user ph nm now) w
    else if is_help_command message then
      send_whatsapp_message ph help_msg w
    else if is_stats_command message then
      send_whatsapp_message ph (stats_reply profile) w
    else if is_profile_command message then
      send_whatsapp_message ph (profile_reply profile) w
    else if String.eqb state "new" || negb (bool_decide (is_Some profile)) then
      handle_new_user ph nm now w
    else if String.eqb state "awaiting_goals" then
      handle_goals_response ph message w
    else if String.eqb state "awaiting_restrictions" then
      handle_restrictions_response ph message w
    else if String.eqb state "ready" then
      send_whatsapp_message ph send_photo_msg w
    else (Ok tt, w).
Proof.
  unfold handle_text_message, state_of.
  unfold mbind at 1 2. unfold M_bind at 1 2.
  unfold get_user_profile at 1, get_user_state at 1. cbv beta iota zeta.
  repeat match goal with |- context [if ?b then _ else _] =>
    destruct b; [reflexivity |] end.
  reflexivity.
Qed.

Lemma dispatch_by_state (w : world) (ph message nm now : string) :
  is_global_command message = false ->
  is_Some (user_profiles w !! ph) ->
  handle_text_message ph message nm now w
  = if String.eqb (state_of w ph) "new" then handle_new_user ph nm now w
    else if String.eqb (state_of w ph) "awaiting_goals"
         then handle_goals_response ph message w
    else if String.eqb (state_of w ph) "awaiting_restrictions"
         then handle_restrictions_response ph message w
    else if String.eqb (state_of w ph) "ready"
         then (Ok tt, with_outbox w [(ph, send_photo_msg)])
    else (Ok tt, w).
Proof.
  unfold is_global_command. intros Hcmd Hprof.
  apply orb_false_iff in Hcmd as [Hcmd Hp].
  apply orb_false_iff in Hcmd as [Hcmd Hs].
  apply orb_false_iff in Hcmd as [Hr Hh].
  rewrite handle_text_message_eq. cbv zeta.
  rewrite Hr, Hh, Hs, Hp.
  rewrite (bool_decide_eq_true_2 _ Hprof). simpl negb. rewrite orb_false_r.
  reflexivity.
Qed.

(** C9: at the goals step a message in which no goal code is recognized
    is answered by the re-prompt and nothing else happens: profiles and
    states are as before, so the user stays in [awaiting_goals] with the
    same goals.  This holds of the handler on every state, and of the
    dispatch of such a text when it is no global command. *)
Theorem goals_step_no_code_reprompts (w : world) (ph message : string) :
  spec_select_keep_repeats HEALTH_GOALS message = [] ->
  let out := handle_goals_response ph message w in
  out = (Ok tt, with_outbox w [(ph, goals_reprompt)])
  /\ user_profiles (snd out) = user_profiles w
  /\ user_states (snd out) = user_states w
  /\ forall nm now,
       user_states w !! ph = Some "awaiting_goals" ->
       is_Some (user_profiles w !! ph) ->
       is_global_command message = false ->
       handle_text_message ph message nm now w = out
       /\ user_states (snd (handle_text_message ph message nm now w)) !! ph
          = Some "awaiting_goals"
       /\ user_profiles (snd (handle_text_message ph message nm now w)) !! ph
          = user_profiles w !! ph.
Proof.
  intros Hspec. rewrite <- selected_goals_spec in Hspec. cbv zeta.
  rewrite (handle_goals_response_reprompt w ph message Hspec).
  split; [reflexivity |]. split; [reflexivity |]. split; [reflexivity |].
  intros nm now Hst Hprof Hcmd.
  rewrite (dispatch_by_state w ph message nm now Hcmd Hprof).
  unfold state_of. rewrite Hst. simpl.
  rewrite (handle_goals_response_reprompt w ph message Hspec).
  repeat split. exact Hst.
Qed.

Lemma goals_step_no_code_reprompts_witness :
  let ph := "15550100" in
  let w := back_at_goals_step in
  let out := handle_text_message ph "maybe 9, x1" "Asha"
               "2024-05-01T09:45:00" w in
  spec_select_keep_repeats HEALTH_GOALS "maybe 9, x1" = []
  /\ user_states w !! ph = Some "awaiting_goals"
  /\ user_profiles w !! ph = Some sample_profile
  /\ health_goals sample_profile = ["Lose weight"]
  /\ is_global_command "maybe 9, x1" = false
  /\ out = (Ok tt, with_outbox w [(ph, goals_reprompt)])
  /\ user_states (snd out) !! ph = Some "awaiting_goals"
  /\ user_profiles (snd out) !! ph = Some sample_profile.
Proof.
  cbv zeta.
  assert (Hsel : spec_select_keep_repeats HEALTH_GOALS "maybe 9, x1" = [])
    by reflexivity.
  assert (Hst : user_states back_at_goals_step !! "15550100"
                = Some "awaiting_goals") by (vm_compute; reflexivity).
  assert (Hp : user_profiles back_at_goals_step !! "15550100"
               = Some sample_profile) by (vm_compute; reflexivity).
  assert (Hcmd : is_global_command "maybe 9, x1" = false) by reflexivity.
  destruct (goals_step_no_code_reprompts back_at_goals_step "15550100"
              "maybe 9, x1" Hsel) as (Hout & _ & _ & Hdispatch).
  destruct (Hdispatch "Asha" "2024-05-01T09:45:00" Hst
              (ex_intro _ sample_profile Hp) Hcmd) as (H1 & H2 & H3).
  split; [exact Hsel |]. split; [exact Hst |]. split; [exact Hp |].
  split; [reflexivity |]. split; [exact Hcmd |].
  split; [rewrite H1; exact Hout |].
  split; [exact H2 |]. rewrite H3. exact Hp.
Defined.

Lemma handle_restrictions_response_run (w : world) (ph message : string)
  (p : UserProfile) :
  user_profiles w !! ph = Some p ->
  handle_restrictions_response ph message w
  = let rs := selected_restrictions_of message in
    let p' := with_restrictions p rs in
    (Ok tt,
     {| user_profiles := <[phone p := p']> (<[ph := p']> (user_profiles w));
        user_states := <[ph := "ready"]> (user_states w);
        outbox := outbox w ++
          [(ph, ready_msg (PyStr.join ", " (health_goals p))
                  (match rs with [] => "None" | _ => PyStr.join ", " rs end))]
     |}).
Proof.
  intros Hp. unfold handle_restrictions_response. run_handler.
  rewrite Hp. reflexivity.
Qed.

Lemma lookup_saved (m : gmap string UserProfile) (ph : string)
  (p p' : UserProfile) :
  (<[phone p := p']> (<[ph := p']> m)) !! ph = Some p'.
Proof.
  destruct (decide (phone p = ph)) as [-> | Hne].
  - apply lookup_insert_eq.
  - rewrite lookup_insert_ne by exact Hne. apply lookup_insert_eq.
Qed.

(** C5: at the restrictions step the input [none] (whatever its case and
    surrounding blanks) and any input in which no restriction code is
    recognized both leave the profile with an empty restriction list and
    both move the user to [ready].  This holds of the handler, and of
    the dispatch of such a text from [awaiting_restrictions] when the
    text is no global command. *)
Theorem restrictions_step_none_or_unrecognized (w : world)
  (ph message : string) (p : UserProfile) :
  user_profiles w !! ph = Some p ->
  command_of message = "none"
  \/ spec_select_keep_repeats RESTRICTIONS message = [] ->
  let out := handle_restrictions_response ph message w in
  fst out = Ok tt
  /\ user_states (snd out) !! ph = Some "ready"
  /\ user_profiles (snd out) !! ph = Some (with_restrictions p [])
  /\ restrictions (with_restrictions p []) = []
  /\ forall nm now,
       user_states w !! ph = Some "awaiting_restrictions" ->
       is_global_command message = false ->
       handle_text_message ph message nm now w = out.
Proof.
  intros Hp Hmsg.
  assert (Hsel : selected_restrictions_of message = []).
  { destruct Hmsg as [Hnone | Hnone].
    - unfold selected_restrictions_of. fold (command_of message).
      now rewrite Hnone.
    - now rewrite selected_restrictions_spec. }
  cbv zeta. rewrite (handle_restrictions_response_run w ph message p Hp).
  cbv zeta. rewrite Hsel. simpl fst. simpl snd.
  split; [reflexivity |].
  split; [apply lookup_insert_eq |].
  split; [apply lookup_saved |].
  split; [reflexivity |].
  intros nm now Hst Hcmd.
  rewrite (dispatch_by_state w ph message nm now Hcmd)
    by (rewrite Hp; eexists; reflexivity).
  unfold state_of. rewrite Hst. simpl.
  rewrite (handle_restrictions_response_run w ph message p Hp).
  cbv zeta. now rewrite Hsel.
Qed.

Lemma restrictions_step_none_or_unrecognized_witness :
  user_profiles sample_world !! "15550100" = Some sample_profile
  /\ command_of "  NoNe " = "none"
  /\ user_states
       (snd (handle_restrictions_response "15550100" "  NoNe " sample_world))
       !! "15550100" = Some "ready".
Proof.
  split; [reflexivity |].
  split; [reflexivity |].
  apply (restrictions_step_none_or_unrecognized sample_world "15550100"
           "  NoNe " sample_profile).
  - reflexivity.
  - left. reflexivity.
Defined.

Lemma handle_new_user_run (w : world) (ph nm now : string) :
  handle_new_user ph nm now w
  = (Ok tt,
     {| user_profiles := <[ph := new_profile ph nm now]> (user_profiles w);
        user_states := <[ph := "awaiting_goals"]> (user_states w);
        outbox := outbox w ++ [(ph, welcome_msg nm)] |}).
Proof. reflexivity. Qed.

Lemma handle_goals_response_run (w : world) (ph message : string)
  (p : UserProfile) :
  user_profiles w !! ph = Some p ->
  selected_goals_of message <> [] ->
  handle_goals_response ph message w
  = let goals := selected_goals_of message in
    let p' := with_health_goals p goals in
    (Ok tt,
     {| user_profiles := <[phone p := p']> (<[ph := p']> (user_profiles w));
        user_states := <[ph := "awaiting_restrictions"]> (user_states w);
        outbox := outbox w ++ [(ph, restrictions_msg goals)] |}).
Proof.
  intros Hp Hsel. unfold handle_goals_response. run_handler.
  rewrite Hp. destruct (selected_goals_of message); [congruence | reflexivity].
Qed.

(** A text that is a reset command: the stored profile and state are
    dropped and the user starts anew. *)
Lemma handle_text_message_reset (w : world) (ph message nm now : string) :
  is_reset_command message = true ->
  handle_text_message ph message nm now w
  = (Ok tt,
     {| user_profiles :=
          <[ph := new_profile ph nm now]> (delete ph (user_profiles w));
        user_states := <[ph := "awaiting_goals"]> (delete ph (user_states w));
        outbox := outbox w ++ [(ph, welcome_msg nm)] |}).
Proof.
  intros Hr. rewrite handle_text_message_eq. cbv zeta.
  rewrite Hr. reflexivity.
Qed.

(** A text from a user without a stored state that is no help, stats or
    profile command. *)
Lemma handle_text_message_new (w : world) (ph message nm now : string) :
  user_states w !! ph = None ->
  is_help_command message = false ->
  is_stats_command message = false ->
  is_profile_command message = false ->
  let w' := snd (handle_text_message ph message nm now w) in
  user_states w' !! ph = Some "awaiting_goals"
  /\ user_profiles w' !! ph = Some (new_profile ph nm now).
Proof.
  intros Hst Hh Hs Hp. cbv zeta.
  destruct (is_reset_command message) eqn:Hr.
  - rewrite (handle_text_message_reset w ph message nm now Hr). simpl.
    split; apply lookup_insert_eq.
  - rewrite handle_text_message_eq. cbv zeta. unfold state_of.
    rewrite Hr, Hh, Hs, Hp, Hst. simpl.
    split; apply lookup_insert_eq.
Qed.

Section ConversationProperties.

Variable py_repr : value -> string.
Variable json_loads : string -> result value.

Lemma handle_cart_photo_redirect (w : world) (ph : string) (up : upstream) :
  no_complete_profile w ph ->
  handle_cart_photo py_repr json_loads ph up w
  = (Ok tt,
     {| user_profiles := user_profiles w;
        user_states := <[ph := "awaiting_goals"]> (user_states w);
        outbox := outbox w ++ [(ph, setup_first_msg)] |}).
Proof.
  unfold handle_cart_photo. run_handler.
  intros [Hp | (p & Hp & Hc)]; rewrite Hp; [reflexivity |].
  rewrite Hc. reflexivity.
Qed.

(** C3 (as amended): for a user with no stored conversation state, a text
    that is not a help, stats or profile command moves the user to
    [awaiting_goals] and stores a fresh profile with empty goals and
    empty restrictions; a photo, the stored profile being absent or
    incomplete, moves the user to [awaiting_goals]. *)
Theorem new_user_enters_goal_selection (w : world) (ph : string) :
  user_states w !! ph = None ->
  (forall body nm env,
     is_help_command body = false ->
     is_stats_command body = false ->
     is_profile_command body = false ->
     let w' := handle_webhook py_repr json_loads (TextMessage ph body nm) env w in
     user_states w' !! ph = Some "awaiting_goals"
     /\ user_profiles w' !! ph = Some (new_profile ph nm (now env))
     /\ health_goals (new_profile ph nm (now env)) = []
     /\ restrictions (new_profile ph nm (now env)) = [])
  /\ (forall c media env,
        no_complete_profile w ph ->
        user_states
          (handle_webhook py_repr json_loads
             (ImageMessage ph (Some (String c media))) env w) !! ph
        = Some "awaiting_goals").
Proof.
  intros Hst. split.
  - intros body nm env Hh Hs Hp. cbv zeta.
    unfold handle_webhook, dispatch.
    destruct (handle_text_message_new w ph body nm (now env) Hst Hh Hs Hp)
      as [H1 H2].
    repeat split; assumption.
  - intros c media env Hnp. unfold handle_webhook, dispatch.
    rewrite (handle_cart_photo_redirect w ph (photo_upstream env) Hnp).
    apply lookup_insert_eq.
Qed.

End ConversationProperties.

Lemma new_user_enters_goal_selection_witness :
  user_states initial_world !! "15550100" = None
  /\ user_states
       (handle_webhook no_repr no_json (TextMessage "15550100" "hi" "Asha")
          sample_env initial_world) !! "15550100" = Some "awaiting_goals".
Proof.
  split; [reflexivity |].
  apply (new_user_enters_goal_selection no_repr no_json initial_world
           "15550100"); reflexivity.
Defined.

(** C3 (as stated) fails: a new user who sends the text [help] gets the
    help text, keeps no stored state and gets no profile; a new user who
    sends a photo is moved to [awaiting_goals] and no profile is
    created. *)
Lemma new_user_help_or_photo_creates_no_profile :
  let ph := "15550100" in
  let after_help :=
    handle_webhook no_repr no_json (TextMessage ph "help" "Asha") sample_env
      initial_world in
  let after_photo :=
    handle_webhook no_repr no_json (ImageMessage ph (Some "media-1")) sample_env
      initial_world in
  user_states initial_world !! ph = None
  /\ user_states after_help !! ph = None
  /\ user_profiles after_help !! ph = None
  /\ outbox after_help = [(ph, help_msg)]
  /\ user_states after_photo !! ph = Some "awaiting_goals"
  /\ user_profiles after_photo !! ph = None.
Proof. cbv zeta. repeat split. Qed.

(** C1 (the code at the failing input): [is_profile_complete] holds
    exactly of the profiles with a goal and a restriction.  A user who
    chooses goal 2 and answers the restrictions menu with [none] is told
    the profile is set and is in state [ready], with goals Lose weight
    and no restrictions; [is_profile_complete] answers [False] for that
    profile, and the next photo is answered by the set-up prompt and a
    return to [awaiting_goals]. *)
Theorem empty_restrictions_reported_incomplete :
  let ph := "15550100" in
  let w := onboarded_without_restrictions in
  let p := with_restrictions
             (with_health_goals (new_profile ph "Asha" (now sample_env))
                ["Lose weight"]) [] in
  (forall q, is_profile_complete q = true
             <-> health_goals q <> [] /\ restrictions q <> [])
  /\ user_states w !! ph = Some "ready"
  /\ user_profiles w !! ph = Some p
  /\ health_goals p = ["Lose weight"]
  /\ restrictions p = []
  /\ is_profile_complete p = false
  /\ (exists sent, outbox w = sent ++ [(ph, ready_msg "Lose weight" "None")])
  /\ handle_cart_photo no_repr no_json ph TransportRaises w
     = (Ok tt,
        {| user_profiles := user_profiles w;
           user_states := <[ph := "awaiting_goals"]> (user_states w);
           outbox := outbox w ++ [(ph, setup_first_msg)] |}).
Proof.
  cbv zeta. split; [exact is_profile_complete_iff |].
  repeat split; try reflexivity.
  eexists [_; _]. reflexivity.
Qed.

(** ** Reachable states *)

Section Reachability.

Variable py_repr : value -> string.
Variable json_loads : string -> result value.

Lemma consistent_initial : consistent initial_world.
Proof. intros ph p H. simpl in H. rewrite lookup_empty in H. discriminate. Qed.

(** A step that touches the entries of [ph] only keeps the invariant
    when the new entries of [ph] satisfy it. *)
Lemma consistent_step (w w' : world) (ph : string) :
  consistent w ->
  (forall k, k <> ph ->
     user_profiles w' !! k = user_profiles w !! k
     /\ user_states w' !! k = user_states w !! k) ->
  (forall p', user_profiles w' !! ph = Some p' ->
     phone p' = ph
     /\ (restrictions p' <> [] ->
         health_goals p' <> [] /\ user_states w' !! ph = Some "ready")
     /\ (user_states w' !! ph = Some "awaiting_restrictions" ->
         health_goals p' <> [])) ->
  consistent w'.
Proof.
  intros Hw Hframe Hlocal k p Hk.
  destruct (decide (k = ph)) as [-> | Hne]; [now apply Hlocal |].
  destruct (Hframe k Hne) as [Hp Hs]. rewrite Hp in Hk. rewrite Hs.
  now apply Hw.
Qed.

Lemma consistent_outbox (w : world) (sent : list (string * string)) :
  consistent w -> consistent (with_outbox w sent).
Proof. intros Hw ph p Hp. exact (Hw ph p Hp). Qed.

Lemma analyze_and_report_effect (w : world) (ph : string) (p : UserProfile)
  (up : upstream) :
  let w' := snd (analyze_and_report py_repr json_loads ph p up w) in
  user_states w' = user_states w
  /\ (user_profiles w' = user_profiles w
      \/ exists p', same_selection p p'
           /\ (user_profiles w' = <[ph := p']> (user_profiles w)
               \/ user_profiles w'
                  = <[phone p' := p']> (<[ph := p']> (user_profiles w)))).
Proof.
  cbv zeta. unfold analyze_and_report.
  destruct up as [| response]; [split; [reflexivity | now left] |].
  run_handler.
  destruct (analyze_cart_with_claude json_loads response) as [analysis | e];
    [| split; [reflexivity | now left]].
  destruct (format_cart_analysis py_repr analysis) as [msg | e];
    [| split; [reflexivity | now left]].
  simpl.
  assert (Hp1 : same_selection p (with_cart_checks p (cart_checks p + 1)))
    by (repeat split).
  destruct (py_get analysis "items_found" (VList [])) as [items | e];
    [| split; [reflexivity | right; eexists; split; [exact Hp1 | now left]]].
  destruct (py_iter items) as [its | e];
    [| split; [reflexivity | right; eexists; split; [exact Hp1 | now left]]].
  destruct (items_of_category "RECONSIDER" its) as [reconsider | e];
    [| split; [reflexivity | right; eexists; split; [exact Hp1 | now left]]].
  simpl. split; [reflexivity |].
  right.
  exists (with_items_swapped (with_cart_checks p (cart_checks p + 1))
            (items_swapped p + Z.of_nat (length reconsider))).
  split; [repeat split |].
  right. rewrite insert_insert_eq. reflexivity.
Qed.

Lemma state_of_eqb (w : world) (ph st : string) :
  st <> "new" ->
  String.eqb (state_of w ph) st = true -> user_states w !! ph = Some st.
Proof.
  intros Hst H. apply String.eqb_eq in H. unfold state_of in H.
  destruct (user_states w !! ph); simpl in H; congruence.
Qed.

Lemma handle_text_message_consistent (w : world) (ph message nm now : string) :
  consistent w -> consistent (snd (handle_text_message ph message nm now w)).
Proof.
  intros Hw. rewrite handle_text_message_eq. cbv zeta.
  destruct (is_reset_command message).
  { apply (consistent_step w _ ph Hw); simpl.
    - intros k Hk. rewrite !lookup_insert_ne, !lookup_delete_ne by congruence.
      now split.
    - intros p'. rewrite !lookup_insert_eq. intros [= <-]. simpl.
      repeat split; congruence. }
  destruct (is_help_command message); [now apply consistent_outbox |].
  destruct (is_stats_command message); [now apply consistent_outbox |].
  destruct (is_profile_command message); [now apply consistent_outbox |].
  destruct (String.eqb (state_of w ph) "new"
            || negb (bool_decide (is_Some (user_profiles w !! ph)))) eqn:Hn.
  { apply (consistent_step w _ ph Hw); simpl.
    - intros k Hk. rewrite !lookup_insert_ne by congruence. now split.
    - intros p'. rewrite !lookup_insert_eq. intros [= <-]. simpl.
      repeat split; congruence. }
  apply orb_false_iff in Hn as [_ Hprof].
  apply negb_false_iff, bool_decide_eq_true_1 in Hprof as [p Hp].
  destruct (Hw ph p Hp) as (Hph & Hrs & Hgs).
  destruct (String.eqb (state_of w ph) "awaiting_goals") eqn:Hg.
  { apply state_of_eqb in Hg; [| discriminate].
    destruct (selected_goals_of message) as [| g gs] eqn:Hsel.
    - rewrite (handle_goals_response_reprompt w ph message Hsel).
      now apply consistent_outbox.
    - rewrite (handle_goals_response_run w ph message p Hp)
        by (rewrite Hsel; discriminate).
      cbv zeta. rewrite Hsel, Hph, insert_insert_eq.
      apply (consistent_step w _ ph Hw); simpl.
      + intros k Hk. rewrite !lookup_insert_ne by congruence. now split.
      + intros p'. rewrite !lookup_insert_eq. intros [= <-]. simpl.
        split; [exact Hph |]. split; [| discriminate].
        intros Hr. destruct (Hrs Hr) as [_ Hready]. congruence. }
  destruct (String.eqb (state_of w ph) "awaiting_restrictions") eqn:Hr.
  { apply state_of_eqb in Hr; [| discriminate].
    rewrite (handle_restrictions_response_run w ph message p Hp).
    cbv zeta. rewrite Hph, insert_insert_eq.
    apply (consistent_step w _ ph Hw); simpl.
    - intros k Hk. rewrite !lookup_insert_ne by congruence. now split.
    - intros p'. rewrite !lookup_insert_eq. intros [= <-]. simpl.
      split; [exact Hph |]. split; [| discriminate].
      intros _. split; [now apply Hgs | reflexivity]. }
  destruct (String.eqb (state_of w ph) "ready");
    [now apply consistent_outbox | exact Hw].
Qed.

Lemma handle_cart_photo_consistent (w : world) (ph : string) (up : upstream) :
  consistent w ->
  consistent (snd (handle_cart_photo py_repr json_loads ph up w)).
Proof.
  intros Hw.
  destruct (user_profiles w !! ph) as [p |] eqn:Hp.
  2: { rewrite handle_cart_photo_redirect by (left; exact Hp).
       apply (consistent_step w _ ph Hw); simpl.
       - intros k Hk. rewrite lookup_insert_ne by congruence. now split.
       - intros p'. rewrite Hp. discriminate. }
  destruct (Hw ph p Hp) as (Hph & Hrs & Hgs).
  destruct (is_profile_complete p) eqn:Hc.
  2: { rewrite handle_cart_photo_redirect by (right; eauto).
       apply (consistent_step w _ ph Hw); simpl.
       - intros k Hk. rewrite lookup_insert_ne by congruence. now split.
       - intros p'. rewrite Hp, lookup_insert_eq. intros [= <-].
         split; [exact Hph |]. split; [| discriminate].
         intros Hr. exfalso. destruct (Hrs Hr) as [Hg _].
         assert (is_profile_complete p = true)
           by (apply is_profile_complete_iff; now split).
         congruence. }
  unfold handle_cart_photo. run_handler. rewrite Hp, Hc.
  unfold try_except.
  pose proof (analyze_and_report_effect
                (with_outbox w [(ph, analyzing_msg)]) ph p up) as Heff.
  cbv zeta in Heff. unfold with_outbox in Heff.
  destruct (analyze_and_report py_repr json_loads ph p up _) as [[[] | e] w1];
    simpl in Heff |- *; destruct Heff as [Hst Hpr].
  all: apply (consistent_step w _ ph Hw); simpl.
  all: try (intros k Hk; rewrite Hst; split; [| reflexivity];
            destruct Hpr as [-> | (p' & (Hph' & _) & [-> | ->])];
            [reflexivity | |];
            rewrite ?Hph', ?Hph, !lookup_insert_ne by congruence; reflexivity).
  all: intros p'' Hp''; rewrite Hst;
    destruct Hpr as [Heq | (p' & (Hph' & Hg' & Hr') & [Heq | Heq])];
    rewrite Heq in Hp'';
    rewrite ?Hph', ?Hph, ?lookup_insert_eq in Hp'';
    [rewrite Hp in Hp'' | |]; injection Hp'' as <-;
    rewrite ?Hph', ?Hg', ?Hr'; auto.
Qed.

Lemma analyze_and_report_outbox (w : world) (ph : string) (p : UserProfile)
  (up : upstream) :
  exists sent,
    outbox (snd (analyze_and_report py_repr json_loads ph p up w))
    = outbox w ++ sent.
Proof.
  unfold analyze_and_report.
  destruct up as [| response]; [exists []; simpl; now rewrite app_nil_r |].
  run_handler.
  destruct (analyze_cart_with_claude json_loads response) as [analysis | e];
    [| exists []; simpl; now rewrite app_nil_r].
  destruct (format_cart_analysis py_repr analysis) as [msg | e];
    [| exists []; simpl; now rewrite app_nil_r].
  simpl. exists [(ph, msg)].
  destruct (py_get analysis "items_found" (VList [])) as [items | e];
    [| reflexivity].
  destruct (py_iter items) as [its | e]; [| reflexivity].
  destruct (items_of_category "RECONSIDER" its); reflexivity.
Qed.

(** With a complete profile the photo is acknowledged and analysed,
    whatever the stored state, which is left as it is. *)
Lemma handle_cart_photo_complete (w : world) (ph : string) (p : UserProfile)
  (up : upstream) :
  user_profiles w !! ph = Some p ->
  is_profile_complete p = true ->
  let out := handle_cart_photo py_repr json_loads ph up w in
  fst out = Ok tt
  /\ user_states (snd out) = user_states w
  /\ exists sent, outbox (snd out) = outbox w ++ (ph, analyzing_msg) :: sent.
Proof.
  intros Hp Hc. cbv zeta. unfold handle_cart_photo. run_handler.
  rewrite Hp, Hc. unfold try_except.
  pose proof (analyze_and_report_effect
                (with_outbox w [(ph, analyzing_msg)]) ph p up) as [Hst _].
  pose proof (analyze_and_report_outbox
                (with_outbox w [(ph, analyzing_msg)]) ph p up) as [sent Hout].
  unfold with_outbox in *.
  destruct (analyze_and_report py_repr json_loads ph p up _) as [[[] | e] w1];
    simpl in *.
  - split; [reflexivity |]. split; [exact Hst |].
    exists sent. rewrite Hout, <- app_assoc. reflexivity.
  - split; [reflexivity |]. split; [exact Hst |].
    exists (sent ++ [(ph, went_wrong_msg)]).
    rewrite Hout, <- !app_assoc. reflexivity.
Qed.

Lemma handle_webhook_consistent (w : world) (ev : inbound) (env : environment) :
  consistent w -> consistent (handle_webhook py_repr json_loads ev env w).
Proof.
  intros Hw. unfold handle_webhook, dispatch.
  destruct ev as [| ph body nm | ph [[| c media] |] | ph].
  - exact Hw.
  - now apply handle_text_message_consistent.
  - now apply consistent_outbox.
  - now apply handle_cart_photo_consistent.
  - now apply consistent_outbox.
  - now apply consistent_outbox.
Qed.

Lemma reachable_consistent (w : world) :
  reachable py_repr json_loads w -> consistent w.
Proof.
  induction 1 as [| w ev env _ IH];
    [apply consistent_initial | now apply handle_webhook_consistent].
Qed.

(** C4 (as amended): a photo from a user whose profile is absent or
    incomplete is answered by the goal-selection prompt alone and the
    state is set to [awaiting_goals], whatever the state was; profiles
    are left as they are and no analysis is run: the outcome is the same
    whatever the download and the provider would answer.  The same
    holds of the webhook dispatch of an image that has a media id. *)
Theorem photo_before_setup_redirects (w : world) (ph : string) (up : upstream) :
  no_complete_profile w ph ->
  let out := handle_cart_photo py_repr json_loads ph up w in
  out = (Ok tt,
         {| user_profiles := user_profiles w;
            user_states := <[ph := "awaiting_goals"]> (user_states w);
            outbox := outbox w ++ [(ph, setup_first_msg)] |})
  /\ user_states (snd out) !! ph = Some "awaiting_goals"
  /\ user_profiles (snd out) = user_profiles w
  /\ (forall up', handle_cart_photo py_repr json_loads ph up' w = out)
  /\ (forall c media nw,
        handle_webhook py_repr json_loads
          (ImageMessage ph (Some (String c media)))
          {| now := nw; photo_upstream := up |} w
        = snd out).
Proof.
  intros Hnp. cbv zeta.
  rewrite (handle_cart_photo_redirect py_repr json_loads w ph up Hnp).
  split; [reflexivity |]. split; [apply lookup_insert_eq |].
  split; [reflexivity |].
  split; [intros up'; exact (handle_cart_photo_redirect py_repr json_loads w ph up' Hnp) |].
  intros c media nw. unfold handle_webhook, dispatch. simpl photo_upstream.
  now rewrite (handle_cart_photo_redirect py_repr json_loads w ph up Hnp).
Qed.

(** On the states reached by handling one event at a time a user who is
    not [ready] has no complete profile, so there a photo from such a
    user is redirected as well. *)
Lemma photo_not_ready_redirects_if_reachable (w : world) (ph : string)
  (up : upstream) :
  reachable py_repr json_loads w ->
  state_of w ph <> "ready" ->
  handle_cart_photo py_repr json_loads ph up w
  = (Ok tt,
     {| user_profiles := user_profiles w;
        user_states := <[ph := "awaiting_goals"]> (user_states w);
        outbox := outbox w ++ [(ph, setup_first_msg)] |}).
Proof.
  intros Hreach Hst. apply handle_cart_photo_redirect.
  destruct (user_profiles w !! ph) as [p |] eqn:Hp; [| now left].
  right. exists p. split; [exact Hp |].
  destruct (is_profile_complete p) eqn:Hc; [exfalso | reflexivity].
  apply is_profile_complete_iff in Hc as [_ Hr].
  destruct (reachable_consistent w Hreach ph p Hp) as (_ & Hrs & _).
  destruct (Hrs Hr) as [_ Hready].
  apply Hst. unfold state_of. now rewrite Hready.
Qed.

End Reachability.

Lemma photo_before_setup_redirects_witness :
  state_of profiles_cleared_world "15550100" = "ready"
  /\ no_complete_profile profiles_cleared_world "15550100"
  /\ handle_cart_photo no_repr no_json "15550100" TransportRaises
       profiles_cleared_world
     = (Ok tt,
        {| user_profiles := user_profiles profiles_cleared_world;
           user_states :=
             <["15550100" := "awaiting_goals"]>
               (user_states profiles_cleared_world);
           outbox := outbox profiles_cleared_world
                     ++ [("15550100", setup_first_msg)] |})
  /\ state_of at_restrictions_step "15550100" = "awaiting_restrictions"
  /\ no_complete_profile at_restrictions_step "15550100"
  /\ user_states
       (snd (handle_cart_photo no_repr no_json "15550100" TransportRaises
               at_restrictions_step)) !! "15550100"
     = Some "awaiting_goals".
Proof.
  assert (Hnp : no_complete_profile profiles_cleared_world "15550100")
    by (left; reflexivity).
  assert (Hnp' : no_complete_profile at_restrictions_step "15550100")
    by (right; exists sample_profile; split; vm_compute; reflexivity).
  split; [reflexivity |]. split; [exact Hnp |].
  split;
    [exact (proj1 (photo_before_setup_redirects no_repr no_json
                     profiles_cleared_world "15550100" TransportRaises Hnp)) |].
  split; [vm_compute; reflexivity |]. split; [exact Hnp' |].
  exact (proj1 (proj2 (photo_before_setup_redirects no_repr no_json
                         at_restrictions_step "15550100" TransportRaises
                         Hnp'))).
Defined.

(** C4 (as stated) fails: the handler does not read the conversation
    state.  A user with a complete profile whose state is gone, so not
    [ready], sends a photo: it is acknowledged, analysed and counted; no
    goal-selection prompt is sent and no state is set. *)
Lemma photo_with_complete_profile_ignores_state :
  let ph := "15550100" in
  let w := states_cleared_world in
  let out := handle_cart_photo no_repr sample_json ph
               (Responds {| status_code := 200;
                            content_text := Some "{sample}" |}) w in
  state_of w ph <> "ready"
  /\ user_profiles w !! ph = Some returning_profile
  /\ is_profile_complete returning_profile = true
  /\ fst out = Ok tt
  /\ user_states (snd out) !! ph = None
  /\ outbox (snd out)
     = [(ph, analyzing_msg); (ph, spec_report sample_result)]
  /\ user_profiles (snd out) !! ph
     = Some (after_cart_check returning_profile 1).
Proof.
  cbv zeta. split; [vm_compute; discriminate |].
  repeat split; vm_compute; reflexivity.
Qed.

(** ** Analysis formatter *)

Lemma repeat_nat_concat (g : string) (n : nat) :
  PyStr.repeat_nat g n = String.concat "" (repeat g n).
Proof.
  induction n as [| n IH]; simpl; [reflexivity |].
  rewrite IH. destruct (repeat g n) eqn:Hr; [| reflexivity].
  simpl. now rewrite append_empty_r.
Qed.

Lemma concat_empty_app (l l' : list string) :
  String.concat "" (l ++ l') = String.concat "" l +:+ String.concat "" l'.
Proof.
  induction l as [| x l IH]; [reflexivity |].
  change ((x :: l) ++ l') with (x :: (l ++ l')).
  assert (H : forall y ys, String.concat "" (y :: ys) = y +:+ String.concat "" ys).
  { intros y [| z ys]; simpl; [now rewrite append_empty_r | reflexivity]. }
  rewrite !H, IH. now rewrite append_assoc.
Qed.

(** *** Counting the glyphs of the score line *)

Lemma count_sub_filled_cons (rest : string) :
  count_sub filled_glyph (filled_glyph +:+ rest)
  = S (count_sub filled_glyph rest)
  /\ count_sub empty_glyph (filled_glyph +:+ rest)
     = count_sub empty_glyph rest.
Proof. split; reflexivity. Qed.

Lemma count_sub_empty_cons (rest : string) :
  count_sub filled_glyph (empty_glyph +:+ rest)
  = count_sub filled_glyph rest
  /\ count_sub empty_glyph (empty_glyph +:+ rest)
     = S (count_sub empty_glyph rest).
Proof. split; reflexivity. Qed.

(** Text without the byte both glyphs start with holds neither. *)
Lemma count_sub_absent (g : string) (s rest : string) :
  g = filled_glyph \/ g = empty_glyph ->
  absent "226" s = true ->
  count_sub g (s +:+ rest) = count_sub g rest.
Proof.
  intros Hg Hs. induction s as [| c s IH]; [reflexivity |].
  simpl in Hs. apply andb_true_iff in Hs as [Hc Hs].
  apply negb_true_iff in Hc.
  change (String c s +:+ rest) with (String c (s +:+ rest)).
  simpl count_sub. rewrite (IH Hs).
  rewrite Ascii.eqb_sym in Hc.
  assert (Hp : is_prefix g (String c (s +:+ rest)) = false).
  { destruct Hg as [-> | ->]; unfold filled_glyph, empty_glyph;
      change (is_prefix (String "226" ?p) (String c ?t))
        with (Ascii.eqb "226" c && is_prefix p t);
      now rewrite Hc. }
  now rewrite Hp.
Qed.

Lemma absent_app (c : ascii) (a b : string) :
  absent c (a +:+ b) = absent c a && absent c b.
Proof.
  induction a as [| d a IH]; simpl; [reflexivity |].
  now rewrite IH, andb_assoc.
Qed.

Lemma digit_not_glyph_byte (n : Z) :
  Ascii.eqb (ascii_of_N (48 + Z.to_N (n mod 10))) "226" = false.
Proof.
  pose proof (Z.mod_pos_bound n 10 ltac:(lia)) as Hb.
  assert (H : exists k, (k < 10)%nat /\ Z.to_N (n mod 10) = N.of_nat k).
  { exists (Z.to_nat (n mod 10)). split; lia. }
  destruct H as (k & Hk & ->).
  do 10 (destruct k as [| k]; [reflexivity |]). lia.
Qed.

Lemma digits_absent (fuel : nat) (n : Z) (acc : string) :
  absent "226" acc = true ->
  absent "226" (PyStr.digits_of_pos_fuel fuel n acc) = true.
Proof.
  revert n acc. induction fuel as [| fuel IH]; intros n acc Hacc; simpl;
    [exact Hacc |].
  assert (Hd : absent "226"
                 (String (ascii_of_N (48 + Z.to_N (n mod 10))) "" +:+ acc)
               = true).
  { simpl. now rewrite digit_not_glyph_byte, Hacc. }
  destruct (n <? 10); [exact Hd | now apply IH].
Qed.

Lemma str_of_Z_absent (n : Z) : absent "226" (PyStr.str_of_Z n) = true.
Proof.
  unfold PyStr.str_of_Z. destruct (n <? 0).
  - rewrite absent_app, digits_absent; reflexivity.
  - now apply digits_absent.
Qed.

Lemma count_sub_glyph_run (a b : nat) (tail : string) :
  absent "226" tail = true ->
  count_sub filled_glyph
    (String.concat "" (repeat filled_glyph a ++ repeat empty_glyph b) +:+ tail)
  = a
  /\ count_sub empty_glyph
       (String.concat "" (repeat filled_glyph a ++ repeat empty_glyph b) +:+ tail)
     = b.
Proof.
  intros Htail.
  assert (Htl : forall g, g = filled_glyph \/ g = empty_glyph ->
                          count_sub g tail = 0%nat).
  { intros g Hg. rewrite <- (append_empty_r tail).
    rewrite (count_sub_absent g tail "" Hg Htail).
    destruct Hg as [-> | ->]; reflexivity. }
  assert (Hb : count_sub filled_glyph
                 (String.concat "" (repeat empty_glyph b) +:+ tail) = 0%nat
               /\ count_sub empty_glyph
                    (String.concat "" (repeat empty_glyph b) +:+ tail) = b).
  { induction b as [| b [IH1 IH2]].
    - simpl. split; apply Htl; tauto.
    - change (repeat empty_glyph (S b)) with ([empty_glyph] ++ repeat empty_glyph b).
      rewrite concat_empty_app. simpl (String.concat "" [empty_glyph]).
      rewrite append_assoc.
      destruct (count_sub_empty_cons
                  (String.concat "" (repeat empty_glyph b) +:+ tail)) as [-> ->].
      now rewrite IH1, IH2. }
  induction a as [| a [IH1 IH2]]; [exact Hb |].
  change (repeat filled_glyph (S a) ++ repeat empty_glyph b)
    with ([filled_glyph] ++ (repeat filled_glyph a ++ repeat empty_glyph b)).
  rewrite concat_empty_app. simpl (String.concat "" [filled_glyph]).
  rewrite append_assoc.
  destruct (count_sub_filled_cons
              (String.concat "" (repeat filled_glyph a ++ repeat empty_glyph b)
               +:+ tail)) as [-> ->].
  now rewrite IH1, IH2.
Qed.

(** The score line holds exactly as many filled and empty glyphs as the
    two runs it is built from. *)
Lemma score_bar_glyph_counts (n : Z) :
  count_sub filled_glyph (spec_score_bar n) = Z.to_nat n
  /\ count_sub empty_glyph (spec_score_bar n) = Z.to_nat (10 - n).
Proof.
  unfold spec_score_bar, glyphs.
  assert (Htail : absent "226" (" (" +:+ PyStr.str_of_Z n +:+ "/10)") = true).
  { rewrite !absent_app, str_of_Z_absent. reflexivity. }
  destruct (count_sub_glyph_run (Z.to_nat n) (Z.to_nat (10 - n)) _ Htail)
    as [H1 H2].
  split.
  - rewrite (count_sub_absent filled_glyph "Health Score: " _) by (tauto || reflexivity).
    exact H1.
  - rewrite (count_sub_absent empty_glyph "Health Score: " _) by (tauto || reflexivity).
    exact H2.
Qed.

Section FormatterProperties.

Variable py_repr : value -> string.

(** Repetition of a one-character literal: inside the index range it
    returns the copies, outside it raises. *)
Lemma mul_one_char (g : string) (n : Z) :
  PyStr.code_points g = 1 ->
  PyStr.index_min <= n <= PyStr.index_max ->
  py_mul g n = Ok (PyStr.repeat_nat g (Z.to_nat n)).
Proof.
  intros Hg Hn. unfold py_mul, PyStr.mul, PyStr.fits_index.
  unfold PyStr.index_min, PyStr.index_max in *.
  destruct (Z.leb_spec (-9223372036854775808) n); [| lia].
  destruct (Z.leb_spec n 9223372036854775807); [| lia].
  simpl negb. cbv iota.
  destruct (Z.ltb_spec n 1) as [Hlt | Hge].
  - replace (Z.to_nat n) with 0%nat by lia. reflexivity.
  - rewrite Hg.
    assert (1 <= 9223372036854775807 / n)
      by (apply Z.div_le_lower_bound; lia).
    destruct (Z.ltb_spec (9223372036854775807 / n) 1); [lia | reflexivity].
Qed.

Lemma mul_outside_index (g : string) (n : Z) :
  ~ PyStr.index_min <= n <= PyStr.index_max ->
  py_mul g n = Raise OverflowError.
Proof.
  intros Hn. unfold py_mul, PyStr.mul, PyStr.fits_index.
  unfold PyStr.index_min, PyStr.index_max in *.
  destruct (Z.leb_spec (-9223372036854775808) n);
    destruct (Z.leb_spec n 9223372036854775807); try reflexivity.
  lia.
Qed.

(** The score line for an integer score whose counts are indices,
    whatever its size. *)
Lemma score_line_int (n : Z) :
  score_fits n ->
  score_line py_repr (VInt n) = Ok (spec_score_bar n).
Proof.
  intros [Hn Hm]. unfold score_line, mbind, result_bind, as_int.
  rewrite (mul_one_char filled_glyph n eq_refl Hn).
  rewrite (mul_one_char empty_glyph (10 - n) eq_refl Hm).
  unfold spec_score_bar, glyphs. simpl py_str.
  rewrite concat_empty_app, !repeat_nat_concat.
  now rewrite !append_assoc.
Qed.

(** The score line for an integer score one of whose counts is no
    index. *)
Lemma score_line_overflow (n : Z) :
  ~ score_fits n ->
  score_line py_repr (VInt n) = Raise OverflowError.
Proof.
  intros Hn. unfold score_line, mbind, result_bind, as_int.
  destruct (decide (PyStr.index_min <= n <= PyStr.index_max)) as [Hin | Hout].
  - rewrite (mul_one_char filled_glyph n eq_refl Hin).
    rewrite (mul_outside_index empty_glyph (10 - n)); [reflexivity |].
    intros Hm. apply Hn. now split.
  - now rewrite (mul_outside_index filled_glyph n Hout).
Qed.

(** Scores from 0 to 10 have both counts in the index range. *)
Lemma score_fits_standard (n : Z) : 0 <= n <= 10 -> score_fits n.
Proof. unfold score_fits, PyStr.index_min, PyStr.index_max. lia. Qed.

Lemma eq_str_category (c c' : category) :
  eq_str (VStr (category_tag c)) (category_tag c') = category_eqb c c'.
Proof. destruct c, c'; reflexivity. Qed.

Lemma items_of_category_carried (c : category) (vs : list value)
  (items : list Item) :
  Forall2 carries_item vs items ->
  exists vs',
    items_of_category (category_tag c) vs = Ok vs'
    /\ Forall2 carries_item vs' (in_category c items).
Proof.
  induction 1 as [| v it vs items Hv _ (vs' & Heq & Hvs')]; simpl.
  - exists []. split; [reflexivity | constructor].
  - destruct Hv as (d & -> & Hn & Hc & Hr & Ha).
    unfold mbind, result_bind. simpl. rewrite Hc, Heq.
    rewrite eq_str_category.
    destruct (category_eqb (item_category it) c).
    + eexists. split; [reflexivity |]. constructor; [| exact Hvs'].
      exists d. repeat split; assumption.
    + eexists. split; [reflexivity | exact Hvs'].
Qed.

Lemma plain_item_lines_carried (v : value) (it : Item) :
  carries_item v it -> plain_item_lines py_repr v = Ok (spec_plain_bullet it).
Proof.
  intros (d & -> & Hn & _). unfold plain_item_lines, mbind, result_bind.
  simpl. now rewrite Hn.
Qed.

Lemma reconsider_item_lines_carried (v : value) (it : Item) :
  carries_item v it ->
  reconsider_item_lines py_repr v = Ok (spec_reconsider_bullet it).
Proof.
  intros (d & -> & Hn & _ & Hr & Ha).
  unfold reconsider_item_lines, spec_reconsider_bullet, mbind, result_bind.
  simpl. rewrite Hn, Hr, Ha.
  destruct (item_reason it) as [[| c r] |], (item_alternative it) as [[| c' a] |];
    reflexivity.
Qed.

Lemma map_result_carried (f : value -> result (list string))
  (g : Item -> list string) (vs : list value) (items : list Item) :
  (forall v it, carries_item v it -> f v = Ok (g it)) ->
  Forall2 carries_item vs items ->
  map_result f vs = Ok (map g items).
Proof.
  intros Hf. induction 1 as [| v it vs items Hv _ IH]; simpl; [reflexivity |].
  unfold mbind, result_bind. now rewrite (Hf v it Hv), IH.
Qed.

Lemma group_lines_carried (heading : string)
  (f : value -> result (list string)) (g : Item -> list string)
  (vs : list value) (items : list Item) :
  (forall v it, carries_item v it -> f v = Ok (g it)) ->
  Forall2 carries_item vs items ->
  group_lines heading f vs = Ok (spec_group heading g items).
Proof.
  intros Hf Hvs. unfold group_lines, spec_group.
  destruct Hvs as [| v it vs items Hv Hvs]; [reflexivity |].
  rewrite (map_result_carried f g (v :: vs) (it :: items) Hf)
    by (constructor; assumption).
  unfold mbind, result_bind. now rewrite flat_map_concat_map.
Qed.

(** The list [lines] of the formatter is the specified one for every
    dictionary that carries a result whose score has both repetition
    counts in the index range. *)
Lemma report_lines_carried (v : value) (a : CartAnalysisResult) :
  carries_result v a ->
  score_fits (default 5 (health_score a)) ->
  report_lines py_repr v = Ok (spec_report_lines a).
Proof.
  intros (d & vs & -> & Herr & Hitems & Hvs & Hscore & Henc) Hfits.
  unfold report_lines, mbind, result_bind.
  simpl. rewrite Hscore, Henc.
  assert (Hi : match dict_get "items_found" d with
               | Some x => x | None => VList [] end = VList vs).
  { destruct Hitems as [-> | [-> ->]]; reflexivity. }
  rewrite Hi. simpl.
  destruct (items_of_category_carried Good vs _ Hvs) as (gs & Heq & Hgs);
    simpl in Heq; rewrite Heq; clear Heq.
  destruct (items_of_category_carried Okay vs _ Hvs) as (os & Heq & Hos);
    simpl in Heq; rewrite Heq; clear Heq.
  destruct (items_of_category_carried Reconsider vs _ Hvs) as (rs & Heq & Hrs);
    simpl in Heq; rewrite Heq; clear Heq.
  assert (Hs : match VInt <$> health_score a with
               | Some x => x | None => VInt 5 end
               = VInt (default 5 (health_score a)))
    by (destruct (health_score a); reflexivity).
  rewrite Hs, (score_line_int _ Hfits).
  rewrite (group_lines_carried good_heading _ spec_plain_bullet gs _
             plain_item_lines_carried Hgs).
  rewrite (group_lines_carried okay_heading _ spec_plain_bullet os _
             plain_item_lines_carried Hos).
  rewrite (group_lines_carried reconsider_heading _ spec_reconsider_bullet rs _
             reconsider_item_lines_carried Hrs).
  unfold spec_report_lines.
  destruct (encouragement a); reflexivity.
Qed.

Lemma format_cart_analysis_carried (v : value) (a : CartAnalysisResult) :
  carries_result v a ->
  score_fits (default 5 (health_score a)) ->
  format_cart_analysis py_repr v = Ok (spec_report a).
Proof.
  intros Hv Hfits. pose proof (report_lines_carried v a Hv Hfits) as Hlines.
  destruct Hv as (d & vs & -> & Herr & _).
  unfold format_cart_analysis, mbind, result_bind in *.
  simpl py_in. rewrite Herr. cbv iota beta.
  now rewrite Hlines.
Qed.

(** *** Headings *)

Lemma count_line_app (h : string) (l l' : list string) :
  count_line h (l ++ l') = (count_line h l + count_line h l')%nat.
Proof. unfold count_line. now rewrite List.filter_app, length_app. Qed.

Lemma count_line_flat_map (h : string) (bullet : Item -> list string)
  (items : list Item) :
  (forall it, count_line h (bullet it) = 0%nat) ->
  count_line h (flat_map bullet items) = 0%nat.
Proof.
  intros Hb. induction items as [| it items IH]; simpl; [reflexivity |].
  now rewrite count_line_app, Hb, IH.
Qed.

Lemma plain_bullet_no_heading (h : string) (it : Item) :
  is_heading h -> count_line h (spec_plain_bullet it) = 0%nat.
Proof. intros [-> | [-> | ->]]; reflexivity. Qed.

Lemma reconsider_bullet_no_heading (h : string) (it : Item) :
  is_heading h -> count_line h (spec_reconsider_bullet it) = 0%nat.
Proof.
  unfold spec_reconsider_bullet.
  destruct (item_reason it) as [[| c r] |], (item_alternative it) as [[| c' a] |];
    intros [-> | [-> | ->]]; reflexivity.
Qed.

Lemma count_line_group (h heading : string) (bullet : Item -> list string)
  (items : list Item) :
  is_heading h ->
  (forall it, count_line h (bullet it) = 0%nat) ->
  count_line h (spec_group heading bullet items)
  = match items with
    | [] => 0%nat
    | _ => if String.eqb h heading then 1%nat else 0%nat
    end.
Proof.
  intros Hh Hb. unfold spec_group. destruct items as [| it items]; [reflexivity |].
  change (heading :: flat_map bullet (it :: items) ++ [""])
    with ([heading] ++ flat_map bullet (it :: items) ++ [""]).
  rewrite !count_line_app, (count_line_flat_map h bullet _ Hb).
  unfold count_line at 1. simpl List.filter.
  assert (He : count_line h [""] = 0%nat)
    by (destruct Hh as [-> | [-> | ->]]; reflexivity).
  rewrite He. destruct (String.eqb h heading); reflexivity.
Qed.

Lemma count_heading_report (h : string) (a : CartAnalysisResult) :
  is_heading h ->
  count_line h (spec_report_lines a)
  = (count_line h (spec_group good_heading spec_plain_bullet
                     (in_category Good (items_found a)))
     + count_line h (spec_group okay_heading spec_plain_bullet
                       (in_category Okay (items_found a)))
     + count_line h (spec_group reconsider_heading spec_reconsider_bullet
                       (in_category Reconsider (items_found a))))%nat.
Proof.
  intros Hh. unfold spec_report_lines. rewrite !count_line_app.
  assert (H1 : forall x, count_line h [report_title; report_rule;
                                       spec_score_bar x; ""] = 0%nat)
    by (intros x; destruct Hh as [-> | [-> | ->]]; reflexivity).
  assert (H2 : forall x, count_line h ["💚 " +:+ x; ""; invitation] = 0%nat)
    by (intros x; destruct Hh as [-> | [-> | ->]]; reflexivity).
  rewrite H1, H2. lia.
Qed.

Lemma heading_counts (a : CartAnalysisResult) :
  let lines := spec_report_lines a in
  count_line good_heading lines
  = match in_category Good (items_found a) with [] => 0 | _ => 1 end%nat
  /\ count_line okay_heading lines
     = match in_category Okay (items_found a) with [] => 0 | _ => 1 end%nat
  /\ count_line reconsider_heading lines
     = match in_category Reconsider (items_found a) with [] => 0 | _ => 1 end%nat.
Proof.
  cbv zeta.
  rewrite !count_heading_report by (unfold is_heading; tauto).
  rewrite !count_line_group
    by (try (unfold is_heading; tauto);
        intros it;
        first [apply plain_bullet_no_heading | apply reconsider_bullet_no_heading];
        unfold is_heading; tauto).
  destruct (in_category Good (items_found a)),
    (in_category Okay (items_found a)),
    (in_category Reconsider (items_found a)); repeat split; reflexivity.
Qed.

Lemma in_category_sublist (c : category) (items : list Item) :
  sublist (in_category c items) items.
Proof.
  induction items as [| it items IH]; simpl; [constructor |].
  destruct (category_eqb (item_category it) c); now constructor.
Qed.

Lemma category_eqb_eq (c c' : category) : category_eqb c c' = true <-> c = c'.
Proof. destruct c, c'; simpl; split; congruence. Qed.

Lemma in_category_In (c : category) (items : list Item) (it : Item) :
  In it (in_category c items) <-> In it items /\ item_category it = c.
Proof. unfold in_category. now rewrite filter_In, category_eqb_eq. Qed.

Lemma value_of_item_carries (it : Item) : carries_item (value_of_item it) it.
Proof.
  unfold value_of_item. eexists. split; [reflexivity |].
  destruct (item_reason it), (item_alternative it); repeat split.
Qed.

Lemma value_of_result_carries (a : CartAnalysisResult) :
  carries_result (value_of_result a) a.
Proof.
  unfold value_of_result.
  eexists _, (map value_of_item (items_found a)).
  split; [reflexivity |].
  split; [destruct (health_score a), (encouragement a); reflexivity |].
  split; [now left |].
  split.
  { induction (items_found a); constructor; auto using value_of_item_carries. }
  destruct (health_score a), (encouragement a); split; reflexivity.
Qed.

(** C8: for a dictionary that carries an analysis result with a score
    from 0 to 10 (5 when the score is missing), the formatter returns
    the specified report: title and rule, a score line with exactly
    [score] filled glyphs followed by [10 - score] empty ones and the
    numeric score, the three groups in the order of the result (each
    heading once when its group has an item, never otherwise; reason and
    alternative sub-lines for the items to reconsider that have a
    non-empty one), and last the encouragement line (the fixed one when
    missing), a blank line and the invitation. *)
Theorem report_of_analysis_result (v : value) (a : CartAnalysisResult) :
  carries_result v a ->
  0 <= default 5 (health_score a) <= 10 ->
  let score := default 5 (health_score a) in
  let lines := spec_report_lines a in
  report_lines py_repr v = Ok lines
  /\ format_cart_analysis py_repr v = Ok (PyStr.join (String "010" "") lines)
  /\ (exists bar,
        lines !! 2%nat = Some bar
        /\ bar = "Health Score: "
                 +:+ String.concat ""
                       (repeat filled_glyph (Z.to_nat score)
                        ++ repeat empty_glyph (Z.to_nat (10 - score)))
                 +:+ " (" +:+ PyStr.str_of_Z score +:+ "/10)"
        /\ Z.of_nat (count_sub filled_glyph bar) = score
        /\ Z.of_nat (count_sub empty_glyph bar) = 10 - score)
  /\ (forall c,
        sublist (in_category c (items_found a)) (items_found a)
        /\ forall it, In it (in_category c (items_found a))
                      <-> In it (items_found a) /\ item_category it = c)
  /\ count_line good_heading lines
     = match in_category Good (items_found a) with [] => 0 | _ => 1 end%nat
  /\ count_line okay_heading lines
     = match in_category Okay (items_found a) with [] => 0 | _ => 1 end%nat
  /\ count_line reconsider_heading lines
     = match in_category Reconsider (items_found a) with [] => 0 | _ => 1 end%nat
  /\ (forall it c r,
        In it (in_category Reconsider (items_found a)) ->
        (item_reason it = Some (String c r) ->
         In ("    _" +:+ String c r +:+ "_") lines)
        /\ (item_alternative it = Some (String c r) ->
            In ("    → Try: " +:+ String c r) lines))
  /\ (exists front,
        lines = front ++ ["💚 " +:+ default default_encouragement (encouragement a);
                          ""; invitation])
  /\ (health_score a = None -> score = 5)
  /\ (encouragement a = None ->
      default default_encouragement (encouragement a) = "Keep making healthy choices!").
Proof.
  intros Hv Hscore. cbv zeta.
  pose proof (score_fits_standard _ Hscore) as Hfits.
  split; [exact (report_lines_carried v a Hv Hfits) |].
  split; [exact (format_cart_analysis_carried v a Hv Hfits) |].
  split.
  { exists (spec_score_bar (default 5 (health_score a))).
    destruct (score_bar_glyph_counts (default 5 (health_score a))) as [Hf He].
    split; [reflexivity |]. split; [reflexivity |].
    rewrite Hf, He. split; lia. }
  split; [intros c; split; [apply in_category_sublist | intros it; apply in_category_In] |].
  destruct (heading_counts a) as (Hg & Ho & Hr).
  split; [exact Hg |]. split; [exact Ho |]. split; [exact Hr |].
  split.
  { intros it c r Hit. unfold spec_report_lines.
    assert (Hin : forall l, In l (spec_reconsider_bullet it) ->
              In l (spec_group reconsider_heading spec_reconsider_bullet
                      (in_category Reconsider (items_found a)))).
    { intros l Hl. unfold spec_group.
      destruct (in_category Reconsider (items_found a)) eqn:Hcat; [destruct Hit |].
      right. apply in_or_app. left. apply in_flat_map. exists it. now split. }
    split; intros Heq.
    - apply in_or_app; right. apply in_or_app; right. apply in_or_app; right.
      apply in_or_app; left. apply Hin. unfold spec_reconsider_bullet.
      rewrite Heq. right. apply in_or_app. left. now left.
    - apply in_or_app; right. apply in_or_app; right. apply in_or_app; right.
      apply in_or_app; left. apply Hin. unfold spec_reconsider_bullet.
      rewrite Heq. right. apply in_or_app. right. now left. }
  split.
  { unfold spec_report_lines. eexists. rewrite !app_assoc. reflexivity. }
  split; [now intros -> | now intros ->].
Qed.

(** C10 (as amended): the score is neither validated nor clamped.  For
    every integer score whose two repetition counts, the score and ten
    minus the score, are indices of the interpreter, the score line has
    [max score 0] filled glyphs followed by [max (10 - score) 0] empty
    ones, and the formatter returns its report; above 10 there are more
    than ten filled glyphs and no empty one, at 0 or below there is no
    filled glyph, and the line has ten glyphs exactly when the score is
    from 0 to 10.  (The embedding has no bound on memory.) *)
Theorem score_bar_not_clamped (n : Z) :
  score_fits n ->
  exists bar,
    score_line py_repr (VInt n) = Ok bar
    /\ bar = "Health Score: "
             +:+ String.concat ""
                   (repeat filled_glyph (Z.to_nat (Z.max n 0))
                    ++ repeat empty_glyph (Z.to_nat (Z.max (10 - n) 0)))
             +:+ " (" +:+ PyStr.str_of_Z n +:+ "/10)"
    /\ Z.of_nat (count_sub filled_glyph bar) = Z.max n 0
    /\ Z.of_nat (count_sub empty_glyph bar) = Z.max (10 - n) 0
    /\ (10 < n -> (10 < count_sub filled_glyph bar)%nat
                  /\ count_sub empty_glyph bar = 0%nat)
    /\ (n <= 0 -> count_sub filled_glyph bar = 0%nat)
    /\ ((count_sub filled_glyph bar + count_sub empty_glyph bar = 10)%nat
        <-> 0 <= n <= 10)
    /\ (forall v a, carries_result v a -> health_score a = Some n ->
          format_cart_analysis py_repr v = Ok (spec_report a)
          /\ spec_report_lines a !! 2%nat = Some bar).
Proof.
  intros Hfits.
  exists (spec_score_bar n).
  destruct (score_bar_glyph_counts n) as [Hf He].
  split; [exact (score_line_int n Hfits) |].
  split.
  { unfold spec_score_bar, glyphs.
    replace (Z.to_nat (Z.max n 0)) with (Z.to_nat n) by lia.
    replace (Z.to_nat (Z.max (10 - n) 0)) with (Z.to_nat (10 - n)) by lia.
    reflexivity. }
  rewrite Hf, He.
  split; [lia |]. split; [lia |]. split; [lia |]. split; [lia |].
  split; [lia |].
  intros v a Hv Hn. split.
  - apply (format_cart_analysis_carried v a Hv). now rewrite Hn.
  - unfold spec_report_lines. now rewrite Hn.
Qed.

(** C10 (as stated) fails: a score past the greatest index makes the
    first repetition raise [OverflowError], a score below the least one
    as well, and a score so far below zero that ten minus the score is
    past the greatest index makes the second repetition raise it; the
    formatter returns no report. *)
Lemma score_past_index_raises :
  score_line no_repr (VInt score_past_index) = Raise OverflowError
  /\ format_cart_analysis no_repr result_past_index = Raise OverflowError
  /\ score_line no_repr (VInt (- score_past_index - 1)) = Raise OverflowError
  /\ score_line no_repr (VInt (10 - score_past_index)) = Raise OverflowError.
Proof. repeat split; vm_compute; reflexivity. Qed.

(** C7: for every error indicator (a dictionary with a key [error], as
    the adapter builds on a parse failure) the formatter returns exactly
    the fixed apology, which holds no category heading, no score glyph
    and no score line. *)
Theorem error_indicator_gets_apology (v : value) :
  is_error_indicator v ->
  format_cart_analysis py_repr v = Ok apology_text
  /\ (forall raw, format_cart_analysis py_repr (error_indicator raw)
                  = Ok apology_text)
  /\ is_substring good_heading apology_text = false
  /\ is_substring okay_heading apology_text = false
  /\ is_substring reconsider_heading apology_text = false
  /\ is_substring filled_glyph apology_text = false
  /\ is_substring empty_glyph apology_text = false
  /\ is_substring "Health Score" apology_text = false.
Proof.
  intros (d & x & -> & Hd).
  split.
  { unfold format_cart_analysis, mbind, result_bind. simpl. now rewrite Hd. }
  repeat split.
Qed.

End FormatterProperties.

Lemma report_of_analysis_result_witness :
  carries_result (value_of_result sample_result) sample_result
  /\ 0 <= default 5 (health_score sample_result) <= 10
  /\ format_cart_analysis no_repr (value_of_result sample_result)
     = Ok (PyStr.join (String "010" "") (spec_report_lines sample_result)).
Proof.
  assert (Hc : carries_result (value_of_result sample_result) sample_result)
    by apply value_of_result_carries.
  assert (Hs : 0 <= default 5 (health_score sample_result) <= 10)
    by (simpl; lia).
  split; [exact Hc |]. split; [exact Hs |].
  pose proof (report_of_analysis_result no_repr
                (value_of_result sample_result) sample_result Hc Hs) as H.
  cbv zeta in H. destruct H as (_ & H & _). exact H.
Defined.

Lemma error_indicator_gets_apology_witness :
  is_error_indicator (error_indicator "I cannot see a cart in this image.")
  /\ format_cart_analysis no_repr
       (error_indicator "I cannot see a cart in this image.")
     = Ok apology_text.
Proof.
  assert (H : is_error_indicator
                (error_indicator "I cannot see a cart in this image."))
    by (eexists _, _; split; reflexivity).
  split; [exact H |].
  apply (error_indicator_gets_apology no_repr _ H).
Defined.

Lemma score_bar_not_clamped_witness :
  score_fits 12
  /\ score_fits (-3)
  /\ (exists bar,
        score_line no_repr (VInt 12) = Ok bar
        /\ count_sub filled_glyph bar = 12%nat
        /\ count_sub empty_glyph bar = 0%nat)
  /\ (exists bar,
        score_line no_repr (VInt (-3)) = Ok bar
        /\ count_sub filled_glyph bar = 0%nat
        /\ count_sub empty_glyph bar = 13%nat).
Proof.
  assert (H12 : score_fits 12) by (vm_compute; repeat split; discriminate).
  assert (H3 : score_fits (-3)) by (vm_compute; repeat split; discriminate).
  split; [exact H12 |]. split; [exact H3 |]. split.
  - destruct (score_bar_not_clamped no_repr 12 H12)
      as (bar & Hbar & _ & Hf & He & _).
    exists bar. split; [exact Hbar |]. split; lia.
  - destruct (score_bar_not_clamped no_repr (-3) H3)
      as (bar & Hbar & _ & Hf & He & _).
    exists bar. split; [exact Hbar |]. split; lia.
Defined.

(** ** Classifier adapter *)

Lemma len_cons (c : ascii) (s : string) : PyStr.len (String c s) = PyStr.len s + 1.
Proof. unfold PyStr.len. simpl String.length. lia. Qed.

Lemma len_nonneg (s : string) : 0 <= PyStr.len s.
Proof. unfold PyStr.len. lia. Qed.

Lemma len_app (a b : string) : PyStr.len (a +:+ b) = PyStr.len a + PyStr.len b.
Proof.
  induction a as [| c a IH]; simpl; [unfold PyStr.len; simpl; lia |].
  rewrite !len_cons, IH. lia.
Qed.

Lemma find_from_first (c : ascii) (pre rest : string) (i : Z) :
  absent c pre = true ->
  PyStr.find_from c (pre +:+ String c rest) i = i + PyStr.len pre.
Proof.
  revert i. induction pre as [| d pre IH]; intros i Hpre; simpl.
  - rewrite Ascii.eqb_refl. unfold PyStr.len. simpl. lia.
  - simpl in Hpre. apply andb_true_iff in Hpre as [Hd Hpre].
    apply negb_true_iff in Hd. rewrite Hd, (IH _ Hpre), len_cons. lia.
Qed.

Lemma rfind_from_absent (c : ascii) (s : string) (i last : Z) :
  absent c s = true -> PyStr.rfind_from c s i last = last.
Proof.
  revert i last. induction s as [| d s IH]; intros i last Hs; simpl;
    [reflexivity |].
  simpl in Hs. apply andb_true_iff in Hs as [Hd Hs].
  apply negb_true_iff in Hd. rewrite Hd. now apply IH.
Qed.

Lemma rfind_from_last (c : ascii) (front post : string) (i last : Z) :
  absent c post = true ->
  PyStr.rfind_from c (front +:+ String c post) i last = i + PyStr.len front.
Proof.
  revert i last. induction front as [| d front IH]; intros i last Hpost; simpl.
  - rewrite Ascii.eqb_refl, (rfind_from_absent c post _ _ Hpost).
    unfold PyStr.len. simpl. lia.
  - rewrite (IH _ _ Hpost), len_cons. lia.
Qed.

Lemma substring_middle (pre mid post : string) :
  String.substring (String.length pre) (String.length mid)
    (pre +:+ mid +:+ post) = mid.
Proof.
  induction pre as [| c pre IH]; simpl; [| exact IH].
  induction mid as [| d mid IHm]; simpl.
  - now destruct post.
  - now rewrite IHm.
Qed.

(** The candidate is the text from the first opening brace to the last
    closing brace, both included, whatever surrounds them. *)
Lemma json_candidate_wrapped (pre mid post : string) :
  absent "{" pre = true -> absent "}" post = true ->
  json_candidate (pre +:+ String "{" (mid +:+ String "}" post))
  = String "{" (mid +:+ String "}" "").
Proof.
  intros Hpre Hpost. unfold json_candidate, PyStr.find, PyStr.rfind.
  rewrite (find_from_first "{" pre _ 0 Hpre).
  replace (pre +:+ String "{" (mid +:+ String "}" post))
    with ((pre +:+ String "{" mid) +:+ String "}" post) at 2
    by (now rewrite append_assoc).
  rewrite (rfind_from_last "}" _ post 0 (-1) Hpost).
  unfold PyStr.slice, PyStr.clamp_index.
  set (s := pre +:+ String "{" (mid +:+ String "}" post)).
  assert (Hlen : PyStr.len s
                 = PyStr.len pre + PyStr.len mid + PyStr.len post + 2).
  { unfold s. rewrite len_app, len_cons, len_app, len_cons. lia. }
  pose proof (len_nonneg pre). pose proof (len_nonneg mid).
  pose proof (len_nonneg post).
  rewrite len_app, len_cons.
  replace (0 + PyStr.len pre <? 0) with false by (symmetry; apply Z.ltb_ge; lia).
  replace (0 + (PyStr.len pre + (PyStr.len mid + 1)) + 1 <? 0) with false
    by (symmetry; apply Z.ltb_ge; lia).
  rewrite !Z.min_l by lia.
  replace (Z.to_nat (0 + PyStr.len pre)) with (String.length pre)
    by (unfold PyStr.len; lia).
  replace (Z.to_nat (0 + (PyStr.len pre + (PyStr.len mid + 1)) + 1
                     - (0 + PyStr.len pre)))
    with (String.length (String "{" (mid +:+ String "}" "")))
    by (pose proof (len_app mid (String "}" "")) as Hm;
        rewrite len_cons in Hm; unfold PyStr.len in *; simpl in *; lia).
  unfold s.
  replace (pre +:+ String "{" (mid +:+ String "}" post))
    with (pre +:+ String "{" (mid +:+ String "}" "") +:+ post).
  - apply substring_middle.
  - f_equal. simpl. f_equal. now rewrite append_assoc.
Qed.

Lemma find_from_absent (c : ascii) (s : string) (i : Z) :
  absent c s = true -> PyStr.find_from c s i = -1.
Proof.
  revert i. induction s as [| d s IH]; intros i Hs; simpl; [reflexivity |].
  simpl in Hs. apply andb_true_iff in Hs as [Hd Hs].
  apply negb_true_iff in Hd. rewrite Hd. now apply IH.
Qed.

Lemma substring_zero (n : nat) (s : string) : String.substring n 0 s = "".
Proof.
  revert s. induction n as [| n IH]; intros [| c s]; simpl; auto.
Qed.

(** Without any brace the candidate is the empty string. *)
Lemma json_candidate_no_brace (content : string) :
  absent "{" content = true -> absent "}" content = true ->
  json_candidate content = "".
Proof.
  intros Ho Hc. unfold json_candidate, PyStr.find, PyStr.rfind.
  rewrite (find_from_absent _ _ _ Ho), (rfind_from_absent _ _ _ _ Hc).
  unfold PyStr.slice, PyStr.clamp_index.
  change (-1 <? 0) with true. change (-1 + 1 <? 0) with false. cbv iota.
  pose proof (len_nonneg content).
  replace (Z.to_nat (Z.min (-1 + 1) (PyStr.len content)
                     - Z.max 0 (-1 + PyStr.len content))) with 0%nat by lia.
  apply substring_zero.
Qed.

Section AdapterProperties.

Variable py_repr : value -> string.
Variable json_loads : string -> result value.

(** An answer with status 200 whose text parses: the parsed value. *)
Lemma analyze_parsed (content : string) (v : value) :
  json_loads (json_candidate content) = Ok v ->
  analyze_cart_with_claude json_loads
    {| status_code := 200; content_text := Some content |} = Ok v.
Proof. intros H. unfold analyze_cart_with_claude. simpl. now rewrite H. Qed.

(** An answer with status 200 whose text does not parse: the error
    indicator, with the whole text under [raw]; the parse exception
    stops here. *)
Lemma analyze_parse_failure (content : string) :
  json_loads (json_candidate content) = Raise JSONDecodeError
  \/ json_loads (json_candidate content) = Raise ValueError ->
  analyze_cart_with_claude json_loads
    {| status_code := 200; content_text := Some content |}
  = Ok (error_indicator content)
  /\ is_error_indicator (error_indicator content)
  /\ py_getitem (error_indicator content) "raw" = Ok (VStr content).
Proof.
  intros H. unfold analyze_cart_with_claude. simpl.
  split; [destruct H as [-> | ->]; reflexivity |].
  split; [eexists _, _; split; reflexivity | reflexivity].
Qed.

(** C6 (the code at the failing input): when the provider's status is
    not 200 the adapter returns [None], which is no error indicator and
    carries no raw text; the formatter raises [TypeError] on it. *)
Theorem upstream_failure_returns_none (response : api_response) :
  status_code response <> 200 ->
  analyze_cart_with_claude json_loads response = Ok VNone
  /\ ~ is_error_indicator VNone
  /\ py_getitem VNone "raw" = Raise TypeError
  /\ format_cart_analysis py_repr VNone = Raise TypeError.
Proof.
  intros Hst. unfold analyze_cart_with_claude.
  apply Z.eqb_neq in Hst. rewrite Hst. simpl.
  repeat split. intros (d & x & Hv & _). discriminate Hv.
Qed.

End AdapterProperties.

Lemma upstream_failure_returns_none_witness :
  status_code failed_response <> 200
  /\ analyze_cart_with_claude no_json failed_response = Ok VNone.
Proof.
  assert (H : status_code failed_response <> 200) by (simpl; lia).
  split; [exact H |].
  apply (upstream_failure_returns_none no_repr no_json failed_response H).
Defined.

(** What the user sees on an upstream failure: the acknowledgement, then
    the retry message of the handler's [except] branch, where an error
    indicator would have produced the apology; the profile keeps its
    counters. *)
Example upstream_failure_seen_by_user :
  let ph := "15550100" in
  let w' := handle_webhook no_repr no_json (ImageMessage ph (Some "media-1"))
              {| now := "2024-05-01T09:40:00";
                 photo_upstream := Responds failed_response |} ready_world in
  state_of ready_world ph = "ready"
  /\ outbox w' = outbox ready_world
                 ++ [(ph, analyzing_msg); (ph, went_wrong_msg)]
  /\ user_profiles w' = user_profiles ready_world
  /\ user_states w' = user_states ready_world.
Proof. cbv zeta. repeat split. Qed.

(** * Further properties of the module *)

(** ** Selection parsing *)

Lemma omap_lookup_In (catalog : gmap string string) (tokens : list string)
  (g : string) :
  In g (omap (fun n => catalog !! n) tokens) ->
  exists k, In k tokens /\ catalog !! k = Some g.
Proof.
  induction tokens as [| t tokens IH]; simpl; [tauto |].
  destruct (catalog !! t) as [x |] eqn:Ht.
  - intros [<- | H]; [exists t; split; [now left | exact Ht] |].
    destruct (IH H) as (k & Hk & Hg). exists k. split; [now right | exact Hg].
  - intros H. destruct (IH H) as (k & Hk & Hg).
    exists k. split; [now right | exact Hg].
Qed.

Lemma omap_lookup_length (catalog : gmap string string) (tokens : list string) :
  (length (omap (fun n => catalog !! n) tokens) <= length tokens)%nat.
Proof.
  induction tokens as [| t tokens IH]; cbn; [lia |].
  destruct (catalog !! t); cbn; lia.
Qed.

Lemma filter_length_le {A : Type} (f : A -> bool) (l : list A) :
  (length (List.filter f l) <= length l)%nat.
Proof.
  induction l as [| a l IH]; simpl; [lia |]. destruct (f a); simpl; lia.
Qed.

Lemma health_goal_label (k g : string) :
  HEALTH_GOALS !! k = Some g -> In g goal_labels.
Proof.
  intros H. apply elem_of_list_to_map_2 in H.
  apply list_elem_of_In in H. simpl in H.
  repeat (destruct H as [[= <- <-] | H]; [simpl; tauto |]). destruct H.
Qed.

Lemma restriction_label (k g : string) :
  RESTRICTIONS !! k = Some g -> In g restriction_labels.
Proof.
  intros H. apply elem_of_list_to_map_2 in H.
  apply list_elem_of_In in H. simpl in H.
  repeat (destruct H as [[= <- <-] | H]; [simpl; tauto |]). destruct H.
Qed.

(** X1: whatever the message, every selected goal is one of the six
    goal labels and every selected restriction one of the eight
    restriction labels, each the catalog entry of an all-digit token of
    the message; no more entries are selected than the message has
    tokens. *)
Theorem selection_within_catalog (message g : string) :
  (In g (selected_goals_of message) ->
   In g goal_labels
   /\ exists k, In k (spec_tokens message) /\ PyStr.isdigit k = true
                /\ HEALTH_GOALS !! k = Some g)
  /\ (In g (selected_restrictions_of message) ->
      In g restriction_labels
      /\ exists k, In k (spec_tokens message) /\ PyStr.isdigit k = true
                   /\ RESTRICTIONS !! k = Some g)
  /\ (length (selected_goals_of message)
      <= length (spec_tokens message))%nat
  /\ (length (selected_restrictions_of message)
      <= length (spec_tokens message))%nat.
Proof.
  rewrite selected_goals_spec, selected_restrictions_spec.
  unfold spec_select_keep_repeats.
  split; [| split; [| split]].
  - intros H. apply omap_lookup_In in H as (k & Hk & Hg).
    apply filter_In in Hk as [Hk Hd].
    split; [exact (health_goal_label k g Hg) | eauto].
  - intros H. apply omap_lookup_In in H as (k & Hk & Hg).
    apply filter_In in Hk as [Hk Hd].
    split; [exact (restriction_label k g Hg) | eauto].
  - etransitivity; [apply omap_lookup_length | apply filter_length_le].
  - etransitivity; [apply omap_lookup_length | apply filter_length_le].
Qed.

Lemma spec_tokens_map_chars (f : ascii -> ascii) (s tok : string) :
  (forall c, is_separator c = true -> is_separator (f c) = true) ->
  (forall c, is_separator c = false -> f c = c) ->
  spec_tokens_from tok (map_chars f s) = spec_tokens_from tok s.
Proof.
  intros Hsep Hid. revert tok.
  induction s as [| c s IH]; intros tok; simpl; [reflexivity |].
  destruct (is_separator c) eqn:Hc.
  - rewrite (Hsep c Hc). destruct tok; now rewrite IH.
  - rewrite (Hid c Hc), Hc. now rewrite IH.
Qed.

(** X2: commas and the whitespace characters are interchangeable
    separators.  Rewriting a message character by character so that
    separators stay separators and all other characters stay the same
    changes neither the selected goals nor the selected restrictions
    (outside the [none] shortcut, which reads the whole message). *)
Theorem selection_ignores_separator_choice (f : ascii -> ascii)
  (message : string) :
  (forall c, is_separator c = true -> is_separator (f c) = true) ->
  (forall c, is_separator c = false -> f c = c) ->
  selected_goals_of (map_chars f message) = selected_goals_of message
  /\ select_from RESTRICTIONS (numbers_of (map_chars f message))
     = select_from RESTRICTIONS (numbers_of message)
  /\ selected_restrictions_of (map_chars f message)
     = selected_restrictions_of message.
Proof.
  intros Hsep Hid.
  assert (Htok : spec_tokens (map_chars f message) = spec_tokens message)
    by (apply spec_tokens_map_chars; assumption).
  rewrite !selected_goals_spec, !selected_restrictions_spec, !numbers_of_spec.
  unfold spec_select_keep_repeats. now rewrite Htok.
Qed.

Lemma selection_ignores_separator_choice_witness :
  selected_goals_of (map_chars (fun c => if Ascii.eqb c "," then " "%char else c)
                       "1,2 ,6")
  = selected_goals_of "1,2 ,6".
Proof.
  apply (selection_ignores_separator_choice
           (fun c => if Ascii.eqb c "," then " "%char else c) "1,2 ,6").
  - intros c Hc. destruct (Ascii.eqb c ","); [reflexivity | exact Hc].
  - intros c Hc. destruct (Ascii.eqb c ",") eqn:E; [| reflexivity].
    apply Ascii.eqb_eq in E. subst c. discriminate Hc.
Defined.

(** ** Profile store *)

(** X3: the profile store is a map keyed by the phone number of the
    profile.  After [save_user_profile(p)] a look-up of [p.phone] returns
    [p] and every other look-up is as before; states and sent messages
    are untouched; saving the same profile twice is saving it once, and
    of two saves under one phone number the later one stays. *)
Theorem save_then_get (w : world) (p q : UserProfile) :
  let w1 := snd (save_user_profile p w) in
  get_user_profile (phone p) w1 = (Ok (Some p), w1)
  /\ (forall k, k <> phone p ->
        fst (get_user_profile k w1) = fst (get_user_profile k w))
  /\ user_states w1 = user_states w
  /\ outbox w1 = outbox w
  /\ snd (save_user_profile p w1) = w1
  /\ (phone q = phone p ->
      fst (get_user_profile (phone p) (snd (save_user_profile q w1)))
      = Ok (Some q)).
Proof.
  cbv zeta. unfold save_user_profile, get_user_profile. simpl.
  split; [now rewrite lookup_insert_eq |].
  split; [intros k Hk; now rewrite lookup_insert_ne by congruence |].
  split; [reflexivity |]. split; [reflexivity |].
  split; [now rewrite insert_insert_eq |].
  intros ->. now rewrite lookup_insert_eq.
Qed.

(** ** Commands *)

Lemma mem_string_In (x : string) (l : list string) :
  mem_string x l = true <-> In x l.
Proof.
  unfold mem_string. rewrite existsb_exists. split.
  - intros (y & Hy & E). apply String.eqb_eq in E. now subst.
  - intros H. exists x. split; [exact H | apply String.eqb_refl].
Qed.

(** At most one of the four command tests holds of a message. *)
Lemma commands_exclusive (message : string) :
  (is_reset_command message = true ->
   is_help_command message = false /\ is_stats_command message = false
   /\ is_profile_command message = false)
  /\ (is_help_command message = true ->
      is_stats_command message = false /\ is_profile_command message = false)
  /\ (is_stats_command message = true -> is_profile_command message = false).
Proof.
  unfold is_reset_command, is_help_command, is_stats_command,
    is_profile_command.
  split; [| split].
  - intros H. apply mem_string_In in H.
    simpl in H. destruct H as [<- | [<- | [<- | [<- | []]]]]; repeat split.
  - intros H. apply mem_string_In in H.
    simpl in H. destruct H as [<- | [<- | []]]; split; reflexivity.
  - intros H. apply String.eqb_eq in H. now rewrite H.
Qed.

(** X4: a reset command, in any state and whatever is stored, leaves the
    sender in [awaiting_goals] with a fresh profile (no goals, no
    restrictions, both counters zero, the new creation time), sends the
    welcome and leaves every other user's profile and state as they
    are. *)
Theorem reset_starts_over (w : world) (ph message nm now : string) :
  is_reset_command message = true ->
  let out := handle_text_message ph message nm now w in
  fst out = Ok tt
  /\ user_states (snd out) !! ph = Some "awaiting_goals"
  /\ user_profiles (snd out) !! ph = Some (new_profile ph nm now)
  /\ cart_checks (new_profile ph nm now) = 0
  /\ items_swapped (new_profile ph nm now) = 0
  /\ outbox (snd out) = outbox w ++ [(ph, welcome_msg nm)]
  /\ forall k, k <> ph ->
       user_profiles (snd out) !! k = user_profiles w !! k
       /\ user_states (snd out) !! k = user_states w !! k.
Proof.
  intros Hr. cbv zeta.
  rewrite (handle_text_message_reset w ph message nm now Hr). simpl.
  split; [reflexivity |].
  split; [apply lookup_insert_eq |]. split; [apply lookup_insert_eq |].
  split; [reflexivity |]. split; [reflexivity |]. split; [reflexivity |].
  intros k Hk.
  rewrite !lookup_insert_ne, !lookup_delete_ne by congruence. now split.
Qed.

Lemma reset_starts_over_witness :
  is_reset_command "  Start Over " = true
  /\ user_profiles
       (snd (handle_text_message "15550100" "  Start Over " "Asha"
               "2024-06-01T10:00:00" ready_world)) !! "15550100"
     = Some (new_profile "15550100" "Asha" "2024-06-01T10:00:00").
Proof.
  split; [reflexivity |].
  apply (reset_starts_over ready_world "15550100" "  Start Over " "Asha"
           "2024-06-01T10:00:00").
  reflexivity.
Defined.

(** X5: the help, stats and profile commands are answered in every
    state, also for a user never seen before, by exactly one message to
    the sender, and change neither profiles nor states.  Which of the
    three answers is sent depends on the command alone, since no message
    is two commands at once. *)
Theorem info_commands_read_only (w : world) (ph message nm now : string) :
  is_help_command message = true \/ is_stats_command message = true
  \/ is_profile_command message = true ->
  exists reply,
    handle_text_message ph message nm now w
    = (Ok tt, with_outbox w [(ph, reply)])
    /\ (is_help_command message = true -> reply = help_msg)
    /\ (is_stats_command message = true ->
        reply = stats_reply (user_profiles w !! ph))
    /\ (is_profile_command message = true ->
        reply = profile_reply (user_profiles w !! ph)).
Proof.
  intros Hcmd. destruct (commands_exclusive message) as (Hr & Hh & Hs).
  rewrite handle_text_message_eq. cbv zeta.
  destruct (is_reset_command message) eqn:Er.
  { destruct (Hr eq_refl) as (E1 & E2 & E3). rewrite E1, E2, E3 in Hcmd.
    destruct Hcmd as [H | [H | H]]; discriminate H. }
  destruct (is_help_command message) eqn:Eh.
  { destruct (Hh eq_refl) as (E2 & E3). rewrite E2, E3.
    exists help_msg. repeat split; intros H; discriminate H. }
  destruct (is_stats_command message) eqn:Es.
  { rewrite (Hs eq_refl). eexists. split; [reflexivity |].
    repeat split; intros H; discriminate H. }
  destruct (is_profile_command message) eqn:Ep.
  { eexists. split; [reflexivity |]. repeat split; intros H; discriminate H. }
  destruct Hcmd as [H | [H | H]]; discriminate H.
Qed.

Lemma info_commands_read_only_witness :
  exists reply,
    handle_text_message "15550100" " STATS" "Asha" "2024-06-01T10:00:00"
      initial_world
    = (Ok tt, with_outbox initial_world [("15550100", reply)]).
Proof.
  destruct (info_commands_read_only initial_world "15550100" " STATS" "Asha"
              "2024-06-01T10:00:00") as (reply & H & _).
  - right. left. reflexivity.
  - exists reply. exact H.
Defined.

Lemma substring_prefix (a b : string) :
  String.substring 0 (String.length a) (a +:+ b) = a.
Proof.
  induction a as [| c a IH]; simpl; [now destruct b |]. now rewrite IH.
Qed.

(** X6: the profile command lists goals and restrictions only for a
    profile that has both; a user without a profile, without goals or
    without restrictions is told the profile is not completed, so the
    text [None] is never listed as the restrictions to avoid.  The stats
    command shows the two counters and, for a creation time of ten or
    more characters, its first ten (the date of an ISO timestamp). *)
Theorem profile_and_stats_replies (profile : option UserProfile) :
  (profile_reply profile = no_profile_msg
   \/ exists p, profile = Some p
        /\ health_goals p <> [] /\ restrictions p <> []
        /\ profile_reply profile
           = profile_msg (PyStr.join ", " (health_goals p))
               (PyStr.join ", " (restrictions p)))
  /\ (forall p, profile = Some p -> restrictions p = [] ->
        profile_reply profile = no_profile_msg)
  /\ (forall p date rest, profile = Some p ->
        created_at p = date +:+ rest -> String.length date = 10%nat ->
        stats_reply profile
        = stats_msg (cart_checks p) (items_swapped p) date)
  /\ (forall p, profile = Some p -> created_at p = "" ->
        stats_reply profile
        = stats_msg (cart_checks p) (items_swapped p) "Today")
  /\ (profile = None -> stats_reply profile = no_stats_msg).
Proof.
  split; [| split; [| split; [| split]]].
  - destruct profile as [p |]; [| now left]. simpl.
    destruct (is_profile_complete p) eqn:Hc; [| now left].
    right. exists p. apply is_profile_complete_iff in Hc as [Hg Hr].
    repeat split; try assumption.
    destruct (restrictions p); [congruence | reflexivity].
  - intros p -> Hr. simpl.
    destruct (is_profile_complete p) eqn:Hc; [| reflexivity].
    apply is_profile_complete_iff in Hc as [_ Hr']. congruence.
  - intros p date rest -> Hc Hlen. unfold stats_reply. rewrite Hc.
    assert (Hs : PyStr.slice (date +:+ rest) 0 10 = date).
    { unfold PyStr.slice, PyStr.clamp_index, PyStr.len.
      change (0 <? 0) with false. change (10 <? 0) with false. cbv iota.
      pose proof (len_app date rest) as Hl. unfold PyStr.len in Hl.
      replace (Z.to_nat (Z.min 0 (Z.of_nat (String.length (date +:+ rest)))))
        with 0%nat by lia.
      replace (Z.to_nat (Z.min 10 (Z.of_nat (String.length (date +:+ rest)))
                         - Z.min 0 (Z.of_nat (String.length (date +:+ rest)))))
        with (String.length date) by lia.
      apply substring_prefix. }
    destruct date as [| c date]; [discriminate Hlen |].
    change (String c date +:+ rest) with (String c (date +:+ rest)) in *.
    cbv iota. now rewrite Hs.
  - intros p -> Hc. simpl. now rewrite Hc.
  - now intros ->.
Qed.

(** ** Onboarding steps *)

(** X7: at the goals step a text (no global command) with at least one
    recognized goal code replaces the stored goals by the selection, in
    the order typed, and moves the sender to [awaiting_restrictions];
    restrictions, counters, name and creation time of the profile are
    kept, the reply lists the selection, and no other user is
    touched. *)
Theorem goals_step_stores_selection (w : world) (ph message nm now : string)
  (p : UserProfile) :
  user_states w !! ph = Some "awaiting_goals" ->
  user_profiles w !! ph = Some p ->
  phone p = ph ->
  is_global_command message = false ->
  selected_goals_of message <> [] ->
  let out := handle_text_message ph message nm now w in
  let p' := with_health_goals p (selected_goals_of message) in
  fst out = Ok tt
  /\ user_states (snd out) !! ph = Some "awaiting_restrictions"
  /\ user_profiles (snd out) !! ph = Some p'
  /\ health_goals p' = spec_select_keep_repeats HEALTH_GOALS message
  /\ restrictions p' = restrictions p
  /\ cart_checks p' = cart_checks p /\ items_swapped p' = items_swapped p
  /\ name p' = name p /\ created_at p' = created_at p
  /\ outbox (snd out)
     = outbox w ++ [(ph, restrictions_msg (selected_goals_of message))]
  /\ forall k, k <> ph ->
       user_profiles (snd out) !! k = user_profiles w !! k
       /\ user_states (snd out) !! k = user_states w !! k.
Proof.
  intros Hst Hp Hph Hcmd Hsel. cbv zeta.
  rewrite (dispatch_by_state w ph message nm now Hcmd)
    by (rewrite Hp; eexists; reflexivity).
  unfold state_of. rewrite Hst. simpl.
  rewrite (handle_goals_response_run w ph message p Hp Hsel).
  cbv zeta. rewrite Hph. simpl.
  split; [reflexivity |].
  split; [apply lookup_insert_eq |]. split; [apply lookup_insert_eq |].
  split; [apply selected_goals_spec |].
  do 6 (split; [reflexivity |]).
  intros k Hk. rewrite !lookup_insert_ne by congruence. now split.
Qed.

Lemma goals_step_stores_selection_witness :
  user_states
    (snd (handle_text_message "15550100" "2, 1" "Asha" "2024-06-01T10:00:00"
            (handle_webhook no_repr no_json
               (TextMessage "15550100" "hi" "Asha") sample_env initial_world)))
    !! "15550100" = Some "awaiting_restrictions".
Proof.
  apply (goals_step_stores_selection
           (handle_webhook no_repr no_json
              (TextMessage "15550100" "hi" "Asha") sample_env initial_world)
           "15550100" "2, 1" "Asha" "2024-06-01T10:00:00"
           (new_profile "15550100" "Asha" (now sample_env)));
    try reflexivity.
  vm_compute. discriminate.
Defined.

(** X8: at the restrictions step a text (no global command) stores the
    recognized restrictions, in the order typed, and moves the sender to
    [ready], whatever was recognized; goals and counters are kept and no
    other user is touched.  The stored profile is complete exactly when
    it has goals and at least one restriction was recognized, and the
    reply lists [None] exactly when none was. *)
Theorem restrictions_step_stores_selection (w : world)
  (ph message nm now : string) (p : UserProfile) :
  user_states w !! ph = Some "awaiting_restrictions" ->
  user_profiles w !! ph = Some p ->
  phone p = ph ->
  is_global_command message = false ->
  let out := handle_text_message ph message nm now w in
  let rs := selected_restrictions_of message in
  let p' := with_restrictions p rs in
  fst out = Ok tt
  /\ user_states (snd out) !! ph = Some "ready"
  /\ user_profiles (snd out) !! ph = Some p'
  /\ restrictions p' = spec_select_keep_repeats RESTRICTIONS message
  /\ health_goals p' = health_goals p
  /\ cart_checks p' = cart_checks p /\ items_swapped p' = items_swapped p
  /\ (is_profile_complete p' = true <-> health_goals p <> [] /\ rs <> [])
  /\ outbox (snd out)
     = outbox w
       ++ [(ph, ready_msg (PyStr.join ", " (health_goals p))
                  (match rs with [] => "None" | _ => PyStr.join ", " rs end))]
  /\ forall k, k <> ph ->
       user_profiles (snd out) !! k = user_profiles w !! k
       /\ user_states (snd out) !! k = user_states w !! k.
Proof.
  intros Hst Hp Hph Hcmd. cbv zeta.
  rewrite (dispatch_by_state w ph message nm now Hcmd)
    by (rewrite Hp; eexists; reflexivity).
  unfold state_of. rewrite Hst. simpl.
  rewrite (handle_restrictions_response_run w ph message p Hp).
  cbv zeta. rewrite Hph. simpl.
  split; [reflexivity |].
  split; [apply lookup_insert_eq |]. split; [apply lookup_insert_eq |].
  split; [apply selected_restrictions_spec |].
  do 3 (split; [reflexivity |]).
  split; [apply is_profile_complete_iff |].
  split; [reflexivity |].
  intros k Hk. rewrite !lookup_insert_ne by congruence. now split.
Qed.

Lemma restrictions_step_stores_selection_witness :
  user_states
    (snd (handle_text_message "15550100" "3 8" "Asha" "2024-06-01T10:00:00"
            sample_world)) !! "15550100" = Some "ready".
Proof.
  apply (restrictions_step_stores_selection sample_world "15550100" "3 8"
           "Asha" "2024-06-01T10:00:00" sample_profile); reflexivity.
Defined.

Lemma is_global_command_false (message : string) :
  is_global_command message = false ->
  is_reset_command message = false /\ is_help_command message = false
  /\ is_stats_command message = false /\ is_profile_command message = false.
Proof.
  unfold is_global_command. intros H.
  apply orb_false_iff in H as [H Hp].
  apply orb_false_iff in H as [H Hs].
  apply orb_false_iff in H as [Hr Hh]. tauto.
Qed.

Section OnboardingFlow.

Variable py_repr : value -> string.
Variable json_loads : string -> result value.

(** X9: the onboarding dialogue end to end.  A user with no stored state
    who sends any greeting, then a text with at least one goal code, then
    any third text (none of them a global command) is [ready] with
    exactly the goals and restrictions selected, both counters zero and
    the creation time of the first message.  A photo sent next is
    acknowledged and analysed when at least one restriction was
    selected, and answered by the set-up prompt and a return to
    [awaiting_goals] when none was. *)
Theorem onboarding_dialogue (w : world) (ph greeting goals_text
  restrictions_text nm1 nm2 nm3 : string) (env1 env2 env3 : environment)
  (up : upstream) :
  user_states w !! ph = None ->
  is_global_command greeting = false ->
  is_global_command goals_text = false ->
  is_global_command restrictions_text = false ->
  selected_goals_of goals_text <> [] ->
  let w1 := handle_webhook py_repr json_loads
              (TextMessage ph greeting nm1) env1 w in
  let w2 := handle_webhook py_repr json_loads
              (TextMessage ph goals_text nm2) env2 w1 in
  let w3 := handle_webhook py_repr json_loads
              (TextMessage ph restrictions_text nm3) env3 w2 in
  let p := {| phone := ph; name := Some nm1;
              health_goals := selected_goals_of goals_text;
              restrictions := selected_restrictions_of restrictions_text;
              created_at := now env1; cart_checks := 0;
              items_swapped := 0 |} in
  let photo := handle_cart_photo py_repr json_loads ph up w3 in
  user_states w3 !! ph = Some "ready"
  /\ user_profiles w3 !! ph = Some p
  /\ (selected_restrictions_of restrictions_text <> [] ->
      user_states (snd photo) = user_states w3
      /\ exists sent,
           outbox (snd photo) = outbox w3 ++ (ph, analyzing_msg) :: sent)
  /\ (selected_restrictions_of restrictions_text = [] ->
      user_states (snd photo) !! ph = Some "awaiting_goals"
      /\ outbox (snd photo) = outbox w3 ++ [(ph, setup_first_msg)]).
Proof.
  intros Hnew Hc1 Hc2 Hc3 Hsel. cbv zeta.
  destruct (is_global_command_false greeting Hc1) as (_ & Hh & Hs & Hp).
  unfold handle_webhook, dispatch.
  destruct (handle_text_message_new w ph greeting nm1 (now env1) Hnew Hh Hs Hp)
    as [Hst1 Hp1].
  set (w1 := snd (handle_text_message ph greeting nm1 (now env1) w)) in *.
  assert (H2 : user_states
                 (snd (handle_text_message ph goals_text nm2 (now env2) w1))
                 !! ph = Some "awaiting_restrictions"
               /\ user_profiles
                    (snd (handle_text_message ph goals_text nm2 (now env2) w1))
                    !! ph
                  = Some (with_health_goals (new_profile ph nm1 (now env1))
                            (selected_goals_of goals_text))).
  { rewrite (dispatch_by_state w1 ph goals_text nm2 (now env2) Hc2)
      by (rewrite Hp1; eexists; reflexivity).
    unfold state_of. rewrite Hst1. simpl.
    rewrite (handle_goals_response_run w1 ph goals_text _ Hp1 Hsel).
    cbv zeta. simpl. split; apply lookup_insert_eq. }
  destruct H2 as [Hst2 Hp2].
  set (w2 := snd (handle_text_message ph goals_text nm2 (now env2) w1)) in *.
  assert (H3 : user_states
                 (snd (handle_text_message ph restrictions_text nm3
                         (now env3) w2)) !! ph = Some "ready"
               /\ user_profiles
                    (snd (handle_text_message ph restrictions_text nm3
                            (now env3) w2)) !! ph
                  = Some (with_restrictions
                            (with_health_goals (new_profile ph nm1 (now env1))
                               (selected_goals_of goals_text))
                            (selected_restrictions_of restrictions_text))).
  { rewrite (dispatch_by_state w2 ph restrictions_text nm3 (now env3) Hc3)
      by (rewrite Hp2; eexists; reflexivity).
    unfold state_of. rewrite Hst2. simpl.
    rewrite (handle_restrictions_response_run w2 ph restrictions_text _ Hp2).
    cbv zeta. simpl. split; apply lookup_insert_eq. }
  destruct H3 as [Hst3 Hp3].
  set (w3 := snd (handle_text_message ph restrictions_text nm3 (now env3) w2))
    in *.
  split; [exact Hst3 |]. split; [exact Hp3 |]. split.
  - intros Hrs.
    assert (Hc : is_profile_complete
                   (with_restrictions
                      (with_health_goals (new_profile ph nm1 (now env1))
                         (selected_goals_of goals_text))
                      (selected_restrictions_of restrictions_text)) = true)
      by (apply is_profile_complete_iff; split; assumption).
    destruct (handle_cart_photo_complete py_repr json_loads w3 ph _ up Hp3 Hc)
      as (_ & Hs' & Ho).
    split; assumption.
  - intros Hrs.
    rewrite (handle_cart_photo_redirect py_repr json_loads w3 ph up).
    + simpl. split; [apply lookup_insert_eq | reflexivity].
    + right. eexists. split; [exact Hp3 |].
      unfold is_profile_complete. simpl. rewrite Hrs. simpl.
      apply andb_false_r.
Qed.

End OnboardingFlow.

Lemma onboarding_dialogue_witness :
  user_states
    (handle_webhook no_repr no_json (TextMessage "15550100" "3 8" "Asha")
       sample_env
       (handle_webhook no_repr no_json (TextMessage "15550100" "2, 1" "Asha")
          sample_env
          (handle_webhook no_repr no_json (TextMessage "15550100" "hi" "Asha")
             sample_env initial_world))) !! "15550100" = Some "ready".
Proof.
  apply (onboarding_dialogue no_repr no_json initial_world "15550100" "hi"
           "2, 1" "3 8" "Asha" "Asha" "Asha" sample_env sample_env sample_env
           TransportRaises); try reflexivity.
  vm_compute. discriminate.
Defined.

(** ** Photo analysis *)

Section PhotoOutcomes.

Variable py_repr : value -> string.
Variable json_loads : string -> result value.

(** The photo handler on a complete profile stored under its own phone
    number, by what the collaborators answer. *)
Lemma handle_cart_photo_outcome (w : world) (ph : string) (p : UserProfile)
  (up : upstream) :
  user_profiles w !! ph = Some p ->
  is_profile_complete p = true ->
  phone p = ph ->
  handle_cart_photo py_repr json_loads ph up w
  = (Ok tt,
     match up with
     | TransportRaises =>
         with_outbox w [(ph, analyzing_msg); (ph, went_wrong_msg)]
     | Responds response =>
         match analyze_cart_with_claude json_loads response with
         | Raise _ =>
             with_outbox w [(ph, analyzing_msg); (ph, went_wrong_msg)]
         | Ok analysis =>
             match format_cart_analysis py_repr analysis with
             | Raise _ =>
                 with_outbox w [(ph, analyzing_msg); (ph, went_wrong_msg)]
             | Ok report =>
                 match reconsider_count analysis with
                 | Ok n =>
                     with_profile w ph (after_cart_check p n)
                       [(ph, analyzing_msg); (ph, report)]
                 | Raise _ =>
                     with_profile w ph
                       (with_cart_checks p (cart_checks p + 1))
                       [(ph, analyzing_msg); (ph, report);
                        (ph, went_wrong_msg)]
                 end
             end
         end
     end).
Proof.
  intros Hp Hc Hph. unfold handle_cart_photo. run_handler.
  rewrite Hp, Hc. unfold try_except, analyze_and_report, with_outbox,
    with_profile, reconsider_count, after_cart_check.
  destruct up as [| response]; run_handler;
    [now rewrite <- app_assoc |].
  destruct (analyze_cart_with_claude json_loads response) as [analysis | e];
    simpl; [| now rewrite <- app_assoc].
  destruct (format_cart_analysis py_repr analysis) as [report | e];
    simpl; [| now rewrite <- app_assoc].
  unfold mbind, result_bind.
  destruct (py_get analysis "items_found" (VList [])) as [items | e];
    simpl; [| now rewrite <- !app_assoc].
  destruct (py_iter items) as [its | e]; simpl; [| now rewrite <- !app_assoc].
  destruct (items_of_category "RECONSIDER" its) as [rs | e]; simpl;
    [| now rewrite <- !app_assoc].
  rewrite Hph, !insert_insert_eq, <- !app_assoc. reflexivity.
Qed.

End PhotoOutcomes.

Lemma forall2_length_carried (vs : list value) (items : list Item) :
  Forall2 carries_item vs items -> length vs = length items.
Proof. induction 1; simpl; congruence. Qed.

Lemma reconsider_count_carried (v : value) (a : CartAnalysisResult) :
  carries_result v a ->
  reconsider_count v
  = Ok (length (in_category Reconsider (items_found a))).
Proof.
  intros (d & vs & -> & _ & Hitems & Hvs & _).
  unfold reconsider_count, mbind, result_bind. simpl.
  assert (Hi : match dict_get "items_found" d with
               | Some x => x | None => VList [] end = VList vs)
    by (destruct Hitems as [-> | [-> ->]]; reflexivity).
  rewrite Hi. simpl.
  destruct (items_of_category_carried Reconsider vs _ Hvs) as (rs & Heq & Hrs).
  simpl in Heq. rewrite Heq. now rewrite (forall2_length_carried _ _ Hrs).
Qed.

(** A report that is not the apology has read the items already. *)
Lemma report_lines_reads_items (py_repr : value -> string) (analysis : value)
  (lines : list string) :
  report_lines py_repr analysis = Ok lines ->
  exists n, reconsider_count analysis = Ok n.
Proof.
  unfold report_lines, reconsider_count, mbind, result_bind.
  destruct (py_get analysis "items_found" (VList [])) as [items | e];
    [| discriminate].
  destruct (py_get analysis "health_score" (VInt 5)); [| discriminate].
  destruct (py_get analysis "encouragement" (VStr default_encouragement));
    [| discriminate].
  destruct (py_iter items) as [its | e]; [| discriminate].
  destruct (items_of_category "GOOD" its); [| discriminate].
  destruct (items_of_category "OKAY" its); [| discriminate].
  destruct (items_of_category "RECONSIDER" its) as [rs | e]; [| discriminate].
  intros _. eexists. reflexivity.
Qed.

Section PhotoProperties.

Variable py_repr : value -> string.
Variable json_loads : string -> result value.

(** X10: a photo from a user with a complete profile never changes the
    conversation state, the goals, the restrictions, the name or the
    creation time, and never touches another user.  The first reply is
    the acknowledgement; one or two more follow, all to the sender.  The
    counters never decrease, [cart_checks] grows by at most one, and
    [items_swapped] grows only together with [cart_checks]. *)
Theorem photo_analysis_keeps_profile (w : world) (ph : string)
  (p : UserProfile) (up : upstream) :
  user_profiles w !! ph = Some p ->
  is_profile_complete p = true ->
  phone p = ph ->
  let out := handle_cart_photo py_repr json_loads ph up w in
  fst out = Ok tt
  /\ user_states (snd out) = user_states w
  /\ (forall k, k <> ph -> user_profiles (snd out) !! k = user_profiles w !! k)
  /\ exists p' sent,
       user_profiles (snd out) !! ph = Some p'
       /\ same_selection p p'
       /\ name p' = name p /\ created_at p' = created_at p
       /\ cart_checks p <= cart_checks p' <= cart_checks p + 1
       /\ items_swapped p <= items_swapped p'
       /\ (cart_checks p' = cart_checks p -> items_swapped p' = items_swapped p)
       /\ outbox (snd out) = outbox w ++ (ph, analyzing_msg) :: sent
       /\ (1 <= length sent <= 2)%nat
       /\ Forall (fun m => fst m = ph) sent.
Proof.
  intros Hp Hc Hph. cbv zeta.
  rewrite (handle_cart_photo_outcome py_repr json_loads w ph p up Hp Hc Hph).
  simpl fst. simpl snd.
  assert (Hfail : let w' := with_outbox w [(ph, analyzing_msg);
                                           (ph, went_wrong_msg)] in
            Ok tt = Ok tt
            /\ user_states w' = user_states w
            /\ (forall k, k <> ph ->
                  user_profiles w' !! k = user_profiles w !! k)
            /\ exists p' sent,
                 user_profiles w' !! ph = Some p'
                 /\ same_selection p p'
                 /\ name p' = name p /\ created_at p' = created_at p
                 /\ cart_checks p <= cart_checks p' <= cart_checks p + 1
                 /\ items_swapped p <= items_swapped p'
                 /\ (cart_checks p' = cart_checks p ->
                     items_swapped p' = items_swapped p)
                 /\ outbox w' = outbox w ++ (ph, analyzing_msg) :: sent
                 /\ (1 <= length sent <= 2)%nat
                 /\ Forall (fun m => fst m = ph) sent).
  { cbv zeta. simpl. split; [reflexivity |]. split; [reflexivity |].
    split; [reflexivity |].
    exists p, [(ph, went_wrong_msg)]. simpl.
    repeat split; try assumption; try lia. repeat constructor. }
  destruct up as [| response]; [exact Hfail |].
  destruct (analyze_cart_with_claude json_loads response) as [analysis | e];
    [| exact Hfail].
  destruct (format_cart_analysis py_repr analysis) as [report | e];
    [| exact Hfail].
  destruct (reconsider_count analysis) as [n | e]; unfold with_profile; simpl.
  - split; [reflexivity |]. split; [reflexivity |].
    split; [intros k Hk; now rewrite lookup_insert_ne by congruence |].
    exists (after_cart_check p n), [(ph, report)].
    rewrite lookup_insert_eq. simpl.
    repeat split; try lia. repeat constructor.
  - split; [reflexivity |]. split; [reflexivity |].
    split; [intros k Hk; now rewrite lookup_insert_ne by congruence |].
    exists (with_cart_checks p (cart_checks p + 1)),
      [(ph, report); (ph, went_wrong_msg)].
    rewrite lookup_insert_eq. simpl.
    repeat split; try lia. repeat constructor.
Qed.

(** X11: a photo whose analysis parses to a dictionary carrying a
    result with a score from 0 to 10 (5 when the score is missing) is
    answered by the acknowledgement and the report of that result, and
    counted: [cart_checks] grows by one and [items_swapped] by the
    number of items to reconsider; nothing else changes. *)
Theorem analysed_photo_is_counted (w : world) (ph content : string)
  (p : UserProfile) (v : value) (a : CartAnalysisResult) :
  user_profiles w !! ph = Some p ->
  is_profile_complete p = true ->
  phone p = ph ->
  json_loads (json_candidate content) = Ok v ->
  carries_result v a ->
  0 <= default 5 (health_score a) <= 10 ->
  handle_cart_photo py_repr json_loads ph
    (Responds {| status_code := 200; content_text := Some content |}) w
  = (Ok tt,
     with_profile w ph
       (after_cart_check p (length (in_category Reconsider (items_found a))))
       [(ph, analyzing_msg); (ph, spec_report a)]).
Proof.
  intros Hp Hc Hph Hjson Hv Hscore.
  rewrite (handle_cart_photo_outcome py_repr json_loads w ph p _ Hp Hc Hph).
  rewrite (analyze_parsed json_loads content v Hjson).
  rewrite (format_cart_analysis_carried py_repr v a Hv
             (score_fits_standard _ Hscore)).
  now rewrite (reconsider_count_carried v a Hv).
Qed.

(** X12: a photo whose analysis text does not parse is answered by the
    acknowledgement and the apology, and is counted as a cart check all
    the same; [items_swapped] stays. *)
Theorem unparsed_analysis_is_counted (w : world) (ph content : string)
  (p : UserProfile) :
  user_profiles w !! ph = Some p ->
  is_profile_complete p = true ->
  phone p = ph ->
  json_loads (json_candidate content) = Raise JSONDecodeError
  \/ json_loads (json_candidate content) = Raise ValueError ->
  let out := handle_cart_photo py_repr json_loads ph
               (Responds {| status_code := 200;
                            content_text := Some content |}) w in
  out = (Ok tt,
         with_profile w ph (after_cart_check p 0)
           [(ph, analyzing_msg); (ph, apology_text)])
  /\ cart_checks (after_cart_check p 0) = cart_checks p + 1
  /\ items_swapped (after_cart_check p 0) = items_swapped p.
Proof.
  intros Hp Hc Hph Hjson. cbv zeta.
  rewrite (handle_cart_photo_outcome py_repr json_loads w ph p _ Hp Hc Hph).
  destruct (analyze_parse_failure json_loads content Hjson) as (-> & _).
  split; [reflexivity |]. split; [reflexivity |].
  unfold after_cart_check. simpl. lia.
Qed.

(** X13: when the download or the provider call raises, the provider
    answers with a status other than 200, or its answer holds no text,
    the user gets the acknowledgement and the retry message and nothing
    is counted: profiles and states are as before. *)
Theorem failed_upstream_is_not_counted (w : world) (ph : string)
  (p : UserProfile) (up : upstream) :
  user_profiles w !! ph = Some p ->
  is_profile_complete p = true ->
  phone p = ph ->
  up = TransportRaises
  \/ (exists response, up = Responds response
        /\ (status_code response <> 200 \/ content_text response = None)) ->
  handle_cart_photo py_repr json_loads ph up w
  = (Ok tt, with_outbox w [(ph, analyzing_msg); (ph, went_wrong_msg)]).
Proof.
  intros Hp Hc Hph Hup.
  rewrite (handle_cart_photo_outcome py_repr json_loads w ph p up Hp Hc Hph).
  destruct Hup as [-> | (response & -> & Hresp)]; [reflexivity |].
  unfold analyze_cart_with_claude.
  destruct (status_code response =? 200) eqn:Hs; simpl.
  - destruct Hresp as [Hne | ->]; [| reflexivity].
    apply Z.eqb_eq in Hs. contradiction.
  - reflexivity.
Qed.

(** X14: the retry message follows a report only when the report is the
    apology.  If the formatter returned a text and the count of items to
    reconsider then raises, the analysis has a key (or element, or
    substring) [error] and the text is the apology; for an analysis
    without it the count succeeds whenever the formatter does. *)
Theorem retry_after_report_only_for_errors (analysis : value)
  (report : string) :
  format_cart_analysis py_repr analysis = Ok report ->
  (py_in "error" analysis = Ok false ->
   exists n, reconsider_count analysis = Ok n)
  /\ (forall e, reconsider_count analysis = Raise e ->
        py_in "error" analysis = Ok true /\ report = apology_text).
Proof.
  unfold format_cart_analysis. unfold mbind at 1. unfold result_bind at 1.
  destruct (py_in "error" analysis) as [[|] |] eqn:Hin; [| | discriminate].
  - intros [= <-]. split; [discriminate |]. now intros e _.
  - unfold mbind, result_bind.
    destruct (report_lines py_repr analysis) as [lines |] eqn:Hl;
      [| discriminate].
    intros _. destruct (report_lines_reads_items py_repr analysis lines Hl)
      as [n Hn].
    split; [intros _; now exists n |].
    intros e He. rewrite Hn in He. discriminate He.
Qed.

End PhotoProperties.

Lemma photo_analysis_keeps_profile_witness :
  user_states
    (snd (handle_cart_photo no_repr sample_json "15550100"
            (Responds {| status_code := 200;
                         content_text := Some "Here you go: {sample} Enjoy!" |})
            returning_world))
  = user_states returning_world.
Proof.
  apply (photo_analysis_keeps_profile no_repr sample_json returning_world
           "15550100" returning_profile); reflexivity.
Defined.

Lemma analysed_photo_is_counted_witness :
  handle_cart_photo no_repr sample_json "15550100"
    (Responds {| status_code := 200;
                 content_text := Some "Here you go: {sample} Enjoy!" |})
    returning_world
  = (Ok tt,
     with_profile returning_world "15550100"
       (after_cart_check returning_profile 1)
       [("15550100", analyzing_msg); ("15550100", spec_report sample_result)]).
Proof.
  apply (analysed_photo_is_counted no_repr sample_json returning_world
           "15550100" "Here you go: {sample} Enjoy!" returning_profile
           (value_of_result sample_result) sample_result);
    try reflexivity.
  - apply value_of_result_carries.
  - simpl. lia.
Defined.

Lemma unparsed_analysis_is_counted_witness :
  handle_cart_photo no_repr sample_json "15550100"
    (Responds {| status_code := 200;
                 content_text := Some "I cannot see a cart." |})
    returning_world
  = (Ok tt,
     with_profile returning_world "15550100"
       (after_cart_check returning_profile 0)
       [("15550100", analyzing_msg); ("15550100", apology_text)]).
Proof.
  apply (unparsed_analysis_is_counted no_repr sample_json returning_world
           "15550100" "I cannot see a cart." returning_profile);
    try reflexivity.
  left. reflexivity.
Defined.

Lemma failed_upstream_is_not_counted_witness :
  handle_cart_photo no_repr sample_json "15550100" (Responds failed_response)
    returning_world
  = (Ok tt,
     with_outbox returning_world
       [("15550100", analyzing_msg); ("15550100", went_wrong_msg)]).
Proof.
  apply (failed_upstream_is_not_counted no_repr sample_json returning_world
           "15550100" returning_profile (Responds failed_response));
    try reflexivity.
  right. exists failed_response. split; [reflexivity |].
  left. simpl. lia.
Defined.

Lemma retry_after_report_only_for_errors_witness :
  format_cart_analysis no_repr error_with_null_items = Ok apology_text
  /\ reconsider_count error_with_null_items = Raise TypeError
  /\ py_in "error" error_with_null_items = Ok true.
Proof.
  assert (H : format_cart_analysis no_repr error_with_null_items
              = Ok apology_text) by reflexivity.
  split; [exact H |]. split; [reflexivity |].
  destruct (retry_after_report_only_for_errors no_repr error_with_null_items
              apology_text H) as [_ H2].
  exact (proj1 (H2 TypeError eq_refl)).
Defined.

(** ** Classifier adapter: what is handed to the parser *)

Lemma absent_split (c : ascii) (s : string) :
  absent c s = false ->
  exists front post, s = front +:+ String c post /\ absent c post = true.
Proof.
  induction s as [| d s IH]; simpl; [discriminate |].
  destruct (absent c s) eqn:Hs.
  - rewrite andb_true_r. intros Hd. apply negb_false_iff, Ascii.eqb_eq in Hd.
    subst d. exists "", s. split; [reflexivity | exact Hs].
  - intros _. destruct (IH eq_refl) as (front & post & -> & Hpost).
    exists (String d front), post. split; [reflexivity | exact Hpost].
Qed.

Lemma substring_last (front : string) (c : ascii) :
  String.substring (String.length front) 1 (front +:+ String c "")
  = String c "".
Proof. induction front as [| d front IH]; simpl; [reflexivity | exact IH]. Qed.

Lemma slice_empty (s : string) (a b : Z) :
  PyStr.clamp_index (PyStr.len s) b <= PyStr.clamp_index (PyStr.len s) a ->
  PyStr.slice s a b = "".
Proof.
  intros H. unfold PyStr.slice.
  replace (Z.to_nat (PyStr.clamp_index (PyStr.len s) b
                     - PyStr.clamp_index (PyStr.len s) a)) with 0%nat by lia.
  apply substring_zero.
Qed.

Section AdapterCandidates.

Variable json_loads : string -> result value.

(** X15: prose around the JSON does not reach the parser.  For an
    answer with status 200 whose text is some prose without an opening
    brace, then a brace-delimited body, then prose without a closing
    brace, the adapter returns what [json.loads] makes of the body
    alone: its value, the error indicator with the whole text as [raw]
    when it raises [JSONDecodeError] or [ValueError], and the exception
    itself when it raises another one. *)
Theorem wrapped_json_is_parsed (pre mid post : string) :
  absent "{" pre = true ->
  absent "}" post = true ->
  let content := pre +:+ String "{" (mid +:+ String "}" post) in
  let body := String "{" (mid +:+ String "}" "") in
  json_candidate content = body
  /\ analyze_cart_with_claude json_loads
       {| status_code := 200; content_text := Some content |}
     = match json_loads body with
       | Ok v => Ok v
       | Raise JSONDecodeError | Raise ValueError =>
           Ok (error_indicator content)
       | Raise e => Raise e
       end.
Proof.
  intros Hpre Hpost. cbv zeta.
  pose proof (json_candidate_wrapped pre mid post Hpre Hpost) as Hc.
  split; [exact Hc |].
  unfold analyze_cart_with_claude. simpl. now rewrite Hc.
Qed.

(** X16: a text with no opening brace never yields an object.  What is
    handed to the parser is then the empty string, or the single
    closing brace the text ends with; and when the last closing brace
    stands before the first opening one, it is the empty string.  With
    a parser that rejects these two texts the adapter returns the error
    indicator carrying the whole text. *)
Theorem braceless_text_is_an_error (content : string) :
  json_loads "" = Raise JSONDecodeError ->
  json_loads "}" = Raise JSONDecodeError ->
  (absent "{" content = true ->
   (json_candidate content = "" \/ json_candidate content = "}")
   /\ analyze_cart_with_claude json_loads
        {| status_code := 200; content_text := Some content |}
      = Ok (error_indicator content))
  /\ (forall a b c,
        content = a +:+ String "}" (b +:+ String "{" c) ->
        absent "{" a = true -> absent "{" b = true ->
        absent "}" b = true -> absent "}" c = true ->
        json_candidate content = ""
        /\ analyze_cart_with_claude json_loads
             {| status_code := 200; content_text := Some content |}
           = Ok (error_indicator content)).
Proof.
  intros Hempty Hbrace.
  assert (Hres : forall s,
            json_candidate s = "" \/ json_candidate s = "}" ->
            analyze_cart_with_claude json_loads
              {| status_code := 200; content_text := Some s |}
            = Ok (error_indicator s)).
  { intros s Hs. unfold analyze_cart_with_claude. simpl.
    destruct Hs as [-> | ->]; [now rewrite Hempty | now rewrite Hbrace]. }
  split.
  - intros Hopen.
    assert (Hcand : json_candidate content = ""
                    \/ json_candidate content = "}").
    { destruct (absent "}" content) eqn:Hclose.
      { left. now apply json_candidate_no_brace. }
      destruct (absent_split "}" content Hclose) as (front & post & -> & Hpost).
      unfold json_candidate, PyStr.find, PyStr.rfind.
      rewrite (find_from_absent _ _ _ Hopen).
      rewrite (rfind_from_last "}" front post 0 (-1) Hpost).
      pose proof (len_nonneg front) as Hf. pose proof (len_nonneg post) as Hq.
      assert (Hlen : PyStr.len (front +:+ String "}" post)
                     = PyStr.len front + PyStr.len post + 1)
        by (rewrite len_app, len_cons; lia).
      destruct post as [| q post].
      - right. unfold PyStr.slice, PyStr.clamp_index. rewrite Hlen.
        change (PyStr.len "") with 0.
        change (-1 <? 0) with true. cbv iota.
        replace (0 + PyStr.len front + 1 <? 0) with false
          by (symmetry; apply Z.ltb_ge; lia).
        replace (Z.to_nat (Z.max 0 (-1 + (PyStr.len front + 0 + 1))))
          with (String.length front) by (unfold PyStr.len; lia).
        replace (Z.to_nat (Z.min (0 + PyStr.len front + 1)
                             (PyStr.len front + 0 + 1)
                           - Z.max 0 (-1 + (PyStr.len front + 0 + 1))))
          with 1%nat by lia.
        apply substring_last.
      - left. apply slice_empty. unfold PyStr.clamp_index. rewrite Hlen.
        rewrite len_cons in *.
        pose proof (len_nonneg post).
        change (-1 <? 0) with true. cbv iota.
        replace (0 + PyStr.len front + 1 <? 0) with false
          by (symmetry; apply Z.ltb_ge; lia).
        lia. }
    split; [exact Hcand | exact (Hres content Hcand)].
  - intros a b c -> Ha Hb Hb' Hc.
    assert (Hcand : json_candidate (a +:+ String "}" (b +:+ String "{" c)) = "").
    { unfold json_candidate, PyStr.find, PyStr.rfind.
      replace (a +:+ String "}" (b +:+ String "{" c))
        with ((a +:+ String "}" b) +:+ String "{" c) at 2
        by (now rewrite append_assoc).
      rewrite (find_from_first "{" (a +:+ String "}" b) c 0)
        by (rewrite absent_app; simpl; now rewrite Ha, Hb).
      rewrite (rfind_from_last "}" a (b +:+ String "{" c) 0 (-1))
        by (rewrite absent_app; simpl; now rewrite Hb', Hc).
      apply slice_empty. unfold PyStr.clamp_index.
      rewrite !len_app, !len_cons, !len_app, !len_cons.
      pose proof (len_nonneg a). pose proof (len_nonneg b).
      pose proof (len_nonneg c).
      replace (0 + PyStr.len a + 1 <? 0) with false
        by (symmetry; apply Z.ltb_ge; lia).
      replace (0 + (PyStr.len a + (PyStr.len b + 1)) <? 0) with false
        by (symmetry; apply Z.ltb_ge; lia).
      lia. }
    split; [exact Hcand | apply Hres; now left].
Qed.

End AdapterCandidates.

Lemma wrapped_json_is_parsed_witness :
  analyze_cart_with_claude sample_json
    {| status_code := 200;
       content_text := Some "Here you go: {sample} Enjoy!" |}
  = Ok (value_of_result sample_result).
Proof.
  apply (wrapped_json_is_parsed sample_json "Here you go: " "sample"
           " Enjoy!"); reflexivity.
Defined.

Lemma braceless_text_is_an_error_witness :
  analyze_cart_with_claude no_json
    {| status_code := 200; content_text := Some "I see no cart here}" |}
  = Ok (error_indicator "I see no cart here}").
Proof.
  apply (braceless_text_is_an_error no_json "I see no cart here}");
    reflexivity.
Defined.

(** ** Formatter: items it leaves out and fields it cannot do without *)

Lemma items_of_category_app (cat : string) (l1 l2 : list value) :
  items_of_category cat (l1 ++ l2)
  = (a ← items_of_category cat l1; b ← items_of_category cat l2; Ok (a ++ b)).
Proof.
  induction l1 as [| i l1 IH]; simpl.
  - unfold mbind, result_bind. now destruct (items_of_category cat l2).
  - unfold mbind, result_bind in *. destruct (py_get i "category" VNone);
      [| reflexivity].
    rewrite IH. destruct (items_of_category cat l1); [| reflexivity].
    destruct (items_of_category cat l2); [| reflexivity].
    now destruct (eq_str a cat).
Qed.

Lemma items_of_category_skip (cat : string) (d : list (string * value))
  (l1 l2 : list value) :
  eq_str (category_of d) cat = false ->
  items_of_category cat (l1 ++ VDict d :: l2) = items_of_category cat (l1 ++ l2).
Proof.
  intros Hc. rewrite !items_of_category_app.
  unfold mbind, result_bind. destruct (items_of_category cat l1); [| reflexivity].
  simpl. unfold mbind, result_bind. fold (category_of d). rewrite Hc.
  now destruct (items_of_category cat l2).
Qed.

Lemma items_of_category_dicts (cat : string) (vs : list value) :
  Forall is_dict vs ->
  exists l, items_of_category cat vs = Ok l
    /\ Forall is_dict l
    /\ forall d, In (VDict d) l
                 <-> In (VDict d) vs /\ eq_str (category_of d) cat = true.
Proof.
  induction 1 as [| i vs [di ->] _ (l & Hl & Hd & Hin)]; simpl.
  - exists []. split; [reflexivity |]. split; [constructor |].
    intros d. simpl. tauto.
  - unfold mbind, result_bind. simpl. rewrite Hl. fold (category_of di).
    destruct (eq_str (category_of di) cat) eqn:Hc.
    + eexists. split; [reflexivity |].
      split; [constructor; [now exists di | exact Hd] |].
      intros d. simpl. rewrite Hin. split.
      * intros [[= ->] | [H1 H2]]; [split; [now left | exact Hc] |].
        split; [now right | exact H2].
      * intros [[E | H1] H2]; [now left | right; now split].
    + eexists. split; [reflexivity |]. split; [exact Hd |].
      intros d. rewrite Hin. split.
      * intros [H1 H2]. split; [now right | exact H2].
      * intros [[[= ->] | H1] H2]; [congruence | now split].
Qed.

Section FormatterEdges.

Variable py_repr : value -> string.

Lemma plain_item_lines_dict (d : list (string * value)) :
  (dict_get "name" d = None ->
   plain_item_lines py_repr (VDict d) = Raise KeyError)
  /\ (plain_item_lines py_repr (VDict d) = Raise KeyError
      \/ exists ls, plain_item_lines py_repr (VDict d) = Ok ls).
Proof.
  unfold plain_item_lines, mbind, result_bind. simpl.
  destruct (dict_get "name" d); split; try discriminate; eauto.
Qed.

Lemma reconsider_item_lines_dict (d : list (string * value)) :
  (dict_get "name" d = None ->
   reconsider_item_lines py_repr (VDict d) = Raise KeyError)
  /\ (reconsider_item_lines py_repr (VDict d) = Raise KeyError
      \/ exists ls, reconsider_item_lines py_repr (VDict d) = Ok ls).
Proof.
  unfold reconsider_item_lines, mbind, result_bind. simpl.
  destruct (dict_get "name" d); [| split; [reflexivity | now left]].
  split; [discriminate |]. right.
  destruct (dict_get "reason" d) as [r |]; simpl;
    destruct (dict_get "alternative" d) as [a |]; simpl;
    try destruct (truthy r); try destruct (truthy a); eauto.
Qed.

Lemma group_lines_dicts (heading : string)
  (f : value -> result (list string)) (l : list value) :
  (forall d, (dict_get "name" d = None -> f (VDict d) = Raise KeyError)
             /\ (f (VDict d) = Raise KeyError
                 \/ exists ls, f (VDict d) = Ok ls)) ->
  Forall is_dict l ->
  ((exists d, In (VDict d) l /\ dict_get "name" d = None) ->
   group_lines heading f l = Raise KeyError)
  /\ (group_lines heading f l = Raise KeyError
      \/ exists ls, group_lines heading f l = Ok ls).
Proof.
  intros Hf Hl.
  assert (Hm : ((exists d, In (VDict d) l /\ dict_get "name" d = None) ->
                map_result f l = Raise KeyError)
               /\ (map_result f l = Raise KeyError
                   \/ exists ls, map_result f l = Ok ls)).
  { induction Hl as [| i l [d ->] _ [IH1 IH2]]; simpl.
    - split; [intros (d & [] & _) | right; eauto].
    - unfold mbind, result_bind. destruct (Hf d) as [Hn Hr].
      split.
      + intros (d' & [[= ->] | Hin] & Hname); [now rewrite (Hn Hname) |].
        destruct Hr as [-> | [ls ->]]; [reflexivity |].
        rewrite IH1 by eauto. reflexivity.
      + destruct Hr as [-> | [ls ->]]; [now left |].
        destruct IH2 as [-> | [lss ->]]; [now left | right; eauto]. }
  destruct Hm as [Hm1 Hm2]. unfold group_lines.
  destruct l as [| i l].
  - split; [intros (d & [] & _) | right; eauto].
  - unfold mbind, result_bind. split.
    + intros H. now rewrite (Hm1 H).
    + destruct Hm2 as [-> | [ls ->]]; [now left | right; eauto].
Qed.

(** X17: an item whose category is none of [GOOD], [OKAY] and
    [RECONSIDER] (another tag, another case, no category at all) is left
    out without a trace: the formatter returns for the analysis what it
    returns for the analysis without that item, be it a report or an
    exception; the item needs no name. *)
Theorem stray_category_is_dropped (d d' item : list (string * value))
  (before after : list value) :
  known_category (category_of item) = false ->
  dict_get "items_found" d = Some (VList (before ++ VDict item :: after)) ->
  dict_get "items_found" d' = Some (VList (before ++ after)) ->
  dict_get "error" d = dict_get "error" d' ->
  dict_get "health_score" d = dict_get "health_score" d' ->
  dict_get "encouragement" d = dict_get "encouragement" d' ->
  format_cart_analysis py_repr (VDict d)
  = format_cart_analysis py_repr (VDict d').
Proof.
  unfold known_category. intros Hk Hd Hd' He Hs Hen.
  apply orb_false_iff in Hk as [Hk Hr].
  apply orb_false_iff in Hk as [Hg Ho].
  unfold format_cart_analysis, report_lines, mbind, result_bind. simpl.
  rewrite He, Hs, Hen, Hd, Hd'. simpl.
  now rewrite (items_of_category_skip "GOOD" item before after Hg),
    (items_of_category_skip "OKAY" item before after Ho),
    (items_of_category_skip "RECONSIDER" item before after Hr).
Qed.

(** X18: the report is all or nothing.  For an analysis without a key
    [error] whose items are dictionaries, a score that is no integer
    (a string, [null], a list) makes the formatter raise [TypeError]; an
    integer score one of whose repetition counts is no index makes it
    raise [OverflowError]; and an item of one of the three categories
    that has no [name] leaves no report whatever the score is, the
    exception being [KeyError] when the score is from 0 to 10 or
    missing.  No partial report is returned. *)
Theorem malformed_field_loses_report (d : list (string * value))
  (vs : list value) :
  dict_get "error" d = None ->
  dict_get "items_found" d = Some (VList vs) ->
  Forall is_dict vs ->
  (forall s, dict_get "health_score" d = Some s ->
     as_int s = Raise TypeError ->
     format_cart_analysis py_repr (VDict d) = Raise TypeError)
  /\ (forall n, dict_get "health_score" d = Some (VInt n) ->
        ~ score_fits n ->
        format_cart_analysis py_repr (VDict d) = Raise OverflowError)
  /\ (forall item,
        In (VDict item) vs ->
        known_category (category_of item) = true ->
        dict_get "name" item = None ->
        (forall report, format_cart_analysis py_repr (VDict d) <> Ok report)
        /\ (dict_get "health_score" d = None
            \/ (exists n, dict_get "health_score" d = Some (VInt n)
                          /\ 0 <= n <= 10) ->
            format_cart_analysis py_repr (VDict d) = Raise KeyError)).
Proof.
  intros Herr Hitems Hvs.
  destruct (items_of_category_dicts "GOOD" vs Hvs) as (gs & Hg & Hgd & Hgin).
  destruct (items_of_category_dicts "OKAY" vs Hvs) as (os & Ho & Hod & Hoin).
  destruct (items_of_category_dicts "RECONSIDER" vs Hvs)
    as (rs & Hr & Hrd & Hrin).
  split; [| split].
  - intros s Hs Hint.
    unfold format_cart_analysis, report_lines, mbind, result_bind. simpl.
    rewrite Herr, Hitems, Hs. simpl. rewrite Hg, Ho, Hr.
    unfold score_line, mbind, result_bind. now rewrite Hint.
  - intros n Hs Hn.
    unfold format_cart_analysis, report_lines, mbind, result_bind. simpl.
    rewrite Herr, Hitems, Hs. simpl. rewrite Hg, Ho, Hr.
    now rewrite (score_line_overflow py_repr n Hn).
  - intros item Hin Hknown Hname.
    assert (Hitem : forall bar,
              score_line py_repr
                match dict_get "health_score" d with
                | Some x => x | None => VInt 5 end = Ok bar ->
              format_cart_analysis py_repr (VDict d) = Raise KeyError).
    { intros bar Hbar.
      destruct (group_lines_dicts good_heading (plain_item_lines py_repr) gs
                  plain_item_lines_dict Hgd) as [Hg1 Hg2].
      destruct (group_lines_dicts okay_heading (plain_item_lines py_repr) os
                  plain_item_lines_dict Hod) as [Ho1 Ho2].
      destruct (group_lines_dicts reconsider_heading
                  (reconsider_item_lines py_repr) rs
                  reconsider_item_lines_dict Hrd) as [Hr1 Hr2].
      unfold format_cart_analysis, report_lines, mbind, result_bind. simpl.
      rewrite Herr, Hitems. simpl. rewrite Hg, Ho, Hr, Hbar.
      unfold known_category in Hknown.
      apply orb_true_iff in Hknown as [Hknown | Hkr].
      + apply orb_true_iff in Hknown as [Hkg | Hko].
        * rewrite Hg1; [reflexivity |].
          exists item. split; [apply Hgin; now split | exact Hname].
        * destruct Hg2 as [-> | [ls ->]]; [reflexivity |].
          rewrite Ho1; [reflexivity |].
          exists item. split; [apply Hoin; now split | exact Hname].
      + destruct Hg2 as [-> | [ls ->]]; [reflexivity |].
        destruct Ho2 as [-> | [ls' ->]]; [reflexivity |].
        rewrite Hr1; [reflexivity |].
        exists item. split; [apply Hrin; now split | exact Hname]. }
    split.
    + intros report.
      destruct (score_line py_repr
                  match dict_get "health_score" d with
                  | Some x => x | None => VInt 5 end) as [bar | e] eqn:Hbar.
      * rewrite (Hitem bar eq_refl). discriminate.
      * unfold format_cart_analysis, report_lines, mbind, result_bind. simpl.
        rewrite Herr, Hitems. simpl. rewrite Hg, Ho, Hr, Hbar. discriminate.
    + intros Hscore.
      apply (Hitem (spec_score_bar
                      match dict_get "health_score" d with
                      | Some (VInt n) => n | _ => 5 end)).
      destruct Hscore as [-> | (n & -> & Hn)];
        apply score_line_int, score_fits_standard; lia.
Qed.

End FormatterEdges.

Lemma stray_category_is_dropped_witness :
  format_cart_analysis no_repr result_with_stray_item
  = format_cart_analysis no_repr result_without_stray_item.
Proof.
  apply (stray_category_is_dropped no_repr _ _ [("category", VStr "good")]
           [VDict [("name", VStr "Oats"); ("category", VStr "GOOD")]]
           [VDict [("name", VStr "Soda"); ("category", VStr "RECONSIDER")]]);
    reflexivity.
Defined.

Lemma malformed_field_loses_report_witness :
  format_cart_analysis no_repr (VDict result_with_nameless_item)
  = Raise KeyError.
Proof.
  destruct (malformed_field_loses_report no_repr result_with_nameless_item
              [VDict [("category", VStr "OKAY")]]) as (_ & _ & H).
  - reflexivity.
  - reflexivity.
  - repeat constructor. eexists. reflexivity.
  - destruct (H [("category", VStr "OKAY")]) as [_ Hkey].
    + now left.
    + reflexivity.
    + reflexivity.
    + apply Hkey. right. exists 6. split; [reflexivity | lia].
Defined.

(** ** What every webhook event keeps *)

Lemma selected_goals_labels (message g : string) :
  In g (selected_goals_of message) -> In g goal_labels.
Proof.
  rewrite selected_goals_spec. unfold spec_select_keep_repeats. intros H.
  apply omap_lookup_In in H as (k & _ & Hk). exact (health_goal_label k g Hk).
Qed.

Lemma selected_restrictions_labels (message r : string) :
  In r (selected_restrictions_of message) -> In r restriction_labels.
Proof.
  rewrite selected_restrictions_spec. unfold spec_select_keep_repeats.
  intros H. apply omap_lookup_In in H as (k & _ & Hk).
  exact (restriction_label k r Hk).
Qed.

Lemma replies_one (w : world) (ph msg : string) (hi : nat)
  (profiles : gmap string UserProfile) (states : gmap string string) :
  (1 <= hi)%nat ->
  replies_to w {| user_profiles := profiles; user_states := states;
                  outbox := outbox w ++ [(ph, msg)] |} ph 1 hi.
Proof.
  intros Hhi. exists [(ph, msg)]. simpl.
  split; [reflexivity |]. split; [repeat constructor | lia].
Qed.

Lemma state_of_cases (w : world) (ph : string) :
  entries_ok w ph ->
  user_states w !! ph = None
  \/ user_states w !! ph = Some "awaiting_goals"
  \/ user_states w !! ph = Some "awaiting_restrictions"
  \/ user_states w !! ph = Some "ready".
Proof.
  intros (Hst & _). destruct (user_states w !! ph) as [st |]; [| now left].
  destruct (Hst st eq_refl) as [-> | [-> | ->]]; tauto.
Qed.

(** The entries a new user gets. *)
Lemma entries_ok_new (ph nm now : string)
  (m : gmap string UserProfile) (s : gmap string string)
  (sent : list (string * string)) :
  entries_ok {| user_profiles := <[ph := new_profile ph nm now]> m;
                user_states := <[ph := "awaiting_goals"]> s;
                outbox := sent |} ph.
Proof.
  unfold entries_ok. simpl. rewrite !lookup_insert_eq.
  split; [intros st [= <-]; left; reflexivity |].
  split; [| intros [H | H]; discriminate H].
  intros p [= <-]. simpl.
  split; [reflexivity |]. split; [eexists; reflexivity |].
  split; [tauto |]. split; [tauto |]. lia.
Qed.

Lemma handle_text_message_step (w : world) (ph message nm now : string) :
  consistent w -> entries_ok w ph ->
  let w' := snd (handle_text_message ph message nm now w) in
  same_elsewhere w w' ph /\ entries_ok w' ph /\ replies_to w w' ph 1 1.
Proof.
  intros Hc Hok. cbv zeta. rewrite handle_text_message_eq. cbv zeta.
  assert (Hsame : forall sent, same_elsewhere w (with_outbox w sent) ph)
    by (intros sent k Hk; now split).
  assert (Hkeep : forall sent, entries_ok (with_outbox w sent) ph)
    by (intros sent; exact Hok).
  destruct (is_reset_command message).
  { unfold handle_new_user. run_handler. split; [| split].
    - intros k Hk. simpl.
      rewrite !lookup_insert_ne, !lookup_delete_ne by congruence. now split.
    - apply entries_ok_new.
    - now apply replies_one. }
  destruct (is_help_command message);
    [split; [apply Hsame | split; [apply Hkeep | now apply replies_one]] |].
  destruct (is_stats_command message);
    [split; [apply Hsame | split; [apply Hkeep | now apply replies_one]] |].
  destruct (is_profile_command message);
    [split; [apply Hsame | split; [apply Hkeep | now apply replies_one]] |].
  destruct (String.eqb (state_of w ph) "new"
            || negb (bool_decide (is_Some (user_profiles w !! ph)))) eqn:Hn.
  { rewrite handle_new_user_run. simpl. split; [| split].
    - intros k Hk. simpl. rewrite !lookup_insert_ne by congruence. now split.
    - apply entries_ok_new.
    - now apply replies_one. }
  apply orb_false_iff in Hn as [Hnew Hprof].
  apply negb_false_iff, bool_decide_eq_true_1 in Hprof as [p Hp].
  destruct (Hc ph p Hp) as (Hph & Hrs & Hgs).
  destruct Hok as (Hst & Hpr & Hready).
  destruct (Hpr p Hp) as (_ & _ & Hgl & Hrl & Hcc & His).
  destruct (String.eqb (state_of w ph) "awaiting_goals") eqn:Hg.
  { apply state_of_eqb in Hg; [| discriminate].
    destruct (selected_goals_of message) as [| g gs] eqn:Hsel.
    - rewrite (handle_goals_response_reprompt w ph message Hsel).
      split; [apply Hsame |].
      split; [exact (conj Hst (conj Hpr Hready)) | now apply replies_one].
    - rewrite (handle_goals_response_run w ph message p Hp)
        by (rewrite Hsel; discriminate).
      cbv zeta. rewrite Hsel, Hph, insert_insert_eq. simpl.
      split; [| split].
      + intros k Hk. simpl. rewrite !lookup_insert_ne by congruence. now split.
      + unfold entries_ok. simpl. rewrite !lookup_insert_eq.
        split; [intros st [= <-]; right; left; reflexivity |].
        split; [| intros _; eexists; split; [reflexivity | discriminate]].
        intros p' [= <-]. simpl.
        split; [exact Hph |]. split; [eexists; reflexivity |].
        split; [| now repeat split].
        intros x Hx. apply (selected_goals_labels message). now rewrite Hsel.
      + now apply replies_one. }
  destruct (String.eqb (state_of w ph) "awaiting_restrictions") eqn:Hr.
  { apply state_of_eqb in Hr; [| discriminate].
    rewrite (handle_restrictions_response_run w ph message p Hp).
    cbv zeta. rewrite Hph, insert_insert_eq. simpl.
    split; [| split].
    - intros k Hk. simpl. rewrite !lookup_insert_ne by congruence. now split.
    - unfold entries_ok. simpl. rewrite !lookup_insert_eq.
      split; [intros st [= <-]; right; right; reflexivity |].
      split.
      + intros p' [= <-]. simpl.
        split; [exact Hph |]. split; [eexists; reflexivity |].
        split; [exact Hgl |].
        split; [apply selected_restrictions_labels | now split].
      + intros _. eexists. split; [reflexivity |]. simpl. now apply Hgs.
    - now apply replies_one. }
  destruct (String.eqb (state_of w ph) "ready") eqn:Hrd.
  { split; [apply Hsame |].
    split; [exact (conj Hst (conj Hpr Hready)) | now apply replies_one]. }
  exfalso.
  destruct (state_of_cases w ph (conj Hst (conj Hpr Hready)))
    as [H | [H | [H | H]]];
    unfold state_of in *; rewrite H in *; simpl in *; discriminate.
Qed.

Lemma entries_ok_ext (w w' : world) (k : string) :
  user_profiles w' !! k = user_profiles w !! k ->
  user_states w' !! k = user_states w !! k ->
  entries_ok w k -> entries_ok w' k.
Proof. unfold entries_ok. intros -> ->. tauto. Qed.

Section EventSteps.

Variable py_repr : value -> string.
Variable json_loads : string -> result value.

Lemma handle_cart_photo_step (w : world) (ph : string) (up : upstream) :
  consistent w -> entries_ok w ph ->
  let w' := snd (handle_cart_photo py_repr json_loads ph up w) in
  same_elsewhere w w' ph /\ entries_ok w' ph /\ replies_to w w' ph 1 3.
Proof.
  intros Hc Hok. cbv zeta.
  assert (Hredirect : no_complete_profile w ph ->
            let w' := snd (handle_cart_photo py_repr json_loads ph up w) in
            same_elsewhere w w' ph /\ entries_ok w' ph
            /\ replies_to w w' ph 1 3).
  { intros Hnp. cbv zeta.
    rewrite (handle_cart_photo_redirect py_repr json_loads w ph up Hnp). simpl.
    split; [| split].
    - intros k Hk. simpl. rewrite lookup_insert_ne by congruence. now split.
    - destruct Hok as (Hst & Hpr & Hready).
      unfold entries_ok. simpl. rewrite lookup_insert_eq.
      split; [intros st [= <-]; left; reflexivity |].
      split; [| intros [H | H]; discriminate H].
      intros p Hp. destruct (Hpr p Hp) as (H1 & _ & H3).
      split; [exact H1 |]. split; [eexists; reflexivity | exact H3].
    - apply replies_one. lia. }
  destruct (user_profiles w !! ph) as [p |] eqn:Hp;
    [| apply Hredirect; now left].
  destruct (is_profile_complete p) eqn:Hcomplete;
    [| apply Hredirect; right; eauto].
  destruct (Hc ph p Hp) as (Hph & _).
  destruct Hok as (Hst & Hpr & Hready).
  destruct (Hpr p Hp) as (_ & Hsome & Hgl & Hrl & Hcc & His).
  rewrite (handle_cart_photo_outcome py_repr json_loads w ph p up Hp
             Hcomplete Hph).
  simpl snd.
  assert (Hfail : let w' := with_outbox w [(ph, analyzing_msg);
                                           (ph, went_wrong_msg)] in
            same_elsewhere w w' ph /\ entries_ok w' ph
            /\ replies_to w w' ph 1 3).
  { cbv zeta. split; [intros k Hk; now split |].
    split; [exact (conj Hst (conj Hpr Hready)) |].
    eexists. split; [reflexivity |]. split; [repeat constructor | simpl; lia]. }
  assert (Hcount : forall p' sent,
            same_selection p p' -> 0 <= cart_checks p' ->
            0 <= items_swapped p' ->
            Forall (fun m => fst m = ph) sent ->
            (1 <= length sent <= 3)%nat ->
            let w' := with_profile w ph p' sent in
            same_elsewhere w w' ph /\ entries_ok w' ph
            /\ replies_to w w' ph 1 3).
  { intros p' sent (Hph' & Hg' & Hr') Hcc' His' Hto Hlen. cbv zeta.
    split; [intros k Hk; simpl; now rewrite lookup_insert_ne by congruence |].
    split; [| exists sent; repeat split; [exact Hto | lia | lia]].
    unfold entries_ok. simpl. rewrite lookup_insert_eq.
    split; [exact Hst |]. split.
    - intros q [= <-]. rewrite Hph', Hg', Hr'.
      repeat split; assumption.
    - intros Hrd. destruct (Hready Hrd) as (q & Hq & Hqg).
      rewrite Hp in Hq. injection Hq as <-.
      exists p'. split; [reflexivity | now rewrite Hg']. }
  destruct up as [| response]; [exact Hfail |].
  destruct (analyze_cart_with_claude json_loads response) as [analysis | e];
    [| exact Hfail].
  destruct (format_cart_analysis py_repr analysis) as [report | e];
    [| exact Hfail].
  destruct (reconsider_count analysis) as [n | e].
  - apply Hcount; simpl; try lia; repeat constructor.
  - apply Hcount; simpl; try lia; repeat constructor.
Qed.

Lemma handle_webhook_step (w : world) (ev : inbound) (env : environment)
  (ph : string) :
  consistent w -> entries_ok w ph -> sender ev = Some ph ->
  let w' := handle_webhook py_repr json_loads ev env w in
  same_elsewhere w w' ph /\ entries_ok w' ph /\ replies_to w w' ph 1 3.
Proof.
  intros Hc Hok Hsender. cbv zeta. unfold handle_webhook, dispatch.
  assert (Hone : forall msg,
            let w' := snd (send_whatsapp_message ph msg w) in
            same_elsewhere w w' ph /\ entries_ok w' ph
            /\ replies_to w w' ph 1 3).
  { intros msg. cbv zeta. simpl. split; [intros k Hk; now split |].
    split; [exact Hok | apply replies_one; lia]. }
  destruct ev as [| ph' body nm | ph' [[| c media] |] | ph'];
    simpl in Hsender; try discriminate; injection Hsender as ->;
    try apply Hone.
  - destruct (handle_text_message_step w ph body nm (now env) Hc Hok)
      as (H1 & H2 & sent & H3 & H4 & H5).
    split; [exact H1 |]. split; [exact H2 |].
    exists sent. repeat split; [exact H3 | exact H4 | lia | lia].
  - now apply handle_cart_photo_step.
Qed.

Lemma handle_webhook_well_formed (w : world) (ev : inbound)
  (env : environment) :
  consistent w -> well_formed w ->
  well_formed (handle_webhook py_repr json_loads ev env w).
Proof.
  intros Hc Hw.
  destruct (sender ev) as [ph |] eqn:Hsender.
  - destruct (handle_webhook_step w ev env ph Hc (Hw ph) Hsender)
      as (Hsame & Hok & _).
    intros k. destruct (decide (k = ph)) as [-> | Hk]; [exact Hok |].
    destruct (Hsame k Hk) as [Hp Hs].
    exact (entries_ok_ext w _ k Hp Hs (Hw k)).
  - destruct ev; try discriminate. exact Hw.
Qed.

Lemma reachable_well_formed (w : world) :
  reachable py_repr json_loads w -> well_formed w.
Proof.
  induction 1 as [| w ev env Hr IH].
  - intros ph. unfold entries_ok. simpl. rewrite !lookup_empty.
    repeat split; try discriminate. intros [H | H]; discriminate H.
  - apply handle_webhook_well_formed; [| exact IH].
    now apply (reachable_consistent py_repr json_loads).
Qed.

End EventSteps.


Section EventProperties.

Variable py_repr : value -> string.
Variable json_loads : string -> result value.

(** X19: the conversation is a three-state machine whose stored data
    follows the state.  On every state the process can reach and for
    every phone number: a stored conversation state is one of
    [awaiting_goals], [awaiting_restrictions] and [ready]; a stored
    profile has a stored conversation state; a user at
    [awaiting_restrictions] or [ready] has a stored profile with at
    least one health goal; and a user who is not [ready] has no
    restrictions stored. *)
Theorem state_machine_invariant (w : world) (ph : string) :
  reachable py_repr json_loads w ->
  (forall st, user_states w !! ph = Some st -> stored_state st)
  /\ (is_Some (user_profiles w !! ph) -> is_Some (user_states w !! ph))
  /\ (user_states w !! ph = Some "awaiting_restrictions"
      \/ user_states w !! ph = Some "ready" ->
      exists p, user_profiles w !! ph = Some p /\ health_goals p <> [])
  /\ (forall p, user_profiles w !! ph = Some p ->
        user_states w !! ph <> Some "ready" -> restrictions p = []).
Proof.
  intros Hr.
  destruct (reachable_well_formed py_repr json_loads w Hr ph)
    as (Hst & Hpr & Hready).
  pose proof (reachable_consistent py_repr json_loads w Hr) as Hc.
  split; [exact Hst |]. split; [| split; [exact Hready |]].
  - intros [p Hp]. now destruct (Hpr p Hp) as (_ & Hs & _).
  - intros p Hp Hnot. destruct (Hc ph p Hp) as (_ & Hrs & _).
    destruct (restrictions p) as [| r rs]; [reflexivity |].
    exfalso. apply Hnot. now apply Hrs.
Qed.

(** X20: every profile the process ever stores is valid.  On every
    reachable state a profile is stored under its own phone number, its
    health goals are labels of the goals catalog, its restrictions are
    labels of the restrictions catalog, and its two counters are not
    negative. *)
Theorem stored_profiles_are_valid (w : world) (ph : string)
  (p : UserProfile) :
  reachable py_repr json_loads w ->
  user_profiles w !! ph = Some p ->
  phone p = ph
  /\ (forall g, In g (health_goals p) -> In g goal_labels)
  /\ (forall r, In r (restrictions p) -> In r restriction_labels)
  /\ 0 <= cart_checks p /\ 0 <= items_swapped p.
Proof.
  intros Hr Hp.
  destruct (reachable_well_formed py_repr json_loads w Hr ph)
    as (_ & Hpr & _).
  destruct (Hpr p Hp) as (H1 & _ & H3). exact (conj H1 H3).
Qed.

(** X21: users are isolated from each other.  On every reachable state,
    handling an event leaves the profile and the conversation state of
    every phone number other than the sender's as they were (an event
    without a message leaves those of every phone number). *)
Theorem event_touches_only_its_sender (w : world) (ev : inbound)
  (env : environment) (k : string) :
  reachable py_repr json_loads w ->
  sender ev <> Some k ->
  let w' := handle_webhook py_repr json_loads ev env w in
  user_profiles w' !! k = user_profiles w !! k
  /\ user_states w' !! k = user_states w !! k.
Proof.
  intros Hr Hk. cbv zeta.
  destruct (sender ev) as [ph |] eqn:Hsender.
  - pose proof (reachable_consistent py_repr json_loads w Hr) as Hc.
    pose proof (reachable_well_formed py_repr json_loads w Hr ph) as Hok.
    destruct (handle_webhook_step py_repr json_loads w ev env ph Hc Hok
                Hsender) as (Hsame & _).
    apply Hsame. congruence.
  - destruct ev; try discriminate. now split.
Qed.

(** X22: every message is answered, and only its sender is written to.
    On every reachable state, handling an event that carries a message
    keeps the messages sent so far and sends between one and three
    more, each of them to the sender of the event; a text message gets
    exactly one reply. *)
Theorem every_message_is_answered (w : world) (ev : inbound)
  (env : environment) (ph : string) :
  reachable py_repr json_loads w ->
  sender ev = Some ph ->
  exists sent,
    outbox (handle_webhook py_repr json_loads ev env w) = outbox w ++ sent
    /\ Forall (fun m => fst m = ph) sent
    /\ (1 <= length sent <= 3)%nat
    /\ ((exists body nm, ev = TextMessage ph body nm) -> length sent = 1%nat).
Proof.
  intros Hr Hsender.
  pose proof (reachable_consistent py_repr json_loads w Hr) as Hc.
  pose proof (reachable_well_formed py_repr json_loads w Hr ph) as Hok.
  destruct (handle_webhook_step py_repr json_loads w ev env ph Hc Hok
              Hsender) as (_ & _ & sent & Hout & Hto & Hlen).
  exists sent. split; [exact Hout |]. split; [exact Hto |].
  split; [exact Hlen |].
  intros (body & nm & ->).
  destruct (handle_text_message_step w ph body nm (now env) Hc Hok)
    as (_ & _ & sent' & Hout' & _ & Hlen').
  unfold handle_webhook, dispatch in Hout. rewrite Hout' in Hout.
  apply app_inv_head in Hout. subst sent'. lia.
Qed.

End EventProperties.

Lemma state_machine_invariant_witness :
  reachable no_repr no_json ready_world
  /\ (forall st, user_states ready_world !! "15550100" = Some st ->
        stored_state st)
  /\ (is_Some (user_profiles ready_world !! "15550100") ->
      is_Some (user_states ready_world !! "15550100"))
  /\ (user_states ready_world !! "15550100" = Some "awaiting_restrictions"
      \/ user_states ready_world !! "15550100" = Some "ready" ->
      exists p, user_profiles ready_world !! "15550100" = Some p
                /\ health_goals p <> [])
  /\ (forall p, user_profiles ready_world !! "15550100" = Some p ->
        user_states ready_world !! "15550100" <> Some "ready" ->
        restrictions p = []).
Proof.
  assert (Hreach : reachable no_repr no_json ready_world)
    by (unfold ready_world, at_restrictions_step;
        repeat apply reachable_step; apply reachable_initial).
  split; [exact Hreach |].
  exact (state_machine_invariant no_repr no_json ready_world "15550100"
           Hreach).
Defined.

Lemma stored_profiles_are_valid_witness :
  reachable no_repr no_json ready_world
  /\ user_profiles ready_world !! "15550100"
     = Some (with_restrictions sample_profile ["No sugar"; "No nuts"])
  /\ (forall g, In g ["Lose weight"] -> In g goal_labels)
  /\ (forall r, In r ["No sugar"; "No nuts"] -> In r restriction_labels).
Proof.
  assert (Hreach : reachable no_repr no_json ready_world)
    by (unfold ready_world, at_restrictions_step;
        repeat apply reachable_step; apply reachable_initial).
  assert (Hp : user_profiles ready_world !! "15550100"
               = Some (with_restrictions sample_profile
                         ["No sugar"; "No nuts"]))
    by (vm_compute; reflexivity).
  split; [exact Hreach |]. split; [exact Hp |].
  destruct (stored_profiles_are_valid no_repr no_json ready_world
              "15550100" _ Hreach Hp) as (_ & Hg & Hrs & _).
  split; [exact Hg | exact Hrs].
Defined.

Lemma event_touches_only_its_sender_witness :
  reachable no_repr no_json ready_world
  /\ user_profiles
       (handle_webhook no_repr no_json (TextMessage "15550199" "reset" "Ben")
          sample_env ready_world) !! "15550100"
     = user_profiles ready_world !! "15550100"
  /\ user_states
       (handle_webhook no_repr no_json (TextMessage "15550199" "reset" "Ben")
          sample_env ready_world) !! "15550100"
     = user_states ready_world !! "15550100".
Proof.
  assert (Hreach : reachable no_repr no_json ready_world)
    by (unfold ready_world, at_restrictions_step;
        repeat apply reachable_step; apply reachable_initial).
  split; [exact Hreach |].
  apply (event_touches_only_its_sender no_repr no_json ready_world
           (TextMessage "15550199" "reset" "Ben") sample_env "15550100"
           Hreach).
  simpl. discriminate.
Defined.

Lemma every_message_is_answered_witness :
  reachable no_repr no_json ready_world
  /\ exists sent,
       outbox (handle_webhook no_repr no_json
                 (ImageMessage "15550100" (Some "media-1")) sample_env
                 ready_world)
       = outbox ready_world ++ sent
       /\ Forall (fun m => fst m = "15550100") sent
       /\ (1 <= length sent <= 3)%nat.
Proof.
  assert (Hreach : reachable no_repr no_json ready_world)
    by (unfold ready_world, at_restrictions_step;
        repeat apply reachable_step; apply reachable_initial).
  split; [exact Hreach |].
  destruct (every_message_is_answered no_repr no_json ready_world
              (ImageMessage "15550100" (Some "media-1")) sample_env
              "15550100" Hreach eq_refl)
    as (sent & H1 & H2 & H3 & _).
  exists sent. split; [exact H1 |]. split; [exact H2 | exact H3].
Defined.
